(** * A shallow embedding of [chatbot.py]: the Weaviate knowledge-base chatbot

    The class [WeaviateChatbot] is thin glue over external collaborators
    (the process environment, the file system, the llama_index
    [VectorStoreIndex] and query engine, the Weaviate client, the OpenAI
    and HuggingFace providers).  The methods of the class are translated
    statement by statement into a state-and-exception monad.  The
    collaborators are represented by a [World]: the data they hold, the
    trace of calls made to them, and oracles that decide which call fails
    and what the retrieval and completion providers answer.

    What is assumed of the collaborators is written at the operation that
    stands for each: an [index.insert] that succeeds stores the Document at
    the end of its collection and one that fails stores nothing,
    [schema.delete_class] removes a class with its objects, a vector store
    attached to a collection creates its class, with no object, when the
    class is absent, a query reads the collection and writes nothing, and
    the handles (client, vector store, index, query engine) are values
    that name the collection.

    The two scripts beside the class are embedded in the same monad: the
    Streamlit page [streamlit_app.py], one run of the script at a time on
    the session state and the widget values of that run, and the service
    probes [test_services.py], on the replies of the network and the
    values the JSON parser returns. *)

From Stdlib Require Import QArith Ascii.
From stdpp Require Import gmap strings list pretty.

(** ** Python exceptions *)

(** The exception classes the code and its collaborators raise.  Only
    subclasses of [Exception] are represented, so [except Exception]
    catches every exception of the model. *)
Inductive ExcClass :=
  | ValueError
  | UnicodeDecodeError     (* subclass of ValueError *)
  | OSError
  | FileNotFoundError      (* subclass of OSError *)
  | PermissionError        (* subclass of OSError *)
  | ConnectionError        (* subclass of OSError *)
  | TimeoutError           (* subclass of OSError *)
  | AttributeError
  | EOFError
  | LibraryError (cls : string).   (* an exception class of a library *)

Record Exc := { exc_class : ExcClass; exc_msg : string }.

(** [isinstance(e, OSError)]; [IOError] is an alias of [OSError]. *)
Definition is_OSError (e : Exc) : bool :=
  match exc_class e with
  | OSError | FileNotFoundError | PermissionError
  | ConnectionError | TimeoutError => true
  | _ => false
  end.

(** [str(e)], as the f-strings [f"...{e}"] format it. *)
Definition str_exc (e : Exc) : string := exc_msg e.

(** ** Values of the collaborating libraries *)

(** [llama_index.core.Document]: [Document(text=t)] leaves the metadata
    dictionary empty. *)
Record Document := { text : string; metadata : list (string * string) }.

Definition Document_new (t : string) : Document :=
  {| text := t; metadata := [] |}.

Record WeaviateClient := { client_url : string }.

Record WeaviateVectorStore :=
  { vs_client : WeaviateClient; vs_index_name : string }.

Record StorageContext := { sc_vector_store : WeaviateVectorStore }.

Record VectorStoreIndex :=
  { idx_vector_store : WeaviateVectorStore;
    idx_storage_context : StorageContext }.

Record QueryEngine :=
  { qe_index : VectorStoreIndex;
    similarity_top_k : nat;
    response_mode : string }.

Record Response := { response_text : string; source_nodes : list Document }.

(** [str(response)] *)
Definition str_response (r : Response) : string := response_text r.

(** Values of the keyword dictionary [llm_kwargs]. *)
Inductive KwVal :=
  | KwStr (s : string)
  | KwFloat (q : Q).   (* a float, as the decimal its literal writes *)

Record HuggingFaceEmbedding :=
  { hf_model_name : string; hf_trust_remote_code : bool; hf_device : string }.

(** The global [llama_index.core.Settings] object. *)
Record Settings :=
  { llm : option (gmap string KwVal);
    embed_model : option HuggingFaceEmbedding;
    tokenizer : option string }.

(** ** The world outside the class *)

(** A file of the file system, as [open(path, 'r', encoding='utf-8')]
    followed by [read()] meets it. *)
Inductive FileEntry :=
  | TextFile (content : string)   (* opens, and decodes to [content] *)
  | DeniedFile                    (* exists, but may not be opened *)
  | NotUtf8File (msg : string).   (* opens, but read() fails to decode: [msg] *)

(** Calls to the providers and to the vector database. *)
Inductive Call :=
  | CallOpenAI (kwargs : gmap string KwVal)
  | CallHuggingFaceEmbedding (e : HuggingFaceEmbedding)
  | CallAutoTokenizer (name : string)
  | CallWeaviateClient (url : string)
  | CallIsReady (url : string)
  | CallWeaviateVectorStore (index_name : string)
  | CallStorageContext (index_name : string)
  | CallFromVectorStore (index_name : string)
  | CallVectorStoreIndex (index_name : string) (nodes : list Document)
  | CallAsQueryEngine (index_name : string) (top_k : nat) (mode : string)
  | CallInsert (index_name : string) (doc : Document)
  | CallQuery (index_name : string) (message : string)
  | CallDeleteClass (class_name : string)
  | CallSchemaGet.

Inductive LogLevel := INFO | ERROR.

Record World :=
  { environ : gmap string string;          (* os.environ *)
    files : gmap string FileEntry;         (* the file system *)
    classes : gmap string (list Document); (* Weaviate: class name to objects *)
    weaviate_ready : string -> bool;       (* what is_ready() answers at a url *)
    settings : Settings;                   (* llama_index Settings *)
    log : list (LogLevel * string);        (* the module's logger *)
    stdout : list string;                  (* what print and input wrote *)
    trace : list Call;                     (* calls made so far, oldest first *)
    (* Oracles.  [fault h c] is the exception that call [c] raises when
       made after the calls [h], if it fails. *)
    fault : list Call -> Call -> option Exc;
    similarity : string -> string -> Z;    (* score of a text for a message *)
    synthesize : string -> list string -> string -> string
      (* the completion provider's answer: response mode, context texts,
         message *) }.

(** The Documents stored under a class name; none when the class is absent. *)
Definition collection (w : World) (name : string) : list Document :=
  default [] (classes w !! name).

Definition set_classes (f : gmap string (list Document) -> gmap string (list Document))
    (w : World) : World :=
  {| environ := environ w; files := files w; classes := f (classes w);
     weaviate_ready := weaviate_ready w; settings := settings w;
     log := log w; stdout := stdout w; trace := trace w; fault := fault w;
     similarity := similarity w; synthesize := synthesize w |}.

Definition set_settings (f : Settings -> Settings) (w : World) : World :=
  {| environ := environ w; files := files w; classes := classes w;
     weaviate_ready := weaviate_ready w; settings := f (settings w);
     log := log w; stdout := stdout w; trace := trace w; fault := fault w;
     similarity := similarity w; synthesize := synthesize w |}.

Definition add_log (lvl : LogLevel) (msg : string) (w : World) : World :=
  {| environ := environ w; files := files w; classes := classes w;
     weaviate_ready := weaviate_ready w; settings := settings w;
     log := log w ++ [(lvl, msg)]; stdout := stdout w; trace := trace w;
     fault := fault w;
     similarity := similarity w; synthesize := synthesize w |}.

Definition record_call (c : Call) (w : World) : World :=
  {| environ := environ w; files := files w; classes := classes w;
     weaviate_ready := weaviate_ready w; settings := settings w;
     log := log w; stdout := stdout w; trace := trace w ++ [c];
     fault := fault w;
     similarity := similarity w; synthesize := synthesize w |}.

Definition write_stdout (out : string) (w : World) : World :=
  {| environ := environ w; files := files w; classes := classes w;
     weaviate_ready := weaviate_ready w; settings := settings w;
     log := log w; stdout := stdout w ++ [out]; trace := trace w;
     fault := fault w;
     similarity := similarity w; synthesize := synthesize w |}.

(** ** The monad of Python statements *)

(** A statement run in state [S] either returns a value or raises; the
    state it leaves is kept in both cases (nothing is rolled back). *)
Inductive Outcome (A : Type) :=
  | Return (a : A)
  | Raise (e : Exc).
Arguments Return {A} a.
Arguments Raise {A} e.

Definition M (S A : Type) : Type := S -> Outcome A * S.

Definition ret {S A} (a : A) : M S A := fun s => (Return a, s).

Definition bind {S A B} (m : M S A) (k : A -> M S B) : M S B :=
  fun s => match m s with
           | (Return a, s') => k a s'
           | (Raise e, s') => (Raise e, s')
           end.

Definition raise {S A} (e : Exc) : M S A := fun s => (Raise e, s).

(** [try: body except Exception as e: handler e] *)
Definition try_except {S A} (body : M S A) (handler : Exc -> M S A) : M S A :=
  fun s => match body s with
           | (Return a, s') => (Return a, s')
           | (Raise e, s') => handler e s'
           end.

Definition get {S} : M S S := fun s => (Return s, s).
Definition modify {S} (f : S -> S) : M S unit := fun s => (Return tt, f s).

Declare Scope py_scope.
Delimit Scope py_scope with py.
Notation "x <- c1 ;; c2" := (bind c1 (fun x => c2))
  (at level 100, c1 at next level, right associativity) : py_scope.
Notation "c1 ;; c2" := (bind c1 (fun _ => c2))
  (at level 100, right associativity) : py_scope.
Open Scope py_scope.

(** [for x in l: body x] *)
Fixpoint for_each {S A} (l : list A) (body : A -> M S unit) : M S unit :=
  match l with
  | [] => ret tt
  | x :: rest => body x;; for_each rest body
  end.

(** ** The collaborators' operations *)

(** A call to a provider or to the vector database: it is recorded in the
    trace, and raises when the oracle says so. *)
Definition call (c : Call) : M World unit :=
  fun w => match fault w (trace w) c with
           | Some e => (Raise e, record_call c w)
           | None => (Return tt, record_call c w)
           end.

Definition os_getenv (key : string) : M World (option string) :=
  fun w => (Return (environ w !! key), w).

Definition logger_info (msg : string) : M World unit := modify (add_log INFO msg).
Definition logger_error (msg : string) : M World unit := modify (add_log ERROR msg).

(** [with open(path, 'r', encoding='utf-8') as f: content = f.read()] *)
Definition open_read (path : string) : M World string :=
  fun w => match files w !! path with
           | Some (TextFile content) => (Return content, w)
           | Some DeniedFile =>
               (Raise {| exc_class := PermissionError;
                         exc_msg := "[Errno 13] Permission denied: '" +:+ path +:+ "'" |}, w)
           | Some (NotUtf8File msg) =>
               (Raise {| exc_class := UnicodeDecodeError; exc_msg := msg |}, w)
           | None =>
               (Raise {| exc_class := FileNotFoundError;
                         exc_msg := "[Errno 2] No such file or directory: '" +:+ path +:+ "'" |}, w)
           end.

Definition OpenAI_new (kwargs : gmap string KwVal) : M World (gmap string KwVal) :=
  call (CallOpenAI kwargs);; ret kwargs.

Definition HuggingFaceEmbedding_new (model_name : string) (trust_remote_code : bool)
    (device : string) : M World HuggingFaceEmbedding :=
  let e := {| hf_model_name := model_name; hf_trust_remote_code := trust_remote_code;
              hf_device := device |} in
  call (CallHuggingFaceEmbedding e);; ret e.

Definition AutoTokenizer_from_pretrained (name : string) : M World string :=
  call (CallAutoTokenizer name);; ret name.

Definition set_llm (v : gmap string KwVal) : M World unit :=
  modify (set_settings (fun s =>
    {| llm := Some v; embed_model := embed_model s; tokenizer := tokenizer s |})).
Definition set_embed_model (v : HuggingFaceEmbedding) : M World unit :=
  modify (set_settings (fun s =>
    {| llm := llm s; embed_model := Some v; tokenizer := tokenizer s |})).
Definition set_tokenizer (v : string) : M World unit :=
  modify (set_settings (fun s =>
    {| llm := llm s; embed_model := embed_model s; tokenizer := Some v |})).

Definition weaviate_Client (url : string) : M World WeaviateClient :=
  call (CallWeaviateClient url);; ret {| client_url := url |}.

Definition is_ready (c : WeaviateClient) : M World bool :=
  call (CallIsReady (client_url c));;
  w <- get;; ret (weaviate_ready w (client_url c)).

(** The classes with [name] among them: created empty when absent, left
    as it is when present. *)
Definition ensure_class (name : string) (m : gmap string (list Document))
    : gmap string (list Document) :=
  match m !! name with
  | Some _ => m
  | None => <[name := []]> m
  end.

(** [WeaviateVectorStore(weaviate_client=c, index_name=index_name)]: the
    vector store attaches to the class of that name and creates its schema,
    with no object, when the class is absent; the objects of an existing
    class are left alone.  When the call fails nothing is created. *)
Definition WeaviateVectorStore_new (c : WeaviateClient) (index_name : string)
    : M World WeaviateVectorStore :=
  call (CallWeaviateVectorStore index_name);;
  modify (set_classes (ensure_class index_name));;
  ret {| vs_client := c; vs_index_name := index_name |}.

Definition StorageContext_from_defaults (vs : WeaviateVectorStore) : M World StorageContext :=
  call (CallStorageContext (vs_index_name vs));; ret {| sc_vector_store := vs |}.

Definition VectorStoreIndex_from_vector_store (vs : WeaviateVectorStore)
    (sc : StorageContext) : M World VectorStoreIndex :=
  call (CallFromVectorStore (vs_index_name vs));;
  ret {| idx_vector_store := vs; idx_storage_context := sc |}.

(** [VectorStoreIndex(nodes=nodes, storage_context=sc)] *)
Definition VectorStoreIndex_new (nodes : list Document) (sc : StorageContext)
    : M World VectorStoreIndex :=
  call (CallVectorStoreIndex (vs_index_name (sc_vector_store sc)) nodes);;
  ret {| idx_vector_store := sc_vector_store sc; idx_storage_context := sc |}.

Definition index_name_of (idx : VectorStoreIndex) : string :=
  vs_index_name (idx_vector_store idx).

Definition as_query_engine (idx : VectorStoreIndex) (top_k : nat) (mode : string)
    : M World QueryEngine :=
  call (CallAsQueryEngine (index_name_of idx) top_k mode);;
  ret {| qe_index := idx; similarity_top_k := top_k; response_mode := mode |}.

(** [index.insert(doc)]: when the call succeeds the Document is stored at
    the end of the collection of the index; when it fails nothing is stored. *)
Definition index_insert (idx : VectorStoreIndex) (doc : Document) : M World unit :=
  let name := index_name_of idx in
  call (CallInsert name doc);;
  modify (fun w => set_classes (fun m => <[name := collection w name ++ [doc]]> m) w).

(** [schema.delete_class(name)]: the class and its objects are removed. *)
Definition schema_delete_class (c : WeaviateClient) (name : string) : M World unit :=
  call (CallDeleteClass name);;
  modify (set_classes (fun m => delete name m)).

(** [schema.get()]: the names of the classes of the schema. *)
Definition schema_get (c : WeaviateClient) : M World (gset string) :=
  call CallSchemaGet;;
  w <- get;; ret (dom (classes w)).

(** Similarity search: the stored Documents ranked by decreasing score,
    earlier insertions first among equal scores, cut at [k]. *)
Fixpoint insert_ranked (score : Document -> Z) (d : Document) (l : list Document)
    : list Document :=
  match l with
  | [] => [d]
  | x :: rest => if (score x <=? score d)%Z then d :: x :: rest
                 else x :: insert_ranked score d rest
  end.

Definition rank (score : Document -> Z) (l : list Document) : list Document :=
  foldr (insert_ranked score) [] l.

Definition retrieve (k : nat) (score : Document -> Z) (l : list Document) : list Document :=
  take k (rank score l).

(** The nodes the retriever of a query engine finds for a message. *)
Definition retrieved (qe : QueryEngine) (message : string) (w : World) : list Document :=
  retrieve (similarity_top_k qe) (fun d => similarity w message (text d))
    (collection w (index_name_of (qe_index qe))).

(** [query_engine.query(message)]: retrieve the [similarity_top_k] best
    Documents of the collection and hand all of them, with the message, to
    the synthesizer in the engine's response mode. *)
Definition engine_query (qe : QueryEngine) (message : string) : M World Response :=
  call (CallQuery (index_name_of (qe_index qe)) message);;
  w <- get;;
  let nodes := retrieved qe message w in
  ret {| response_text := synthesize w (response_mode qe) (text <$> nodes) message;
         source_nodes := nodes |}.

(** ** The class [WeaviateChatbot] *)

(** The attributes of an instance.  The four handles are set by
    [_setup_weaviate] and [_setup_index]; [None] is an attribute that has
    not been assigned yet. *)
Record WeaviateChatbot :=
  { weaviate_url : string;
    index_name : string;
    model_name : string;
    use_local_embeddings : bool;
    embedding_model_name : string;
    openai_base_url : option string;
    weaviate_client : option WeaviateClient;
    vector_store : option WeaviateVectorStore;
    index : option VectorStoreIndex;
    query_engine : option QueryEngine }.

(** The state a method runs in: the instance and the world. *)
Record State := { self : WeaviateChatbot; world : World }.

Definition lift {A} (m : M World A) : M State A :=
  fun s => let (o, w) := m (world s) in (o, {| self := self s; world := w |}).

Definition set_self (f : WeaviateChatbot -> WeaviateChatbot) : M State unit :=
  modify (fun s => {| self := f (self s); world := world s |}).

Definition set_weaviate_client (v : WeaviateClient) : M State unit :=
  set_self (fun c =>
    {| weaviate_url := weaviate_url c; index_name := index_name c;
       model_name := model_name c; use_local_embeddings := use_local_embeddings c;
       embedding_model_name := embedding_model_name c;
       openai_base_url := openai_base_url c;
       weaviate_client := Some v; vector_store := vector_store c;
       index := index c; query_engine := query_engine c |}).

Definition set_vector_store (v : WeaviateVectorStore) : M State unit :=
  set_self (fun c =>
    {| weaviate_url := weaviate_url c; index_name := index_name c;
       model_name := model_name c; use_local_embeddings := use_local_embeddings c;
       embedding_model_name := embedding_model_name c;
       openai_base_url := openai_base_url c;
       weaviate_client := weaviate_client c; vector_store := Some v;
       index := index c; query_engine := query_engine c |}).

Definition set_index (v : VectorStoreIndex) : M State unit :=
  set_self (fun c =>
    {| weaviate_url := weaviate_url c; index_name := index_name c;
       model_name := model_name c; use_local_embeddings := use_local_embeddings c;
       embedding_model_name := embedding_model_name c;
       openai_base_url := openai_base_url c;
       weaviate_client := weaviate_client c; vector_store := vector_store c;
       index := Some v; query_engine := query_engine c |}).

Definition set_query_engine (v : QueryEngine) : M State unit :=
  set_self (fun c =>
    {| weaviate_url := weaviate_url c; index_name := index_name c;
       model_name := model_name c; use_local_embeddings := use_local_embeddings c;
       embedding_model_name := embedding_model_name c;
       openai_base_url := openai_base_url c;
       weaviate_client := weaviate_client c; vector_store := vector_store c;
       index := index c; query_engine := Some v |}).

(** Reading [self.name]: an attribute that was never assigned raises. *)
Definition attr {A} (name : string) (proj : WeaviateChatbot -> option A) : M State A :=
  fun s => match proj (self s) with
           | Some a => (Return a, s)
           | None =>
               (Raise {| exc_class := AttributeError;
                         exc_msg := "'WeaviateChatbot' object has no attribute '"
                                    +:+ name +:+ "'" |}, s)
           end.

Definition self_index_name : M State string := fun s => (Return (index_name (self s)), s).
Definition self_weaviate_url : M State string := fun s => (Return (weaviate_url (self s)), s).

(** Truth value of an [Optional[str]]: [None] and the empty string are false. *)
Definition truthy (o : option string) : bool :=
  match o with
  | Some s => negb (String.eqb s "")
  | None => false
  end.

Definition _setup_weaviate : M State unit :=
  try_except
    (url <- self_weaviate_url;;
     client <- lift (weaviate_Client url);;
     set_weaviate_client client;;
     client <- attr "weaviate_client" weaviate_client;;
     ready <- lift (is_ready client);;
     (if ready
      then lift (logger_info ("Successfully connected to Weaviate at " +:+ url))
      else raise {| exc_class := ConnectionError;
                    exc_msg := "Could not connect to Weaviate" |});;
     client <- attr "weaviate_client" weaviate_client;;
     name <- self_index_name;;
     vs <- lift (WeaviateVectorStore_new client name);;
     set_vector_store vs)
    (fun e =>
       lift (logger_error ("Failed to setup Weaviate: " +:+ str_exc e));;
       raise e).

Definition _setup_index : M State unit :=
  try_except
    (vs <- attr "vector_store" vector_store;;
     storage_context <- lift (StorageContext_from_defaults vs);;
     try_except
       (vs <- attr "vector_store" vector_store;;
        idx <- lift (VectorStoreIndex_from_vector_store vs storage_context);;
        set_index idx;;
        name <- self_index_name;;
        lift (logger_info ("Loaded existing index: " +:+ name)))
       (fun _ =>
          idx <- lift (VectorStoreIndex_new [] storage_context);;
          set_index idx;;
          name <- self_index_name;;
          lift (logger_info ("Created new index: " +:+ name)));;
     idx <- attr "index" index;;
     qe <- lift (as_query_engine idx 3 "tree_summarize");;
     set_query_engine qe)
    (fun e =>
       lift (logger_error ("Failed to setup index: " +:+ str_exc e));;
       raise e).

(** [WeaviateChatbot(weaviate_url, index_name, model_name, openai_base_url,
    use_local_embeddings, embedding_model_name)]: runs [__init__] on a new
    instance and returns it; the instance is lost when [__init__] raises. *)
Definition WeaviateChatbot_new (weaviate_url index_name model_name : string)
    (openai_base_url : option string) (use_local_embeddings : bool)
    (embedding_model_name : string) : M World WeaviateChatbot :=
  base_url <- (if truthy openai_base_url then ret openai_base_url
               else os_getenv "BASE_URL");;
  let self0 :=
    {| weaviate_url := weaviate_url; index_name := index_name;
       model_name := model_name; use_local_embeddings := use_local_embeddings;
       embedding_model_name := embedding_model_name;
       openai_base_url := base_url;
       weaviate_client := None; vector_store := None;
       index := None; query_engine := None |} in
  key <- os_getenv "OPENAI_API_KEY";;
  if negb (truthy key)
  then raise {| exc_class := ValueError;
                exc_msg := "OPENAI_API_KEY not found in environment variables" |}
  else
    let llm_kwargs : gmap string KwVal :=
      <["temperature" := KwFloat (1 # 10)]> {["model" := KwStr model_name]} in
    let llm_kwargs :=
      match base_url with
      | Some url => if truthy base_url then <["api_base" := KwStr url]> llm_kwargs
                    else llm_kwargs
      | None => llm_kwargs
      end in
    v <- OpenAI_new llm_kwargs;; set_llm v;;
    v <- HuggingFaceEmbedding_new embedding_model_name false "cpu";; set_embed_model v;;
    v <- AutoTokenizer_from_pretrained embedding_model_name;; set_tokenizer v;;
    fun w => match (_setup_weaviate;; _setup_index) {| self := self0; world := w |} with
             | (Return _, s) => (Return (self s), world s)
             | (Raise e, s) => (Raise e, world s)
             end.

(** The defaults of the constructor's parameters. *)
Definition WeaviateChatbot_default : M World WeaviateChatbot :=
  WeaviateChatbot_new "http://localhost:8080" "ChatbotKnowledge" "gpt-4o-mini"
    None true "BAAI/bge-small-en-v1.5".

(** [add_documents(documents, titles=None)] *)
Definition add_documents (documents : list string) (titles : option (list string))
    : M State unit :=
  try_except
    (let docs := foldl (fun docs doc_text => docs ++ [Document_new doc_text]) [] documents in
     for_each docs (fun doc =>
       idx <- attr "index" index;;
       lift (index_insert idx doc));;
     lift (logger_info ("Added " +:+ pretty (length docs)
                        +:+ " documents to the knowledge base")))
    (fun e =>
       lift (logger_error ("Failed to add documents: " +:+ str_exc e));;
       raise e).

Definition add_text_file (file_path : string) : M State unit :=
  try_except
    (content <- lift (open_read file_path);;
     let doc := Document_new content in
     idx <- attr "index" index;;
     lift (index_insert idx doc);;
     lift (logger_info ("Added file " +:+ file_path +:+ " to knowledge base")))
    (fun e =>
       lift (logger_error ("Failed to add file " +:+ file_path +:+ ": " +:+ str_exc e));;
       raise e).

Definition chat (message : string) : M State string :=
  try_except
    (qe <- attr "query_engine" query_engine;;
     response <- lift (engine_query qe message);;
     ret (str_response response))
    (fun e =>
       lift (logger_error ("Failed to process message: " +:+ str_exc e));;
       ret ("I'm sorry, I encountered an error: " +:+ str_exc e)).

Definition clear_knowledge_base : M State unit :=
  try_except
    (client <- attr "weaviate_client" weaviate_client;;
     name <- self_index_name;;
     lift (schema_delete_class client name);;
     lift (logger_info ("Cleared knowledge base: " +:+ name));;
     _setup_index)
    (fun e =>
       lift (logger_error ("Failed to clear knowledge base: " +:+ str_exc e));;
       raise e).

(** [get_schema_info()]: [None] is Python's [None]. *)
Definition get_schema_info : M State (option (gset string)) :=
  try_except
    (client <- attr "weaviate_client" weaviate_client;;
     schema <- lift (schema_get client);;
     ret (Some schema))
    (fun e =>
       lift (logger_error ("Failed to get schema: " +:+ str_exc e));;
       ret None).

(** ** The console loop [main] *)

(** String methods, on ASCII text (a [string] is a sequence of bytes;
    console input outside ASCII is not represented). *)
Definition is_space (c : ascii) : bool :=
  let n := nat_of_ascii c in
  (Nat.leb 9 n && Nat.leb n 13) || (Nat.leb 28 n && Nat.leb n 32).

Fixpoint lstrip (s : string) : string :=
  match s with
  | String c rest => if is_space c then lstrip rest else s
  | EmptyString => EmptyString
  end.

(** [s.strip()] *)
Definition strip (s : string) : string :=
  String.rev (lstrip (String.rev (lstrip s))).

Definition lower_ascii (c : ascii) : ascii :=
  let n := nat_of_ascii c in
  if Nat.leb 65 n && Nat.leb n 90 then ascii_of_nat (n + 32) else c.

(** [s.lower()] *)
Fixpoint lower (s : string) : string :=
  match s with
  | String c rest => String (lower_ascii c) (lower rest)
  | EmptyString => EmptyString
  end.

(** [s[n:]] *)
Fixpoint slice_from (n : nat) (s : string) : string :=
  match n, s with
  | O, _ => s
  | S n', String _ rest => slice_from n' rest
  | S _, EmptyString => EmptyString
  end.

Definition newline : string := String "010"%char EmptyString.

(** [print(x)] *)
Definition print (x : string) : M World unit := modify (write_stdout (x +:+ newline)).

(** Runs a method on the instance bound to a local variable. *)
Definition with_self {A} (c : WeaviateChatbot) (m : M State A) : M World A :=
  fun w => let (o, s) := m {| self := c; world := w |} in (o, world s).

(** The [while True] loop, by recursion on the lines left on standard
    input: [input] writes its prompt and takes the first line, and raises
    [EOFError] when there is none. *)
Fixpoint main_loop (stdin : list string) : M State unit :=
  lift (modify (write_stdout (newline +:+ "You: ")));;
  match stdin with
  | [] => raise {| exc_class := EOFError; exc_msg := "EOF when reading a line" |}
  | line :: stdin' =>
      let user_input := strip line in
      if String.eqb (lower user_input) "quit" then ret tt
      else if String.eqb (lower user_input) "clear" then
        clear_knowledge_base;;
        lift (print "Knowledge base cleared!");;
        main_loop stdin'
      else if String.prefix "add_file " (lower user_input) then
        let file_path := strip (slice_from 9 user_input) in
        try_except
          (add_text_file file_path;;
           lift (print ("Added file: " +:+ file_path)))
          (fun e => lift (print ("Error adding file: " +:+ str_exc e)));;
        main_loop stdin'
      else if negb (String.eqb user_input "") then
        response <- chat user_input;;
        lift (print (newline +:+ " Bot: " +:+ response));;
        main_loop stdin'
      else main_loop stdin'
  end.

Definition main (stdin : list string) : M World unit :=
  try_except
    (base_url <- os_getenv "BASE_URL";;
     chatbot <- WeaviateChatbot_new "http://localhost:8080" "ChatbotKnowledge"
                  "gpt-4o-mini" base_url true "BAAI/bge-small-en-v1.5";;
     print (String.concat "" (replicate 50 "-"));;
     with_self chatbot (main_loop stdin);;
     print (newline +:+ "Goodbye!"))
    (fun e => print ("Error initializing chatbot: " +:+ str_exc e)).

(** ** Well-formed instances and service availability *)

(** The index and the query engine [_setup_index] builds over a vector store. *)
Definition fresh_index (vs : WeaviateVectorStore) : VectorStoreIndex :=
  {| idx_vector_store := vs; idx_storage_context := {| sc_vector_store := vs |} |}.

Definition fresh_engine (vs : WeaviateVectorStore) : QueryEngine :=
  {| qe_index := fresh_index vs; similarity_top_k := 3;
     response_mode := "tree_summarize" |}.

(** What [__init__] establishes and every method keeps, whatever fails: the
    client and the vector store are set, the store names the instance's
    collection, and the index and the query engine are the ones
    [_setup_index] builds over that store (the engine retrieves three nodes
    and fuses them by tree summarization). *)
Definition constructed (c : WeaviateChatbot) : Prop :=
  ∃ cl vs,
    weaviate_client c = Some cl ∧ vector_store c = Some vs
    ∧ vs_index_name vs = index_name c
    ∧ index c = Some (fresh_index vs)
    ∧ query_engine c = Some (fresh_engine vs).

(** The exception the insertion of the [j]-th Document of a batch raises,
    if it fails, when the insertions before it succeeded. *)
Definition insert_fault (w : World) (name : string) (docs : list Document) (j : nat)
    : option Exc :=
  match docs !! j with
  | Some d => fault w (trace w ++ (CallInsert name <$> take j docs)) (CallInsert name d)
  | None => None
  end.

(** The calls [_setup_index] needs do not fail ([from_vector_store] may:
    the method then builds an empty index). *)
Definition index_calls_succeed (w : World) (name : string) : Prop :=
  ∀ h, fault w h (CallStorageContext name) = None
       ∧ fault w h (CallVectorStoreIndex name []) = None
       ∧ fault w h (CallAsQueryEngine name 3 "tree_summarize") = None.

(** The world after a successful [index.insert(doc)], and after a run of them. *)
Definition inserted (name : string) (doc : Document) (w : World) : World :=
  set_classes (fun m => <[name := collection w name ++ [doc]]> m)
    (record_call (CallInsert name doc) w).

Definition insert_all (name : string) (docs : list Document) (w : World) : World :=
  foldl (fun w d => inserted name d w) w docs.


(** ** Sample instances and worlds *)

Definition demo_client : WeaviateClient := {| client_url := "http://localhost:8080" |}.
Definition demo_store : WeaviateVectorStore :=
  {| vs_client := demo_client; vs_index_name := "ChatbotKnowledge" |}.
Definition demo_index : VectorStoreIndex :=
  {| idx_vector_store := demo_store;
     idx_storage_context := {| sc_vector_store := demo_store |} |}.
Definition demo_engine : QueryEngine :=
  {| qe_index := demo_index; similarity_top_k := 3; response_mode := "tree_summarize" |}.

(** The instance [WeaviateChatbot()] builds. *)
Definition demo_bot : WeaviateChatbot :=
  {| weaviate_url := "http://localhost:8080"; index_name := "ChatbotKnowledge";
     model_name := "gpt-4o-mini"; use_local_embeddings := true;
     embedding_model_name := "BAAI/bge-small-en-v1.5"; openai_base_url := None;
     weaviate_client := Some demo_client; vector_store := Some demo_store;
     index := Some demo_index; query_engine := Some demo_engine |}.

(** A world with the API key set, one text file, the given Documents in
    the collection and the given fault oracle.  Texts are scored by their
    length, and the synthesizer joins the texts it is given. *)
Definition demo_world (env : gmap string string) (docs : list Document)
    (flt : list Call -> Call -> option Exc) : World :=
  {| environ := env;
     files := {[ "notes.txt" := TextFile "The capital of France is Paris." ]};
     classes := {[ "ChatbotKnowledge" := docs ]};
     weaviate_ready := fun _ => true;
     settings := {| llm := None; embed_model := None; tokenizer := None |};
     log := []; stdout := []; trace := [];
     fault := flt;
     similarity := fun _ t => Z.of_nat (String.length t);
     synthesize := fun _ texts _ => String.concat " / " texts |}.

Definition demo_env : gmap string string := {[ "OPENAI_API_KEY" := "sk-demo" ]}.

Definition no_fault : list Call -> Call -> option Exc := fun _ _ => None.

(** The insertion of a Document with an empty text is refused. *)
Definition reject_empty_text : list Call -> Call -> option Exc :=
  fun _ c => match c with
             | CallInsert _ d =>
                 if String.eqb (text d) ""
                 then Some {| exc_class := ValueError; exc_msg := "empty text" |}
                 else None
             | _ => None
             end.

(** Every query fails: the completion provider cannot be reached. *)
Definition query_down : list Call -> Call -> option Exc :=
  fun _ c => match c with
             | CallQuery _ _ =>
                 Some {| exc_class := ConnectionError; exc_msg := "Connection error." |}
             | _ => None
             end.

(** The schema endpoint of the vector database times out. *)
Definition schema_down : list Call -> Call -> option Exc :=
  fun _ c => match c with
             | CallSchemaGet =>
                 Some {| exc_class := TimeoutError; exc_msg := "timed out" |}
             | _ => None
             end.

Definition demo_state (docs : list Document) (flt : list Call -> Call -> option Exc)
    : State :=
  {| self := demo_bot; world := demo_world demo_env docs flt |}.

(** ** Auxiliary definitions of the statements below *)

(** The instance after [_setup_index] assigned both. *)
Definition reindexed (c : WeaviateChatbot) (vs : WeaviateVectorStore) : WeaviateChatbot :=
  {| weaviate_url := weaviate_url c; index_name := index_name c;
     model_name := model_name c; use_local_embeddings := use_local_embeddings c;
     embedding_model_name := embedding_model_name c;
     openai_base_url := openai_base_url c;
     weaviate_client := weaviate_client c; vector_store := vector_store c;
     index := Some (fresh_index vs); query_engine := Some (fresh_engine vs) |}.

(** The instance after [_setup_weaviate] assigned the client and the store. *)
Definition connected (c : WeaviateChatbot) : WeaviateChatbot :=
  {| weaviate_url := weaviate_url c; index_name := index_name c;
     model_name := model_name c; use_local_embeddings := use_local_embeddings c;
     embedding_model_name := embedding_model_name c;
     openai_base_url := openai_base_url c;
     weaviate_client := Some {| client_url := weaviate_url c |};
     vector_store := Some {| vs_client := {| client_url := weaviate_url c |};
                             vs_index_name := index_name c |};
     index := index c; query_engine := query_engine c |}.

(** The exception [__init__] raises without an API key. *)
Definition missing_key_error : Exc :=
  {| exc_class := ValueError;
     exc_msg := "OPENAI_API_KEY not found in environment variables" |}.

(** The lines of standard input the console loop hands to [chat]. *)
Definition is_chat_line (line : string) : bool :=
  negb (String.eqb (lower (strip line)) "quit")
  && negb (String.eqb (lower (strip line)) "clear")
  && negb (String.prefix "add_file " (lower (strip line)))
  && negb (String.eqb (strip line) "").

(** ** The specification's wording of three promises *)

(** The partial-failure policy for a batch whose item [i] fails: the call
    returns to its caller, and every other item of the batch is stored. *)
Definition partial_failure_policy (documents : list string) (i : nat) (s : State) : Prop :=
  ∃ r s', add_documents documents None s = (Return r, s')
    ∧ ∀ j t, j ≠ i → documents !! j = Some t →
        Document_new t ∈ collection (world s') (index_name (self s)).


(** The world with another synthesizer. *)
Definition with_synthesize (f : string -> list string -> string -> string)
    (w : World) : World :=
  {| environ := environ w; files := files w; classes := classes w;
     weaviate_ready := weaviate_ready w; settings := settings w;
     log := log w; stdout := stdout w; trace := trace w; fault := fault w;
     similarity := similarity w; synthesize := f |}.




(** The clear promise in the specification's words: the call returns and
    the collection is there again, holding no Document; and a second call
    right after the first returns as well. *)
Definition clear_recreates_empty (s : State) : Prop :=
  ∃ s1, clear_knowledge_base s = (Return tt, s1)
        ∧ classes (world s1) !! index_name (self s) = Some [].

Definition clear_twice_returns (s : State) : Prop :=
  ∃ s1 s2, clear_knowledge_base s = (Return tt, s1)
           ∧ clear_knowledge_base s1 = (Return tt, s2).

Definition clear_promise (s : State) : Prop :=
  clear_recreates_empty s ∧ clear_twice_returns s.

(** Whether, by the calls of the history [h], the class [name] was deleted
    and neither created nor written to since. *)
Definition class_deleted (name : string) (h : list Call) : bool :=
  foldl (fun deleted c =>
           match c with
           | CallDeleteClass n => if String.eqb n name then true else deleted
           | CallWeaviateVectorStore n | CallInsert n _ =>
               if String.eqb n name then false else deleted
           | _ => deleted
           end) false h.

(** A vector database that refuses to delete a class it has just deleted. *)
Definition refuse_absent_delete : list Call -> Call -> option Exc :=
  fun h c => match c with
             | CallDeleteClass n =>
                 if class_deleted n h then
                   Some {| exc_class :=
                             LibraryError "weaviate.exceptions.UnexpectedStatusCodeException";
                           exc_msg := "Delete class from schema! Unexpected status code: 400" |}
                 else None
             | _ => None
             end.

(** Every context text influences what the synthesizer [f] gives in the
    response mode [mode] for [message]: two lists of context texts with the
    same output are the same list. *)
Definition context_sensitive (f : string -> list string -> string -> string)
    (mode message : string) : Prop :=
  ∀ texts1 texts2, f mode texts1 message = f mode texts2 message → texts1 = texts2.

(** A synthesizer of that kind: it spells every context text out, a dot
    before each character and an exclamation mark at the end of the text. *)
Fixpoint quote_text (t : string) : string :=
  match t with
  | EmptyString => "!"
  | String c rest => String "." (String c (quote_text rest))
  end.

Fixpoint quote_all (texts : list string) : string :=
  match texts with
  | [] => ""
  | t :: rest => quote_text t +:+ quote_all rest
  end.

Definition quoting_synthesizer : string -> list string -> string -> string :=
  fun _ texts _ => quote_all texts.


(** A batch whose second text is empty, and two stored Documents. *)
Definition demo_batch : list string :=
  ["The capital of France is Paris."; ""; "The Eiffel Tower is in Paris."].

Definition demo_docs : list Document :=
  [Document_new "The capital of France is Paris.";
   Document_new "The Eiffel Tower is in Paris."].


(** ** Relations between the world before and after a statement *)

(** A relation between the world before and after that a statement keeps,
    whether it returns or raises. *)
Definition keeps {A} (R : World → World → Prop) (m : M World A) : Prop :=
  ∀ w, R w (snd (m w)).

Definition keepsS {A} (R : World → World → Prop) (m : M State A) : Prop :=
  ∀ s, R (world s) (world (snd (m s))).

(** A relation that holds across recording a call, logging and assigning
    a setting, and is reflexive and transitive: every statement of the
    constructor keeps such a relation. *)
Class WorldRel (R : World → World → Prop) : Prop :=
  { R_refl : ∀ w, R w w;
    R_trans : ∀ w1 w2 w3, R w1 w2 → R w2 w3 → R w1 w3;
    R_call : ∀ c w, R w (record_call c w);
    R_log : ∀ lvl msg w, R w (add_log lvl msg w);
    R_settings : ∀ g w, R w (set_settings g w) }.

(** A relation that also holds across a change of the stored classes and
    a write to standard output: every statement of the program keeps it. *)
Class WorldRelAll (R : World → World → Prop) : Prop :=
  { R_base :: WorldRel R;
    R_classes : ∀ g w, R w (set_classes g w);
    R_stdout : ∀ out w, R w (write_stdout out w) }.

(** The file system and the environment are as before, and so are the
    stored classes, unless the class [name], absent before, is there with
    no Document. *)
Definition own_class_only (name : string) (w w' : World) : Prop :=
  (classes w' = classes w
   ∨ (classes w !! name = None ∧ classes w' = <[name := []]> (classes w)))
  ∧ files w' = files w ∧ environ w' = environ w.

(** The call trace is extended. *)
Definition trace_grows (w w' : World) : Prop :=
  ∃ l, trace w' = trace w ++ l.

(** The classes other than [name] hold what they held. *)
Definition others_kept (name : string) (w w' : World) : Prop :=
  ∀ other, other ≠ name → classes w' !! other = classes w !! other.

(** The file system and the environment are as before; the call trace, the
    log and standard output are extended. *)
Definition only_appends (w w' : World) : Prop :=
  files w' = files w ∧ environ w' = environ w
  ∧ (∃ l, trace w' = trace w ++ l)
  ∧ (∃ l, log w' = log w ++ l)
  ∧ (∃ l, stdout w' = stdout w ++ l).

(** ** The constructor's collaborators *)

(** The calls to the model providers: the completion model, the embedding
    model and the tokenizer. *)
Definition is_provider_call (c : Call) : bool :=
  match c with
  | CallOpenAI _ | CallHuggingFaceEmbedding _ | CallAutoTokenizer _ => true
  | _ => false
  end.

Definition providers_up (w : World) : Prop :=
  ∀ h c, is_provider_call c = true → fault w h c = None.

(** [openai_base_url or os.getenv("BASE_URL")] *)
Definition effective_base_url (base : option string) (w : World) : option string :=
  if truthy base then base else environ w !! "BASE_URL".

(** The instance at the start of [__init__], before the handles are set. *)
Definition blank_bot (url name model : string) (base_url : option string)
    (local : bool) (emb : string) : WeaviateChatbot :=
  {| weaviate_url := url; index_name := name; model_name := model;
     use_local_embeddings := local; embedding_model_name := emb;
     openai_base_url := base_url;
     weaviate_client := None; vector_store := None;
     index := None; query_engine := None |}.

(** Every call the constructor makes succeeds, and the vector database
    answers that it is ready ([from_vector_store] may fail). *)
Definition services_up (w : World) (url name : string) : Prop :=
  providers_up w
  ∧ (∀ h, fault w h (CallWeaviateClient url) = None)
  ∧ (∀ h, fault w h (CallIsReady url) = None)
  ∧ (∀ h, fault w h (CallWeaviateVectorStore name) = None)
  ∧ weaviate_ready w url = true
  ∧ index_calls_succeed w name.

(** [c] with its [use_local_embeddings] attribute set to [b]. *)
Definition with_use_local (b : bool) (c : WeaviateChatbot) : WeaviateChatbot :=
  {| weaviate_url := weaviate_url c; index_name := index_name c;
     model_name := model_name c; use_local_embeddings := b;
     embedding_model_name := embedding_model_name c;
     openai_base_url := openai_base_url c;
     weaviate_client := weaviate_client c; vector_store := vector_store c;
     index := index c; query_engine := query_engine c |}.

Definition map_outcome {A B} (f : A → B) (o : Outcome A) : Outcome B :=
  match o with
  | Return a => Return (f a)
  | Raise e => Raise e
  end.

(** ** The console commands *)

(** The commands, as [main] tests a line of input. *)
Definition is_quit_line (line : string) : bool :=
  String.eqb (lower (strip line)) "quit".

Definition is_clear_line (line : string) : bool :=
  negb (is_quit_line line) && String.eqb (lower (strip line)) "clear".

(** What [input] raises at the end of standard input. *)
Definition eof_error : Exc :=
  {| exc_class := EOFError; exc_msg := "EOF when reading a line" |}.

(** ** More sample worlds *)

(** An oracle that fails the calls [p] selects, with [e]. *)
Definition fail_on (p : Call → bool) (e : Exc) : list Call → Call → option Exc :=
  fun _ c => if p c then Some e else None.

Definition is_from_vector_store (c : Call) : bool :=
  match c with CallFromVectorStore _ => true | _ => false end.

Definition is_as_query_engine (c : Call) : bool :=
  match c with CallAsQueryEngine _ _ _ => true | _ => false end.

Definition is_storage_context (c : Call) : bool :=
  match c with CallStorageContext _ => true | _ => false end.

Definition is_delete_class (c : Call) : bool :=
  match c with CallDeleteClass _ => true | _ => false end.

Definition demo_timeout : Exc :=
  {| exc_class := TimeoutError; exc_msg := "timed out" |}.

(** The sample world with the vector database answering that it is not ready. *)
Definition not_ready_world : World :=
  {| environ := demo_env;
     files := ∅;
     classes := ∅;
     weaviate_ready := fun _ => false;
     settings := {| llm := None; embed_model := None; tokenizer := None |};
     log := []; stdout := []; trace := [];
     fault := no_fault;
     similarity := fun _ _ => 0%Z;
     synthesize := fun _ _ _ => "" |}.

(** What [main]'s call of the constructor does in a world. *)
Definition demo_new (w : World) : Outcome WeaviateChatbot * World :=
  WeaviateChatbot_new "http://localhost:8080" "ChatbotKnowledge" "gpt-4o-mini"
    (environ w !! "BASE_URL") true "BAAI/bge-small-en-v1.5" w.

(** * The Streamlit page [streamlit_app.py] *)

(** The script is run from top to bottom at every interaction with the
    page.  One run is modelled: the values the widgets return in that run
    are its input, [st.session_state] is carried from run to run, and the
    calls that draw on the page are recorded in the order the script makes
    them.  The first lines of the script ([load_dotenv] and the page
    configuration) prepare the process: [environ] is the environment they
    leave. *)

(** A message of the chat history: a dict with the keys role and content. *)
Record Message := { msg_role : string; msg_content : string }.

(** [st.session_state] at the start of a run: a key is absent ([None]) or
    holds a value; the chatbot key holds Python's [None] or an instance. *)
Record SessionKeys :=
  { key_chatbot : option (option WeaviateChatbot);
    key_messages : option (list Message);
    key_initialized : option bool }.

(** [st.session_state] once the script has initialized the absent keys. *)
Record SessionState :=
  { ss_chatbot : option WeaviateChatbot;
    ss_messages : list Message;
    ss_initialized : bool }.

(** [if key not in st.session_state: st.session_state.key = default], for
    the three keys. *)
Definition init_session_state (k : SessionKeys) : SessionState :=
  {| ss_chatbot := default None (key_chatbot k);
     ss_messages := default [] (key_messages k);
     ss_initialized := default false (key_initialized k) |}.

(** The keys after a run: all three are present. *)
Definition session_keys (ss : SessionState) : SessionKeys :=
  {| key_chatbot := Some (ss_chatbot ss);
     key_messages := Some (ss_messages ss);
     key_initialized := Some (ss_initialized ss) |}.

(** The calls to Streamlit that draw on the page; entering a container
    ([with st.sidebar], [with st.chat_message], [with st.spinner]) is
    recorded like a call. *)
Inductive StCall :=
  | StSidebar
  | StTitle (body : string)
  | StMarkdown (body : string)
  | StSubheader (body : string)
  | StSuccess (body : string)
  | StError (body : string)
  | StInfo (body : string)
  | StButton (label : string) (disabled : bool)
  | StFileUploader (label : string) (type : list string)
  | StTextArea (label : string)
  | StChatInput (placeholder : string)
  | StChatMessage (name : string)
  | StSpinner (text : string)
  | StRerun.

(** The bytes of an uploaded file, by what reading them back as UTF-8 text
    gives. *)
Inductive Buffer :=
  | Utf8Text (content : string)
  | NotUtf8 (msg : string).

(** [uploaded_file]: its [name] and its [getbuffer()]. *)
Record UploadedFile := { up_name : string; up_buffer : Buffer }.

(** What the widgets return in one run. *)
Record Widgets :=
  { w_initialize : bool;                     (* Initialize Chatbot was clicked *)
    w_uploaded_file : option UploadedFile;   (* st.file_uploader *)
    w_add_file : bool;                       (* Add File to Knowledge Base *)
    w_manual_text : string;                  (* st.text_area *)
    w_add_text : bool;                       (* Add Text *)
    w_clear_history : bool;                  (* Clear Chat History *)
    w_clear_kb : bool;                       (* Clear Knowledge Base *)
    w_prompt : option string }.              (* st.chat_input *)

(** The state of a run. *)
Record Page :=
  { session : SessionState;
    drawn : list StCall;
    pworld : World }.

Definition liftW {A} (m : M World A) : M Page A :=
  fun p => let (o, w) := m (pworld p) in
           (o, {| session := session p; drawn := drawn p; pworld := w |}).

Definition st (c : StCall) : M Page unit :=
  modify (fun p => {| session := session p; drawn := drawn p ++ [c];
                      pworld := pworld p |}).

Definition session_state : M Page SessionState := fun p => (Return (session p), p).

Definition set_session (f : SessionState -> SessionState) : M Page unit :=
  modify (fun p => {| session := f (session p); drawn := drawn p;
                      pworld := pworld p |}).

Definition set_ss_chatbot (v : option WeaviateChatbot) : M Page unit :=
  set_session (fun ss => {| ss_chatbot := v; ss_messages := ss_messages ss;
                            ss_initialized := ss_initialized ss |}).

Definition set_ss_initialized (v : bool) : M Page unit :=
  set_session (fun ss => {| ss_chatbot := ss_chatbot ss; ss_messages := ss_messages ss;
                            ss_initialized := v |}).

Definition set_ss_messages (v : list Message) : M Page unit :=
  set_session (fun ss => {| ss_chatbot := ss_chatbot ss; ss_messages := v;
                            ss_initialized := ss_initialized ss |}).

(** [st.session_state.messages.append(m)] *)
Definition messages_append (m : Message) : M Page unit :=
  set_session (fun ss => {| ss_chatbot := ss_chatbot ss;
                            ss_messages := ss_messages ss ++ [m];
                            ss_initialized := ss_initialized ss |}).

(** [st.session_state.chatbot.method(...)]: the method runs on the instance
    the session holds, which it may change in place; on [None] the lookup
    of the method raises. *)
Definition on_chatbot {A} (method : string) (m : M State A) : M Page A :=
  fun p => match ss_chatbot (session p) with
           | Some c =>
               let (o, s) := m {| self := c; world := pworld p |} in
               (o, {| session := {| ss_chatbot := Some (self s);
                                    ss_messages := ss_messages (session p);
                                    ss_initialized := ss_initialized (session p) |};
                      drawn := drawn p; pworld := world s |})
           | None =>
               (Raise {| exc_class := AttributeError;
                         exc_msg := "'NoneType' object has no attribute '"
                                    +:+ method +:+ "'" |}, p)
           end.

(** The value of [st.button(label, disabled=d)]: a disabled button cannot
    be clicked. *)
Definition st_button (label : string) (disabled clicked : bool) : M Page bool :=
  st (StButton label disabled);; ret (clicked && negb disabled).

Definition set_files (f : gmap string FileEntry -> gmap string FileEntry)
    (w : World) : World :=
  {| environ := environ w; files := f (files w); classes := classes w;
     weaviate_ready := weaviate_ready w; settings := settings w;
     log := log w; stdout := stdout w; trace := trace w; fault := fault w;
     similarity := similarity w; synthesize := synthesize w |}.

(** The file a buffer becomes when it is written. *)
Definition stored (b : Buffer) : FileEntry :=
  match b with
  | Utf8Text content => TextFile content
  | NotUtf8 msg => NotUtf8File msg
  end.

(** [with open(path, "wb") as f: f.write(buffer)]: the file is created or
    replaced (the directory [/tmp] exists). *)
Definition open_write (path : string) (buffer : Buffer) : M World unit :=
  fun w => match files w !! path with
           | Some DeniedFile =>
               (Raise {| exc_class := PermissionError;
                         exc_msg := "[Errno 13] Permission denied: '" +:+ path +:+ "'" |}, w)
           | _ => (Return tt, set_files (fun m => <[path := stored buffer]> m) w)
           end.

(** [os.remove(path)] *)
Definition os_remove (path : string) : M World unit :=
  fun w => match files w !! path with
           | Some _ => (Return tt, set_files (fun m => delete path m) w)
           | None =>
               (Raise {| exc_class := FileNotFoundError;
                         exc_msg := "[Errno 2] No such file or directory: '"
                                    +:+ path +:+ "'" |}, w)
           end.

(** [initialize_chatbot()] *)
Definition initialize_chatbot : M Page bool :=
  try_except
    (chatbot <- liftW WeaviateChatbot_default;;
     set_ss_chatbot (Some chatbot);;
     set_ss_initialized true;;
     st (StSuccess "✅ Chatbot initialized successfully!");;
     ret true)
    (fun e =>
       st (StError ("❌ Failed to initialize chatbot: " +:+ str_exc e));;
       st (StError "Make sure:");;
       st (StError "1. Weaviate is running (docker-compose up)");;
       st (StError "2. OPENAI_API_KEY is set in .env file");;
       ret false).

(** The head of the sidebar: the title and the button that initializes. *)
Definition sidebar_head (inp : Widgets) : M Page unit :=
  st StSidebar;;
  st (StTitle "🤖 Weaviate Chatbot");;
  st (StMarkdown "---");;
  ss <- session_state;;
  clicked <- st_button "Initialize Chatbot" (ss_initialized ss) (w_initialize inp);;
  (if clicked then _ <- initialize_chatbot;; ret tt else ret tt);;
  ss <- session_state;;
  (if ss_initialized ss then st (StSuccess "Chatbot Ready!") else ret tt);;
  st (StMarkdown "---").

(** The file upload section. *)
Definition upload_section (inp : Widgets) : M Page unit :=
  st (StSubheader "📄 Add Knowledge");;
  st (StFileUploader "Upload a text file" ["txt"; "md"; "py"; "js"; "html"; "css"]);;
  ss <- session_state;;
  match w_uploaded_file inp, ss_chatbot ss with
  | Some uploaded_file, Some _ =>
      clicked <- st_button "Add File to Knowledge Base" false (w_add_file inp);;
      if clicked then
        try_except
          (let temp_path := "/tmp/" +:+ up_name uploaded_file in
           liftW (open_write temp_path (up_buffer uploaded_file));;
           on_chatbot "add_text_file" (add_text_file temp_path);;
           st (StSuccess ("✅ Added " +:+ up_name uploaded_file
                          +:+ " to knowledge base!"));;
           liftW (os_remove temp_path))
          (fun e => st (StError ("❌ Error adding file: " +:+ str_exc e)))
      else ret tt
  | _, _ => ret tt
  end.

(** The manual text section. *)
Definition text_section (inp : Widgets) : M Page unit :=
  st (StSubheader "📝 Add Text");;
  st (StTextArea "Enter text to add to knowledge base:");;
  let manual_text := w_manual_text inp in
  clicked <- st_button "Add Text" false (w_add_text inp);;
  ss <- session_state;;
  if clicked && negb (String.eqb manual_text "")
     && bool_decide (is_Some (ss_chatbot ss))
  then
    try_except
      (on_chatbot "add_documents" (add_documents [manual_text] None);;
       st (StSuccess "✅ Text added to knowledge base!"))
      (fun e => st (StError ("❌ Error adding text: " +:+ str_exc e)))
  else ret tt.

(** The button that clears the knowledge base. *)
Definition clear_kb_section (inp : Widgets) : M Page unit :=
  clicked <- st_button "🗑️ Clear Knowledge Base" false (w_clear_kb inp);;
  ss <- session_state;;
  if clicked && bool_decide (is_Some (ss_chatbot ss)) then
    try_except
      (on_chatbot "clear_knowledge_base" clear_knowledge_base;;
       st (StSuccess "✅ Knowledge base cleared!"))
      (fun e => st (StError ("❌ Error clearing knowledge base: " +:+ str_exc e)))
  else ret tt.

(** What the script does with a prompt the chat input returned. *)
Definition chat_turn (prompt : string) : M Page unit :=
  messages_append {| msg_role := "user"; msg_content := prompt |};;
  st (StChatMessage "user");;
  st (StMarkdown prompt);;
  st (StChatMessage "assistant");;
  st (StSpinner "Thinking...");;
  try_except
    (response <- on_chatbot "chat" (chat prompt);;
     st (StMarkdown response);;
     messages_append {| msg_role := "assistant"; msg_content := response |})
    (fun e =>
       let error_msg := "❌ Error: " +:+ str_exc e in
       st (StError error_msg);;
       messages_append {| msg_role := "assistant"; msg_content := error_msg |}).

(** The main chat interface. *)
Definition chat_interface (inp : Widgets) : M Page unit :=
  st (StTitle "💬 Chat with your Weaviate Knowledge Base");;
  ss <- session_state;;
  if negb (ss_initialized ss) then
    st (StInfo "👈 Please initialize the chatbot using the sidebar first.")
  else
    for_each (ss_messages ss) (fun message =>
      st (StChatMessage (msg_role message));;
      st (StMarkdown (msg_content message)));;
    st (StChatInput "Ask me anything about your knowledge base...");;
    match w_prompt inp with
    | Some prompt => if negb (String.eqb prompt "") then chat_turn prompt else ret tt
    | None => ret tt
    end.

Definition footer : M Page unit :=
  st (StMarkdown "---");;
  st (StMarkdown ("🔧 Built with [LlamaIndex](https://llamaindex.ai/) and "
                  +:+ "[Weaviate](https://weaviate.io/)")).

(** How a run ends: at the last line, or at [st.rerun()], which abandons
    the rest of the script. *)
Inductive RunEnd := Finished | Rerun.

(** One run of the script, once the session state is initialized. *)
Definition page_script (inp : Widgets) : M Page RunEnd :=
  sidebar_head inp;;
  upload_section inp;;
  text_section inp;;
  st (StMarkdown "---");;
  clicked <- st_button "🗑️ Clear Chat History" false (w_clear_history inp);;
  if clicked then
    set_ss_messages [];;
    st StRerun;;
    ret Rerun
  else
    clear_kb_section inp;;
    chat_interface inp;;
    footer;;
    ret Finished.

(** One run of the script on a fresh page, from the session keys the run
    before left; the result is how the run ended, the keys it leaves, what
    it drew and the world. *)
Definition run (inp : Widgets) (keys : SessionKeys) (w : World)
    : Outcome RunEnd * Page :=
  page_script inp {| session := init_session_state keys; drawn := []; pworld := w |}.

(** A browser session: the runs the interactions trigger, one after the
    other, starting without any session key.  A run that ends at
    [st.rerun()] is followed by another one like any other. *)
Fixpoint runs (inps : list Widgets) (keys : SessionKeys) (w : World)
    : Outcome unit * (SessionKeys * World) :=
  match inps with
  | [] => (Return tt, (keys, w))
  | inp :: rest =>
      match run inp keys w with
      | (Return _, p) => runs rest (session_keys (session p)) (pworld p)
      | (Raise e, p) => (Raise e, (session_keys (session p), pworld p))
      end
  end.

Definition no_keys : SessionKeys :=
  {| key_chatbot := None; key_messages := None; key_initialized := None |}.

(** What holds of the session state in every run. *)
Definition session_ok (ss : SessionState) : Prop :=
  (ss_initialized ss = true ↔ is_Some (ss_chatbot ss))
  ∧ ∀ c, ss_chatbot ss = Some c → constructed c.

(** Widgets nobody touched. *)
Definition idle : Widgets :=
  {| w_initialize := false; w_uploaded_file := None; w_add_file := false;
     w_manual_text := ""; w_add_text := false; w_clear_history := false;
     w_clear_kb := false; w_prompt := None |}.

(** A statement that returns on every page. *)
Definition always_returns {A} (m : M Page A) : Prop :=
  ∀ p, ∃ a p', m p = (Return a, p').

(** A statement that keeps a property of the session state, whether it
    returns or raises. *)
Definition preserves {A} (I : SessionState → Prop) (m : M Page A) : Prop :=
  ∀ p, I (session p) → I (session (snd (m p))).

(** ** Sample pages *)

(** A page on which the chatbot is initialized. *)
Definition demo_page (flt : list Call -> Call -> option Exc) : Page :=
  {| session := {| ss_chatbot := Some demo_bot; ss_messages := [];
                   ss_initialized := true |};
     drawn := [];
     pworld := demo_world demo_env demo_docs flt |}.

Definition demo_upload : UploadedFile :=
  {| up_name := "paris.txt"; up_buffer := Utf8Text "Paris is on the Seine." |}.

(** An upload that is not text. *)
Definition demo_binary_upload : UploadedFile :=
  {| up_name := "photo.txt";
     up_buffer := NotUtf8 "'utf-8' codec can't decode byte 0xff in position 0: invalid start byte" |}.

Definition click_add_file (up : UploadedFile) : Widgets :=
  {| w_initialize := false; w_uploaded_file := Some up; w_add_file := true;
     w_manual_text := ""; w_add_text := false; w_clear_history := false;
     w_clear_kb := false; w_prompt := None |}.

Definition click_add_text (manual_text : string) : Widgets :=
  {| w_initialize := false; w_uploaded_file := None; w_add_file := false;
     w_manual_text := manual_text; w_add_text := true; w_clear_history := false;
     w_clear_kb := false; w_prompt := None |}.

Definition click_clear_history : Widgets :=
  {| w_initialize := false; w_uploaded_file := None; w_add_file := false;
     w_manual_text := ""; w_add_text := false; w_clear_history := true;
     w_clear_kb := false; w_prompt := None |}.

Definition click_clear_kb : Widgets :=
  {| w_initialize := false; w_uploaded_file := None; w_add_file := false;
     w_manual_text := ""; w_add_text := false; w_clear_history := false;
     w_clear_kb := true; w_prompt := None |}.

Definition click_initialize : Widgets :=
  {| w_initialize := true; w_uploaded_file := None; w_add_file := false;
     w_manual_text := ""; w_add_text := false; w_clear_history := false;
     w_clear_kb := false; w_prompt := None |}.

Definition submit_prompt (prompt : string) : Widgets :=
  {| w_initialize := false; w_uploaded_file := None; w_add_file := false;
     w_manual_text := ""; w_add_text := false; w_clear_history := false;
     w_clear_kb := false; w_prompt := Some prompt |}.

(** * The service probes [test_services.py] *)

(** A value [response.json()] returns: [None], a bool, a number (by its
    text), a str, a list or a dict with str keys. *)
#[local] Unset Elimination Schemes.
Inductive Json :=
  | JNull
  | JBool (b : bool)
  | JNumber (repr : string)
  | JString (s : string)
  | JArray (items : list Json)
  | JObject (members : gmap string Json).
#[local] Set Elimination Schemes.

(** A response of the [requests] library: status line, final URL, and what
    [response.json()] returns or raises. *)
Record HttpResponse :=
  { status_code : Z;
    reason : string;
    response_url : string;
    json_body : Json + Exc }.

(** What a request comes to: a response, or an exception. *)
Inductive Reply :=
  | Responded (r : HttpResponse)
  | Failed (e : Exc).

(** The operators of Python the probe applies to the parsed JSON. *)
Inductive PyOp :=
  | OpIn (item : string)        (* item in v *)
  | OpGetItem (key : string)    (* v[key] *)
  | OpFirst                     (* v[0] *)
  | OpLen                       (* len(v) *)
  | OpSlice (stop : nat).       (* v[:stop] *)

(** The network and the Python runtime, as the probes meet them: the
    replies to the requests, the text of a value in an f-string and under
    [json.dumps(v, indent=2)], and the exception an operator raises on a
    value it does not apply to. *)
Record Runtime :=
  { http_get : string -> Reply;
    http_post : string -> gmap string string -> Json -> Reply;
    py_str : Json -> string;
    json_dumps : Json -> string;
    py_error : PyOp -> Json -> Exc }.

(** [isinstance(e, requests.exceptions.RequestException)]: the exception
    classes of the module [requests.exceptions]. *)
Definition is_RequestException (e : Exc) : bool :=
  match exc_class e with
  | LibraryError cls => String.prefix "requests.exceptions." cls
  | _ => false
  end.

Definition requests_get (rt : Runtime) (url : string) : M World HttpResponse :=
  match http_get rt url with
  | Responded r => ret r
  | Failed e => raise e
  end.

Definition requests_post (rt : Runtime) (url : string) (headers : gmap string string)
    (json : Json) : M World HttpResponse :=
  match http_post rt url headers json with
  | Responded r => ret r
  | Failed e => raise e
  end.

Definition HTTPError (msg : string) : Exc :=
  {| exc_class := LibraryError "requests.exceptions.HTTPError"; exc_msg := msg |}.

(** [response.raise_for_status()] *)
Definition raise_for_status (r : HttpResponse) : M World unit :=
  if ((400 <=? status_code r) && (status_code r <? 500))%Z then
    raise (HTTPError (pretty (status_code r) +:+ " Client Error: " +:+ reason r
                      +:+ " for url: " +:+ response_url r))
  else if ((500 <=? status_code r) && (status_code r <? 600))%Z then
    raise (HTTPError (pretty (status_code r) +:+ " Server Error: " +:+ reason r
                      +:+ " for url: " +:+ response_url r))
  else ret tt.

(** [response.json()] *)
Definition response_json (r : HttpResponse) : M World Json :=
  match json_body r with
  | inl v => ret v
  | inr e => raise e
  end.

(** A str is a sequence of code points, held here as UTF-8 bytes: a byte
    from 128 to 191 continues a code point. *)
Definition is_continuation (c : ascii) : bool :=
  let n := nat_of_ascii c in Nat.leb 128 n && Nat.leb n 191.

(** [len(s)] *)
Fixpoint code_points (s : string) : nat :=
  match s with
  | EmptyString => 0
  | String c rest => (if is_continuation c then 0 else 1) + code_points rest
  end.

(** The continuation bytes a string starts with, and what follows them. *)
Fixpoint skip_continuation (s : string) : string :=
  match s with
  | String c rest => if is_continuation c then skip_continuation rest else s
  | EmptyString => EmptyString
  end.

Fixpoint take_continuation (s : string) : string :=
  match s with
  | String c rest => if is_continuation c then String c (take_continuation rest)
                     else EmptyString
  | EmptyString => EmptyString
  end.

(** [s[:n]] *)
Fixpoint take_code_points (n : nat) (s : string) : string :=
  match n, s with
  | S n', String c rest =>
      String c (take_continuation rest
                +:+ take_code_points n' (skip_continuation rest))
  | _, _ => EmptyString
  end.

Definition is_JString (s : string) (v : Json) : bool :=
  match v with
  | JString s' => String.eqb s s'
  | _ => false
  end.

(** [item in v], for a str [item]: a key of a dict, an element of a list,
    a substring of a str. *)
Definition py_in (rt : Runtime) (item : string) (v : Json) : M World bool :=
  match v with
  | JObject members => ret (bool_decide (is_Some (members !! item)))
  | JArray items => ret (existsb (is_JString item) items)
  | JString s => ret (bool_decide (is_Some (String.index 0 item s)))
  | _ => raise (py_error rt (OpIn item) v)
  end.

(** [v[key]], for a str [key]: only a dict has str subscripts. *)
Definition py_getitem (rt : Runtime) (v : Json) (key : string) : M World Json :=
  match v with
  | JObject members =>
      match members !! key with
      | Some x => ret x
      | None => raise (py_error rt (OpGetItem key) v)
      end
  | _ => raise (py_error rt (OpGetItem key) v)
  end.

(** [v[0]]: the first element of a list, the first character of a str; a
    dict parsed from JSON has no key [0]. *)
Definition py_first (rt : Runtime) (v : Json) : M World Json :=
  match v with
  | JArray (x :: _) => ret x
  | JString (String c rest) => ret (JString (take_code_points 1 (String c rest)))
  | _ => raise (py_error rt OpFirst v)
  end.

(** [len(v)] *)
Definition py_len (rt : Runtime) (v : Json) : M World nat :=
  match v with
  | JObject members => ret (size members)
  | JArray items => ret (length items)
  | JString s => ret (code_points s)
  | _ => raise (py_error rt OpLen v)
  end.

(** [v[:stop]] *)
Definition py_slice (rt : Runtime) (v : Json) (stop : nat) : M World Json :=
  match v with
  | JArray items => ret (JArray (take stop items))
  | JString s => ret (JString (take_code_points stop s))
  | _ => raise (py_error rt (OpSlice stop) v)
  end.

(** [test_vllm_embeddings()] *)
Definition test_vllm_embeddings (rt : Runtime) : M World bool :=
  let url := "http://localhost:8000/v1/embeddings" in
  let headers : gmap string string :=
    {[ "Content-Type" := "application/json";
       "Authorization" := "Bearer dummy-key" ]} in
  let data :=
    JObject {[ "model" := JString "bge-small-en-v1.5";
               "input" := JString "Hello, this is a test sentence for embeddings." ]} in
  try_except
    (response <- requests_post rt url headers data;;
     raise_for_status response;;
     result <- response_json response;;
     has_data <- py_in rt "data" result;;
     nonempty <- (if has_data
                  then d <- py_getitem rt result "data";;
                       n <- py_len rt d;;
                       ret (0 <? n)
                  else ret false);;
     if nonempty then
       d <- py_getitem rt result "data";;
       first <- py_first rt d;;
       embedding <- py_getitem rt first "embedding";;
       print "✅ vLLM embedding server is working!";;
       d <- py_getitem rt result "data";;
       first <- py_first rt d;;
       object <- py_getitem rt first "object";;
       print ("   Model: " +:+ py_str rt object);;
       n <- py_len rt embedding;;
       print ("   Embedding dimension: " +:+ pretty n);;
       values <- py_slice rt embedding 5;;
       print ("   First 5 values: " +:+ py_str rt values);;
       ret true
     else
       print "❌ Unexpected response format";;
       print (json_dumps rt result);;
       ret false)
    (fun e =>
       if is_RequestException e then
         print ("❌ Failed to connect to vLLM server: " +:+ str_exc e);;
         ret false
       else
         print ("❌ Error: " +:+ str_exc e);;
         ret false).

(** [test_weaviate()] *)
Definition test_weaviate (rt : Runtime) : M World bool :=
  try_except
    (response <- requests_get rt "http://localhost:8080/v1/.well-known/ready";;
     raise_for_status response;;
     print "✅ Weaviate is ready!";;
     ret true)
    (fun e =>
       if is_RequestException e then
         print ("❌ Failed to connect to Weaviate: " +:+ str_exc e);;
         ret false
       else raise e).

(** The script: [if __name__ == "__main__": ...] *)
Definition test_services_main (rt : Runtime) : M World unit :=
  print "Testing services...";;
  print (String.concat "" (replicate 40 "-"));;
  weaviate_ok <- test_weaviate rt;;
  vllm_ok <- test_vllm_embeddings rt;;
  print (String.concat "" (replicate 40 "-"));;
  if weaviate_ok && vllm_ok then
    print "🎉 All services are working correctly!";;
    print "You can now use the chatbot with vLLM embeddings."
  else
    print "⚠️  Some services are not working. Please check the logs.";;
    print "Run: docker-compose logs to see detailed logs.".

(** The status codes [raise_for_status] lets through. *)
Definition status_ok (r : HttpResponse) : bool :=
  negb ((400 <=? status_code r) && (status_code r <? 600))%Z.

(** A response the embedding probe accepts: a dict whose data is a list
    that starts with a dict holding an embedding (a list or a str) and an
    object. *)
Definition embedding_response (v : Json) : bool :=
  match v with
  | JObject members =>
      match members !! "data" with
      | Some (JArray (JObject first :: _)) =>
          match first !! "embedding", first !! "object" with
          | Some (JArray _), Some _ | Some (JString _), Some _ => true
          | _, _ => false
          end
      | _ => false
      end
  | _ => false
  end.

(** ** Sample replies and runtime *)

(** The exception of a failed operator: a missing key of a dict is a
    KeyError whose text is the key in quotes, anything else a TypeError. *)
Definition demo_py_error (op : PyOp) (v : Json) : Exc :=
  match op, v with
  | OpGetItem key, JObject _ =>
      {| exc_class := LibraryError "KeyError"; exc_msg := "'" +:+ key +:+ "'" |}
  | _, _ =>
      {| exc_class := LibraryError "TypeError"; exc_msg := "unsupported operand" |}
  end.

(** A runtime that answers every GET and every POST with the given
    replies, and prints a str as it is. *)
Definition demo_runtime (get_reply post_reply : Reply) : Runtime :=
  {| http_get := fun _ => get_reply;
     http_post := fun _ _ _ => post_reply;
     py_str := fun v => match v with JString s => s | _ => "[...]" end;
     json_dumps := fun _ => "{...}";
     py_error := demo_py_error |}.

Definition demo_ok (v : Json) : Reply :=
  Responded {| status_code := 200; reason := "OK";
               response_url := "http://localhost:8000/v1/embeddings";
               json_body := inl v |}.

(** An embedding response, and one whose item lacks the key object. *)
Definition demo_embedding : Json :=
  JObject {[ "data" :=
               JArray [JObject {[ "object" := JString "embedding";
                                  "embedding" := JArray [JNumber "0.1"; JNumber "-0.2"] ]}] ]}.

Definition demo_embedding_no_object : Json :=
  JObject {[ "data" :=
               JArray [JObject {[ "embedding" := JArray [JNumber "0.1"; JNumber "-0.2"] ]}] ]}.

Definition demo_connection_refused : Reply :=
  Failed {| exc_class := LibraryError "requests.exceptions.ConnectionError";
            exc_msg := "Connection refused" |}.

(** * Properties *)

(** ** The monad and the collaborators *)

Lemma call_ok (c : Call) (w : World) :
  fault w (trace w) c = None → call c w = (Return tt, record_call c w).
Proof. intros H. unfold call. by rewrite H. Qed.

Lemma call_fail (c : Call) (w : World) (e : Exc) :
  fault w (trace w) c = Some e → call c w = (Raise e, record_call c w).
Proof. intros H. unfold call. by rewrite H. Qed.

Lemma collection_record_call (c : Call) (w : World) (name : string) :
  collection (record_call c w) name = collection w name.
Proof. reflexivity. Qed.

Lemma collection_add_log (lvl : LogLevel) (msg : string) (w : World) (name : string) :
  collection (add_log lvl msg w) name = collection w name.
Proof. reflexivity. Qed.

Lemma trace_add_log (lvl : LogLevel) (msg : string) (w : World) :
  trace (add_log lvl msg w) = trace w.
Proof. reflexivity. Qed.

Lemma trace_record_call (c : Call) (w : World) :
  trace (record_call c w) = trace w ++ [c].
Proof. reflexivity. Qed.

Lemma log_add_log (lvl : LogLevel) (msg : string) (w : World) :
  log (add_log lvl msg w) = log w ++ [(lvl, msg)].
Proof. reflexivity. Qed.

Lemma log_record_call (c : Call) (w : World) :
  log (record_call c w) = log w.
Proof. reflexivity. Qed.

Lemma index_insert_ok (idx : VectorStoreIndex) (doc : Document) (w : World) :
  fault w (trace w) (CallInsert (index_name_of idx) doc) = None →
  index_insert idx doc w = (Return tt, inserted (index_name_of idx) doc w).
Proof. intros H. unfold index_insert, bind. by rewrite (call_ok _ _ H). Qed.

Lemma index_insert_fail (idx : VectorStoreIndex) (doc : Document) (w : World) (e : Exc) :
  fault w (trace w) (CallInsert (index_name_of idx) doc) = Some e →
  index_insert idx doc w = (Raise e, record_call (CallInsert (index_name_of idx) doc) w).
Proof. intros H. unfold index_insert, bind. by rewrite (call_fail _ _ _ H). Qed.

(** The first loop of [add_documents] builds one Document per text. *)
Lemma build_docs (documents : list string) (acc : list Document) :
  foldl (fun docs doc_text => docs ++ [Document_new doc_text]) acc documents
  = acc ++ (Document_new <$> documents).
Proof.
  revert acc. induction documents as [|t ts IH]; intros acc; simpl.
  - by rewrite app_nil_r.
  - rewrite IH. by rewrite <- app_assoc.
Qed.

Section Inserted.
Variables (name : string).

Lemma collection_inserted (d : Document) (w : World) :
  collection (inserted name d w) name = collection w name ++ [d].
Proof. unfold inserted, collection; simpl. by rewrite lookup_insert_eq. Qed.

Lemma insert_all_cons (d : Document) (docs : list Document) (w : World) :
  insert_all name (d :: docs) w = insert_all name docs (inserted name d w).
Proof. reflexivity. Qed.

Lemma trace_insert_all (docs : list Document) (w : World) :
  trace (insert_all name docs w) = trace w ++ (CallInsert name <$> docs).
Proof.
  revert w. induction docs as [|d ds IH]; intros w.
  - by rewrite app_nil_r.
  - rewrite insert_all_cons, IH. simpl. by rewrite <- app_assoc.
Qed.

Lemma collection_insert_all (docs : list Document) (w : World) :
  collection (insert_all name docs w) name = collection w name ++ docs.
Proof.
  revert w. induction docs as [|d ds IH]; intros w.
  - by rewrite app_nil_r.
  - rewrite insert_all_cons, IH, collection_inserted. by rewrite <- app_assoc.
Qed.

Lemma classes_insert_all_ne (docs : list Document) (w : World) (other : string) :
  other ≠ name → classes (insert_all name docs w) !! other = classes w !! other.
Proof.
  intros Hne. revert w. induction docs as [|d ds IH]; intros w; [done|].
  rewrite insert_all_cons, IH. simpl. by rewrite lookup_insert_ne.
Qed.

Lemma fault_insert_all (docs : list Document) (w : World) :
  fault (insert_all name docs w) = fault w.
Proof.
  revert w. induction docs as [|d ds IH]; intros w; [done|].
  by rewrite insert_all_cons, IH.
Qed.

Lemma log_insert_all (docs : list Document) (w : World) :
  log (insert_all name docs w) = log w.
Proof.
  revert w. induction docs as [|d ds IH]; intros w; [done|].
  by rewrite insert_all_cons, IH.
Qed.

Lemma insert_fault_head (w : World) (d : Document) (docs : list Document) :
  insert_fault w name (d :: docs) 0 = fault w (trace w) (CallInsert name d).
Proof. unfold insert_fault; simpl. by rewrite app_nil_r. Qed.

Lemma insert_fault_tail (w : World) (d : Document) (docs : list Document) (j : nat) :
  insert_fault (inserted name d w) name docs j = insert_fault w name (d :: docs) (S j).
Proof. unfold insert_fault; simpl. by rewrite <- app_assoc. Qed.
End Inserted.

Section Batch.
Variables (c : WeaviateChatbot) (idx : VectorStoreIndex).
Hypothesis Hidx : index c = Some idx.

Let body : Document → M State unit :=
  fun doc => idx <- attr "index" index;; lift (index_insert idx doc).

Lemma body_ok (doc : Document) (w : World) :
  fault w (trace w) (CallInsert (index_name_of idx) doc) = None →
  body doc {| self := c; world := w |}
  = (Return tt, {| self := c; world := inserted (index_name_of idx) doc w |}).
Proof.
  intros H. unfold body, bind, attr, lift. cbn [self world]. rewrite Hidx.
  cbn [self world].
  by rewrite (index_insert_ok _ _ _ H).
Qed.

Lemma body_fail (doc : Document) (w : World) (e : Exc) :
  fault w (trace w) (CallInsert (index_name_of idx) doc) = Some e →
  body doc {| self := c; world := w |}
  = (Raise e, {| self := c;
                 world := record_call (CallInsert (index_name_of idx) doc) w |}).
Proof.
  intros H. unfold body, bind, attr, lift. cbn [self world]. rewrite Hidx.
  cbn [self world].
  by rewrite (index_insert_fail _ _ _ _ H).
Qed.

(** The second loop of [add_documents], while no insertion fails. *)
Lemma for_each_insert_ok (docs : list Document) (w : World) :
  (∀ j, j < length docs → insert_fault w (index_name_of idx) docs j = None) →
  for_each docs body {| self := c; world := w |}
  = (Return tt, {| self := c; world := insert_all (index_name_of idx) docs w |}).
Proof.
  revert w. induction docs as [|d ds IH]; intros w Hok; simpl; [done|].
  unfold bind. rewrite body_ok.
  - apply IH. intros j Hj. rewrite insert_fault_tail. apply Hok. simpl. lia.
  - rewrite <- insert_fault_head with (docs := ds). apply Hok. simpl. lia.
Qed.

(** The second loop stops at the first insertion that fails. *)
Lemma for_each_insert_fail (docs : list Document) (w : World) (i : nat)
    (d : Document) (e : Exc) :
  docs !! i = Some d →
  (∀ j, j < i → insert_fault w (index_name_of idx) docs j = None) →
  insert_fault w (index_name_of idx) docs i = Some e →
  for_each docs body {| self := c; world := w |}
  = (Raise e,
     {| self := c;
        world := record_call (CallInsert (index_name_of idx) d)
                   (insert_all (index_name_of idx) (take i docs) w) |}).
Proof.
  revert w i. induction docs as [|d0 ds IH]; intros w i Hd Hok Hfail; [done|].
  destruct i as [|i]; simpl in Hd.
  - inversion Hd; subst d0. rewrite insert_fault_head in Hfail.
    simpl. unfold bind. by rewrite (body_fail _ _ _ Hfail).
  - simpl. unfold bind. rewrite body_ok.
    + apply IH; [done| |by rewrite insert_fault_tail].
      intros j Hj. rewrite insert_fault_tail. apply Hok. lia.
    + rewrite <- insert_fault_head with (docs := ds). apply Hok. lia.
Qed.
End Batch.

(** Whatever fails, a batch only ever adds Documents built from its texts. *)
Lemma for_each_insert_stores (c : WeaviateChatbot) (docs : list Document) (w : World) :
  ∀ name d,
    d ∈ collection
          (world (snd (for_each docs
             (fun doc => idx <- attr "index" index;; lift (index_insert idx doc))
             {| self := c; world := w |}))) name →
    d ∈ collection w name ∨ d ∈ docs.
Proof.
  revert w. induction docs as [|d0 ds IH]; intros w name d; simpl; [by left|].
  unfold bind at 1. unfold bind at 1, attr at 1, lift at 1. cbn [self world].
  destruct (index c) as [idx|] eqn:Hidx; cbn [self world]; [|by left].
  destruct (fault w (trace w) (CallInsert (index_name_of idx) d0)) as [e|] eqn:Hf.
  - rewrite (index_insert_fail _ _ _ _ Hf). cbn [self world snd]. by left.
  - rewrite (index_insert_ok _ _ _ Hf). cbn [self world].
    intros Hin. apply IH in Hin as [Hin|Hin]; [|right; by apply elem_of_cons; right].
    unfold inserted, collection in Hin; simpl in Hin.
    destruct (decide (name = index_name_of idx)) as [->|Hne].
    + rewrite lookup_insert_eq in Hin. simpl in Hin.
      apply elem_of_app in Hin as [Hin|Hin]; [by left|].
      apply list_elem_of_singleton in Hin as ->. right. apply elem_of_cons. by left.
    + rewrite lookup_insert_ne in Hin by done. by left.
Qed.

(** A batch none of whose insertions fails is stored whole, in order. *)
Lemma add_documents_success (s : State) (idx : VectorStoreIndex)
    (documents : list string) (titles : option (list string)) :
  index (self s) = Some idx →
  (∀ j, j < length documents →
        insert_fault (world s) (index_name_of idx) (Document_new <$> documents) j = None) →
  add_documents documents titles s
  = (Return tt,
     {| self := self s;
        world := add_log INFO ("Added " +:+ pretty (length documents)
                               +:+ " documents to the knowledge base")
                   (insert_all (index_name_of idx) (Document_new <$> documents)
                      (world s)) |}).
Proof.
  intros Hidx Hok. destruct s as [c w]; simpl in *.
  unfold add_documents, try_except. rewrite build_docs; simpl.
  unfold bind at 1. rewrite (for_each_insert_ok c idx Hidx).
  - by rewrite length_fmap.
  - intros j Hj. apply Hok. by rewrite length_fmap in Hj.
Qed.

(** C1 (amended). When the insertion of item [i] is the first of a batch to
    fail, [add_documents] logs the exception and raises it again: the
    Documents of the items before [i] stay in the collection (nothing is
    rolled back), item [i] and the items after it are not stored, the items
    after [i] are not even attempted, and the caller receives the exception,
    not a count or a list of failed indices. *)
Theorem add_documents_first_failure (s : State) (idx : VectorStoreIndex)
    (documents : list string) (titles : option (list string)) (i : nat) (e : Exc) :
  index (self s) = Some idx →
  (∀ j, j < i →
        insert_fault (world s) (index_name_of idx) (Document_new <$> documents) j = None) →
  insert_fault (world s) (index_name_of idx) (Document_new <$> documents) i = Some e →
  ∃ w',
    add_documents documents titles s = (Raise e, {| self := self s; world := w' |})
    ∧ collection w' (index_name_of idx)
      = collection (world s) (index_name_of idx) ++ (Document_new <$> take i documents)
    ∧ trace w'
      = trace (world s)
        ++ (CallInsert (index_name_of idx) <$> (Document_new <$> take (S i) documents))
    ∧ log w' = log (world s) ++ [(ERROR, "Failed to add documents: " +:+ str_exc e)].
Proof.
  intros Hidx Hok Hfail. destruct s as [c w]; simpl in *.
  destruct ((Document_new <$> documents) !! i) as [d|] eqn:Hd;
    [|by unfold insert_fault in Hfail; rewrite Hd in Hfail].
  exists (add_log ERROR ("Failed to add documents: " +:+ str_exc e)
            (record_call (CallInsert (index_name_of idx) d)
               (insert_all (index_name_of idx) (take i (Document_new <$> documents)) w))).
  split; [|split; [|split]].
  - unfold add_documents, try_except. rewrite build_docs; simpl.
    unfold bind at 1.
    by rewrite (for_each_insert_fail c idx Hidx _ _ _ _ _ Hd Hok Hfail).
  - rewrite collection_add_log, collection_record_call, collection_insert_all.
    by rewrite fmap_take.
  - rewrite trace_add_log, trace_record_call, trace_insert_all, <- app_assoc.
    f_equal. rewrite (fmap_take Document_new (S i) documents), (take_S_r _ _ _ Hd).
    by rewrite fmap_app.
  - by rewrite log_add_log, log_record_call, log_insert_all.
Qed.

(** The theorem above on a batch of three texts whose second is refused. *)
Lemma add_documents_first_failure_witness :
  ∃ w',
    add_documents demo_batch None (demo_state [] reject_empty_text)
    = (Raise {| exc_class := ValueError; exc_msg := "empty text" |},
       {| self := demo_bot; world := w' |})
    ∧ collection w' "ChatbotKnowledge"
      = [] ++ (Document_new <$> take 1 demo_batch)
    ∧ trace w'
      = [] ++ (CallInsert "ChatbotKnowledge" <$> (Document_new <$> take 2 demo_batch))
    ∧ log w' = [] ++ [(ERROR, "Failed to add documents: empty text")].
Proof.
  apply (add_documents_first_failure (demo_state [] reject_empty_text) demo_index
           demo_batch None 1 {| exc_class := ValueError; exc_msg := "empty text" |}).
  - reflexivity.
  - intros j Hj. destruct j as [|j]; [reflexivity | lia].
  - reflexivity.
Defined.

(** C1, as the specification words it, fails: in a batch of three texts
    whose second is refused, [add_documents] raises instead of returning a
    count, and the third text is never stored. *)
Lemma add_documents_aborts_batch :
  insert_fault (world (demo_state [] reject_empty_text)) "ChatbotKnowledge"
    (Document_new <$> demo_batch) 1
  = Some {| exc_class := ValueError; exc_msg := "empty text" |}
  ∧ fst (add_documents demo_batch None (demo_state [] reject_empty_text))
    = Raise {| exc_class := ValueError; exc_msg := "empty text" |}
  ∧ collection (world (snd (add_documents demo_batch None
                              (demo_state [] reject_empty_text)))) "ChatbotKnowledge"
    = [Document_new "The capital of France is Paris."]
  ∧ ¬ partial_failure_policy demo_batch 1 (demo_state [] reject_empty_text).
Proof.
  assert (Hraise : fst (add_documents demo_batch None (demo_state [] reject_empty_text))
                   = Raise {| exc_class := ValueError; exc_msg := "empty text" |})
    by (vm_compute; reflexivity).
  split; [reflexivity|]. split; [exact Hraise|]. split; [vm_compute; reflexivity|].
  intros (r & s' & Hret & _). rewrite Hret in Hraise. discriminate.
Qed.

(** C8. The [titles] argument has no effect: two calls that differ only in
    it have the same outcome and leave the same state, and every Document a
    call adds to a collection is [Document(text=t)] for a text [t] of the
    batch. *)
Theorem add_documents_ignores_titles (documents : list string)
    (titles1 titles2 : option (list string)) (s : State) :
  add_documents documents titles1 s = add_documents documents titles2 s
  ∧ ∀ name d,
      d ∈ collection (world (snd (add_documents documents titles1 s))) name →
      d ∈ collection (world s) name ∨ ∃ t, t ∈ documents ∧ d = Document_new t.
Proof.
  split; [reflexivity|]. intros name d Hin.
  assert (Hfe := for_each_insert_stores (self s) (Document_new <$> documents)
                   (world s) name d).
  unfold add_documents, try_except in Hin. rewrite build_docs in Hin; simpl in Hin.
  unfold bind at 1 in Hin. destruct s as [c w]; simpl in *.
  destruct (for_each _ _ _) as [[[]|e] s1] eqn:Hrun; simpl in *.
  - destruct (Hfe Hin) as [H|H]; [by left|right].
    apply list_elem_of_fmap in H as (t & -> & Ht). eauto.
  - destruct (Hfe Hin) as [H|H]; [by left|right].
    apply list_elem_of_fmap in H as (t & -> & Ht). eauto.
Qed.

(** ** Retrieval *)

Lemma retrieve_nil (k : nat) (score : Document → Z) : retrieve k score [] = [].
Proof. unfold retrieve, rank. simpl. apply take_nil. Qed.

Lemma insert_ranked_perm (score : Document → Z) (d : Document) (l : list Document) :
  insert_ranked score d l ≡ₚ d :: l.
Proof.
  induction l as [|x l IH]; simpl; [done|].
  destruct (score x <=? score d)%Z; [done|].
  rewrite IH. apply Permutation_swap.
Qed.

Lemma rank_perm (score : Document → Z) (l : list Document) : rank score l ≡ₚ l.
Proof.
  unfold rank. induction l as [|x l IH]; simpl; [done|].
  by rewrite insert_ranked_perm, IH.
Qed.

Lemma retrieve_length (k : nat) (score : Document → Z) (l : list Document) :
  length (retrieve k score l) ≤ k.
Proof. unfold retrieve. rewrite length_take. lia. Qed.

Lemma retrieve_subset (k : nat) (score : Document → Z) (l : list Document) (d : Document) :
  d ∈ retrieve k score l → d ∈ l.
Proof.
  unfold retrieve. intros H. apply subseteq_take in H.
  by rewrite rank_perm in H.
Qed.

(** With [k] at least the size of the collection every stored Document is
    retrieved. *)
Lemma retrieve_all (k : nat) (score : Document → Z) (l : list Document) :
  length l ≤ k → retrieve k score l ≡ₚ l.
Proof.
  intros H. unfold retrieve. rewrite take_ge; [apply rank_perm|].
  by rewrite (Permutation_length (rank_perm score l)).
Qed.

(** ** [chat] *)

Lemma engine_query_run (qe : QueryEngine) (message : string) (w : World) :
  engine_query qe message w
  = (match fault w (trace w) (CallQuery (index_name_of (qe_index qe)) message) with
     | None =>
         Return {| response_text :=
                     synthesize w (response_mode qe)
                       (text <$> retrieved qe message w) message;
                   source_nodes := retrieved qe message w |}
     | Some e => Raise e
     end,
     record_call (CallQuery (index_name_of (qe_index qe)) message) w).
Proof.
  unfold engine_query, bind, call, get, ret.
  by destruct (fault w (trace w) _).
Qed.

Lemma chat_run (s : State) (qe : QueryEngine) (message : string) :
  query_engine (self s) = Some qe →
  chat message s
  = match fault (world s) (trace (world s))
            (CallQuery (index_name_of (qe_index qe)) message) with
    | None =>
        (Return (synthesize (world s) (response_mode qe)
                   (text <$> retrieved qe message (world s)) message),
         {| self := self s;
            world := record_call (CallQuery (index_name_of (qe_index qe)) message)
                       (world s) |})
    | Some e =>
        (Return ("I'm sorry, I encountered an error: " +:+ str_exc e),
         {| self := self s;
            world := add_log ERROR ("Failed to process message: " +:+ str_exc e)
                       (record_call (CallQuery (index_name_of (qe_index qe)) message)
                          (world s)) |})
    end.
Proof.
  intros Hqe. unfold chat, try_except, bind at 1, attr. rewrite Hqe.
  unfold bind, lift. rewrite engine_query_run.
  by destruct (fault (world s) (trace (world s)) _).
Qed.

Lemma chat_no_engine (s : State) (message : string) :
  query_engine (self s) = None →
  ∃ e s', chat message s
          = (Return ("I'm sorry, I encountered an error: " +:+ str_exc e), s').
Proof.
  intros Hqe. unfold chat, try_except, bind at 1, attr. rewrite Hqe.
  eexists _, _. reflexivity.
Qed.

Lemma chat_total (message : string) (s : State) :
  ∃ answer s', chat message s = (Return answer, s').
Proof.
  destruct (query_engine (self s)) as [qe|] eqn:Hqe.
  - rewrite (chat_run s qe message Hqe).
    destruct (fault (world s) (trace (world s)) _); eauto.
  - destruct (chat_no_engine s message Hqe) as (e & s' & ->). eauto.
Qed.

Lemma stdout_chat (message : string) (s : State) :
  stdout (world (snd (chat message s))) = stdout (world s).
Proof.
  destruct (query_engine (self s)) as [qe|] eqn:Hqe.
  - rewrite (chat_run s qe message Hqe).
    by destruct (fault (world s) (trace (world s)) _).
  - destruct s as [c w]; simpl in Hqe.
    unfold chat, try_except, bind, attr; simpl. by rewrite Hqe.
Qed.

(** A line that is a chat message never ends the console loop: the loop
    prints the answer of [chat] and goes on with the lines that follow. *)
Lemma main_loop_chat_line (line : string) (stdin : list string) (s : State) :
  is_chat_line line = true →
  ∃ answer s',
    main_loop (line :: stdin) s = main_loop stdin s'
    ∧ self s' = self (snd (chat (strip line)
                             {| self := self s;
                                world := write_stdout (newline +:+ "You: ") (world s) |}))
    ∧ stdout (world s')
      = stdout (world s)
        ++ [newline +:+ "You: "; (newline +:+ " Bot: " +:+ answer) +:+ newline].
Proof.
  unfold is_chat_line. intros H.
  apply andb_true_iff in H as [H H4]. apply andb_true_iff in H as [H H3].
  apply andb_true_iff in H as [H1 H2].
  apply negb_true_iff in H1, H2, H3.
  set (s0 := {| self := self s;
                world := write_stdout (newline +:+ "You: ") (world s) |}).
  destruct (chat_total (strip line) s0) as (answer & s1 & Hchat).
  exists answer,
    {| self := self s1;
       world := write_stdout ((newline +:+ " Bot: " +:+ answer) +:+ newline) (world s1) |}.
  assert (Hout := stdout_chat (strip line) s0). rewrite Hchat in Hout. simpl in Hout.
  split; [|split].
  - cbn [main_loop]. unfold bind at 1, lift at 1, modify at 1.
    fold s0. rewrite H1, H2, H3, H4. cbn [negb].
    unfold bind at 1. rewrite Hchat. unfold bind at 1, lift, print, modify.
    reflexivity.
  - by rewrite Hchat.
  - cbn [world stdout write_stdout]. rewrite Hout. by rewrite <- app_assoc.
Qed.

(** C2. A chat turn never raises: [chat] returns a string for every message,
    and when the query of the turn fails with the exception [e] (an
    embedding, search or completion failure, or a missing engine) the string
    is the apology that quotes [e]; the console loop therefore goes on to
    the next line after a failed turn. *)
Theorem chat_never_raises (message : string) (s : State) :
  (∃ answer s', chat message s = (Return answer, s'))
  ∧ (∀ qe e,
       query_engine (self s) = Some qe →
       fault (world s) (trace (world s))
         (CallQuery (index_name_of (qe_index qe)) message) = Some e →
       chat message s
       = (Return ("I'm sorry, I encountered an error: " +:+ str_exc e),
          {| self := self s;
             world := add_log ERROR ("Failed to process message: " +:+ str_exc e)
                        (record_call (CallQuery (index_name_of (qe_index qe)) message)
                           (world s)) |}))
  ∧ (∀ stdin, is_chat_line message = true →
       ∃ s', main_loop (message :: stdin) s = main_loop stdin s').
Proof.
  split; [apply chat_total|]. split.
  - intros qe e Hqe Hf. rewrite (chat_run s qe message Hqe). by rewrite Hf.
  - intros stdin Hline.
    destruct (main_loop_chat_line message stdin s Hline) as (answer & s' & H & _).
    eauto.
Qed.

(** A failed turn, run: the completion provider cannot be reached. *)
Example chat_apologizes :
  fst (chat "What is the capital of France?" (demo_state [] query_down))
  = Return "I'm sorry, I encountered an error: Connection error.".
Proof. reflexivity. Qed.

(** C9. [chat] changes neither the instance nor the stored Documents (nor
    the file system, the environment or the settings): it only asks the
    query engine, and logs when that fails. *)
Theorem chat_frame (message : string) (s : State) :
  self (snd (chat message s)) = self s
  ∧ classes (world (snd (chat message s))) = classes (world s)
  ∧ files (world (snd (chat message s))) = files (world s)
  ∧ environ (world (snd (chat message s))) = environ (world s)
  ∧ settings (world (snd (chat message s))) = settings (world s)
  ∧ ∃ l, trace (world (snd (chat message s))) = trace (world s) ++ l
         ∧ ∀ c, c ∈ l → ∃ name, c = CallQuery name message.
Proof.
  destruct (query_engine (self s)) as [qe|] eqn:Hqe.
  - rewrite (chat_run s qe message Hqe).
    destruct (fault (world s) (trace (world s)) _); simpl;
      repeat (split; [reflexivity|]);
      (eexists; split; [reflexivity|]);
      intros c Hc; apply list_elem_of_singleton in Hc; eauto.
  - destruct s as [c w]; simpl in Hqe.
    unfold chat, try_except, bind, attr; simpl. rewrite Hqe; simpl.
    repeat (split; [reflexivity|]).
    exists (@nil Call). split; [by rewrite app_nil_r|]. intros c0 Hc. by apply elem_of_nil in Hc.
Qed.





(** ** [get_schema_info] *)

(** C10. [get_schema_info] never raises: it returns the schema when the
    fetch succeeds, and [None], after logging the exception, when the fetch
    fails (or when the client attribute is missing). *)
Theorem get_schema_info_never_raises (s : State) :
  ∃ s',
    get_schema_info s
    = (Return
         match weaviate_client (self s) with
         | Some _ =>
             match fault (world s) (trace (world s)) CallSchemaGet with
             | None => Some (dom (classes (world s)))
             | Some _ => None
             end
         | None => None
         end, s')
    ∧ self s' = self s
    ∧ classes (world s') = classes (world s).
Proof.
  destruct s as [c w].
  unfold get_schema_info, schema_get, logger_error, try_except, bind, attr, lift,
    call, get, ret, modify; simpl.
  destruct (weaviate_client c) as [cl|]; simpl.
  - destruct (fault w (trace w) CallSchemaGet); simpl;
      (eexists; split; [reflexivity|split; reflexivity]).
  - eexists; split; [reflexivity|split; reflexivity].
Qed.

Example get_schema_info_on_failure :
  fst (get_schema_info (demo_state [] schema_down)) = Return None
  ∧ log (world (snd (get_schema_info (demo_state [] schema_down))))
    = [(ERROR, "Failed to get schema: timed out")].
Proof. split; reflexivity. Qed.

Example get_schema_info_on_success :
  fst (get_schema_info (demo_state [] no_fault))
  = Return (Some {[ "ChatbotKnowledge" ]}).
Proof. vm_compute. reflexivity. Qed.

(** ** The constructor *)

Lemma falsy_api_key_aborts (url name model : string) (base : option string)
    (local : bool) (emb : string) (w : World) :
  truthy (environ w !! "OPENAI_API_KEY") = false →
  WeaviateChatbot_new url name model base local emb w = (Raise missing_key_error, w).
Proof.
  intros Hkey. unfold WeaviateChatbot_new, bind, os_getenv, ret, raise.
  destruct (truthy base); simpl; by rewrite Hkey.
Qed.

(** C6. Without [OPENAI_API_KEY] in the environment the constructor raises
    the configuration error [ValueError] and leaves the world as it was: no
    provider and no vector-database call is made, and [Settings] is
    untouched.  The console program then prints the error and ends, without
    reading a line. *)
Theorem missing_api_key_aborts_construction (url name model : string)
    (base : option string) (local : bool) (emb : string) (stdin : list string)
    (w : World) :
  environ w !! "OPENAI_API_KEY" = None →
  WeaviateChatbot_new url name model base local emb w
  = (Raise {| exc_class := ValueError;
              exc_msg := "OPENAI_API_KEY not found in environment variables" |}, w)
  ∧ main stdin w
    = (Return tt,
       write_stdout
         (("Error initializing chatbot: "
           +:+ "OPENAI_API_KEY not found in environment variables") +:+ newline) w).
Proof.
  intros Hkey.
  assert (Hfalsy : truthy (environ w !! "OPENAI_API_KEY") = false) by by rewrite Hkey.
  split; [by apply falsy_api_key_aborts|].
  unfold main, try_except. unfold bind at 1, os_getenv at 1.
  unfold bind at 1. by rewrite falsy_api_key_aborts.
Qed.

(** The theorem above in a world whose environment is empty. *)
Lemma missing_api_key_aborts_construction_witness :
  WeaviateChatbot_new "http://localhost:8080" "ChatbotKnowledge" "gpt-4o-mini"
    None true "BAAI/bge-small-en-v1.5" (demo_world ∅ [] no_fault)
  = (Raise {| exc_class := ValueError;
              exc_msg := "OPENAI_API_KEY not found in environment variables" |},
     demo_world ∅ [] no_fault)
  ∧ main ["What is the capital of France?"] (demo_world ∅ [] no_fault)
    = (Return tt,
       write_stdout
         (("Error initializing chatbot: "
           +:+ "OPENAI_API_KEY not found in environment variables") +:+ newline)
         (demo_world ∅ [] no_fault)).
Proof.
  apply (missing_api_key_aborts_construction "http://localhost:8080" "ChatbotKnowledge"
           "gpt-4o-mini" None true "BAAI/bge-small-en-v1.5"
           ["What is the capital of France?"] (demo_world ∅ [] no_fault)).
  reflexivity.
Defined.

(** ** [add_text_file] *)

(** C5. [add_text_file] reads the file as text and inserts the whole
    content as one Document by a single call of [index.insert]; a file that
    cannot be opened makes it raise [FileNotFoundError] or
    [PermissionError] (both [OSError]), and a file that cannot be decoded
    [UnicodeDecodeError]; when the read fails no insertion is attempted and
    every collection is left as it was. *)
Theorem add_text_file_single_document (s : State) (idx : VectorStoreIndex)
    (file_path : string) :
  index (self s) = Some idx →
  ∃ r w',
    add_text_file file_path s = (r, {| self := self s; world := w' |})
    ∧ match files (world s) !! file_path with
      | Some (TextFile content) =>
          trace w'
          = trace (world s) ++ [CallInsert (index_name_of idx) (Document_new content)]
          ∧ match fault (world s) (trace (world s))
                    (CallInsert (index_name_of idx) (Document_new content)) with
            | None =>
                r = Return tt
                ∧ collection w' (index_name_of idx)
                  = collection (world s) (index_name_of idx) ++ [Document_new content]
            | Some e => r = Raise e ∧ classes w' = classes (world s)
            end
      | Some DeniedFile =>
          (∃ e, r = Raise e ∧ exc_class e = PermissionError ∧ is_OSError e = true)
          ∧ trace w' = trace (world s) ∧ classes w' = classes (world s)
      | Some (NotUtf8File msg) =>
          r = Raise {| exc_class := UnicodeDecodeError; exc_msg := msg |}
          ∧ trace w' = trace (world s) ∧ classes w' = classes (world s)
      | None =>
          (∃ e, r = Raise e ∧ exc_class e = FileNotFoundError ∧ is_OSError e = true)
          ∧ trace w' = trace (world s) ∧ classes w' = classes (world s)
      end.
Proof.
  intros Hidx. destruct s as [c w]; simpl in *.
  unfold add_text_file, logger_error, logger_info, try_except.
  unfold bind at 1, lift at 1, open_read. cbn [self world].
  destruct (files w !! file_path) as [[content| |msg]|] eqn:Hfile.
  - unfold bind at 1, attr at 1. cbn [self world]. rewrite Hidx.
    unfold bind at 1, lift at 1. cbn [self world].
    destruct (fault w (trace w) (CallInsert (index_name_of idx) (Document_new content)))
      as [e|] eqn:Hf.
    + rewrite (index_insert_fail _ _ _ _ Hf). eexists _, _.
      split; [reflexivity|]. split; [reflexivity|]. split; reflexivity.
    + rewrite (index_insert_ok _ _ _ Hf). eexists _, _.
      split; [reflexivity|]. split; [reflexivity|]. split; [reflexivity|].
      cbn [world self]. unfold lift, modify. cbn [world self].
      by rewrite collection_add_log, collection_inserted.
  - eexists _, _. split; [reflexivity|]. split; [|split; reflexivity].
    eexists. split; [reflexivity|]. split; reflexivity.
  - eexists _, _. split; [reflexivity|]. split; [|split]; reflexivity.
  - eexists _, _. split; [reflexivity|]. split; [|split; reflexivity].
    eexists. split; [reflexivity|]. split; reflexivity.
Qed.

(** The theorem above on the sample text file. *)
Lemma add_text_file_single_document_witness :
  ∃ r w',
    add_text_file "notes.txt" (demo_state [] no_fault)
    = (r, {| self := demo_bot; world := w' |})
    ∧ trace w'
      = [] ++ [CallInsert "ChatbotKnowledge"
                 (Document_new "The capital of France is Paris.")]
      ∧ r = Return tt
        ∧ collection w' "ChatbotKnowledge"
          = [] ++ [Document_new "The capital of France is Paris."].
Proof.
  apply (add_text_file_single_document (demo_state [] no_fault) demo_index "notes.txt").
  reflexivity.
Defined.

(** ** Setting up the handles *)

Ltac unfold_setup :=
  unfold _setup_index, _setup_weaviate, StorageContext_from_defaults,
    VectorStoreIndex_from_vector_store, VectorStoreIndex_new, as_query_engine,
    weaviate_Client, is_ready, WeaviateVectorStore_new,
    set_index, set_query_engine, set_weaviate_client, set_vector_store,
    logger_info, logger_error, self_index_name, self_weaviate_url,
    try_except, bind, ret, raise, lift, attr, modify, get, set_self, call.

Ltac case_faults :=
  repeat (cbn;
          match goal with
          | |- context [match fault ?w ?h ?c with _ => _ end] =>
              destruct (fault w h c) eqn:?
          | |- context [if weaviate_ready ?w ?u then _ else _] =>
              destruct (weaviate_ready w u) eqn:?
          end).

(** What [_setup_index] leaves when it returns, and that it never touches
    the stored Documents or the settings. *)
Lemma setup_index_inv (c : WeaviateChatbot) (w : World) (vs : WeaviateVectorStore) :
  vector_store c = Some vs →
  classes (world (snd (_setup_index {| self := c; world := w |}))) = classes w
  ∧ settings (world (snd (_setup_index {| self := c; world := w |}))) = settings w
  ∧ fault (world (snd (_setup_index {| self := c; world := w |}))) = fault w
  ∧ (fst (_setup_index {| self := c; world := w |}) = Return tt →
     self (snd (_setup_index {| self := c; world := w |})) = reindexed c vs).
Proof.
  intros Hvs. destruct c; cbn in Hvs; subst. unfold_setup.
  case_faults; cbn; repeat split; done.
Qed.

(** [_setup_weaviate] changes the stored classes in one way only: when it
    reaches the vector store it creates the instance's class if absent. *)
Lemma setup_weaviate_inv (c : WeaviateChatbot) (w : World) :
  (classes (world (snd (_setup_weaviate {| self := c; world := w |}))) = classes w
   ∨ classes (world (snd (_setup_weaviate {| self := c; world := w |})))
     = ensure_class (index_name c) (classes w))
  ∧ settings (world (snd (_setup_weaviate {| self := c; world := w |}))) = settings w
  ∧ (fst (_setup_weaviate {| self := c; world := w |}) = Return tt →
     self (snd (_setup_weaviate {| self := c; world := w |})) = connected c
     ∧ classes (world (snd (_setup_weaviate {| self := c; world := w |})))
       = ensure_class (index_name c) (classes w)).
Proof.
  destruct c. unfold_setup.
  case_faults; cbn; (split; [auto|split; [done|]]); done.
Qed.

Lemma constructed_reindexed (c : WeaviateChatbot) (cl : WeaviateClient)
    (vs : WeaviateVectorStore) :
  weaviate_client c = Some cl → vector_store c = Some vs →
  vs_index_name vs = index_name c →
  constructed (reindexed c vs).
Proof. intros Hcl Hvs Hname. exists cl, vs. repeat split; done. Qed.

Lemma constructed_vector_store (c : WeaviateChatbot) :
  constructed c →
  ∃ cl vs, weaviate_client c = Some cl ∧ vector_store c = Some vs
           ∧ vs_index_name vs = index_name c.
Proof. intros (cl & vs & H1 & H2 & H3 & _). eauto. Qed.


Lemma bind_Return_inv {S A B} (m : M S A) (k : A → M S B) (s s' : S) (b : B) :
  bind m k s = (Return b, s') →
  ∃ a s1, m s = (Return a, s1) ∧ k a s1 = (Return b, s').
Proof.
  unfold bind. destruct (m s) as [[a|e] s1]; [eauto|discriminate].
Qed.

Lemma call_Return_inv (c : Call) (w w' : World) (u : unit) :
  call c w = (Return u, w') → w' = record_call c w.
Proof.
  unfold call. destruct (fault w (trace w) c); [discriminate|]. by intros [= _ <-].
Qed.

(** What a successful construction establishes. *)
Lemma constructor_establishes (url name model : string) (base : option string)
    (local : bool) (emb : string) (w w' : World) (c : WeaviateChatbot) :
  WeaviateChatbot_new url name model base local emb w = (Return c, w') →
  constructed c
  ∧ index_name c = name ∧ weaviate_url c = url ∧ model_name c = model
  ∧ classes w' = ensure_class name (classes w)
  ∧ ∃ kwargs,
      llm (settings w') = Some kwargs
      ∧ kwargs !! "model" = Some (KwStr model)
      ∧ kwargs !! "temperature" = Some (KwFloat (1 # 10)).
Proof.
  unfold WeaviateChatbot_new. intros H.
  apply bind_Return_inv in H as (base_url & w1 & Hbase & H).
  assert (w1 = w) as ->.
  { destruct (truthy base); unfold ret, os_getenv in Hbase; by injection Hbase. }
  apply bind_Return_inv in H as (key & w1 & Hkey & H).
  unfold os_getenv in Hkey. injection Hkey as Hkey <-.
  destruct (negb (truthy key)); [discriminate|].
  set (kw0 := <["temperature":=KwFloat (1 # 10)]> {["model" := KwStr model]}) in H.
  set (kw := match base_url with
             | Some u => if truthy base_url then <["api_base":=KwStr u]> kw0 else kw0
             | None => kw0
             end) in H.
  apply bind_Return_inv in H as (v1 & w1 & Ho1 & H).
  unfold OpenAI_new in Ho1. apply bind_Return_inv in Ho1 as (u1 & w1' & Hc1 & Hr1).
  apply call_Return_inv in Hc1 as ->. unfold ret in Hr1. injection Hr1 as <- <-.
  apply bind_Return_inv in H as ([] & w2 & H2 & H).
  unfold set_llm, modify in H2. injection H2 as <-.
  apply bind_Return_inv in H as (v2 & w3 & H3 & H).
  unfold HuggingFaceEmbedding_new in H3.
  apply bind_Return_inv in H3 as (u3 & w3' & Hc3 & Hr3).
  apply call_Return_inv in Hc3 as ->. unfold ret in Hr3. injection Hr3 as <- <-.
  apply bind_Return_inv in H as ([] & w4 & H4 & H).
  unfold set_embed_model, modify in H4. injection H4 as <-.
  apply bind_Return_inv in H as (v5 & w5 & H5 & H).
  unfold AutoTokenizer_from_pretrained in H5.
  apply bind_Return_inv in H5 as (u5 & w5' & Hc5 & Hr5).
  apply call_Return_inv in Hc5 as ->. unfold ret in Hr5. injection Hr5 as <- <-.
  apply bind_Return_inv in H as ([] & w6 & H6 & H).
  unfold set_tokenizer, modify in H6. injection H6 as <-.
  match type of H with
  | match (_ ;; _) ?s0 with _ => _ end = _ => set (st0 := s0) in H
  end.
  destruct ((_setup_weaviate;; _setup_index) st0) as [[[]|e] s2] eqn:Hsetup;
    [|discriminate].
  injection H as <- <-.
  apply bind_Return_inv in Hsetup as ([] & s1 & Hsw & Hsi).
  destruct (setup_weaviate_inv (self st0) (world st0)) as (_ & Hs1 & Hself1).
  change {| self := self st0; world := world st0 |} with st0 in *.
  rewrite Hsw in Hs1, Hself1. simpl in Hs1, Hself1.
  destruct (Hself1 eq_refl) as [Hself1' Hc1]. clear Hself1.
  destruct s1 as [c1 w1]; simpl in *. subst c1.
  match type of Hsi with
  | _setup_index {| self := ?c1; world := _ |} = _ =>
      destruct (setup_index_inv c1 w1 _ eq_refl) as (Hc2 & Hs2 & _ & Hself2)
  end.
  rewrite Hsi in Hc2, Hs2, Hself2. simpl in Hc2, Hs2, Hself2.
  specialize (Hself2 eq_refl). rewrite Hself2.
  split; [by eapply constructed_reindexed|].
  repeat (split; [reflexivity|]).
  split; [by rewrite Hc2, Hc1|].
  exists kw. rewrite Hs2, Hs1. split; [reflexivity|].
  subst kw kw0. destruct base_url as [u|]; [destruct (truthy (Some u))|];
    split; by simplify_map_eq.
Qed.

Lemma quote_text_inj (t1 t2 r1 r2 : string) :
  quote_text t1 +:+ r1 = quote_text t2 +:+ r2 → t1 = t2 ∧ r1 = r2.
Proof.
  revert t2. induction t1 as [|c1 t1 IH]; intros [|c2 t2] H; cbn in H;
    try discriminate.
  - injection H as H. by subst.
  - injection H as Hc H. subst. by destruct (IH _ H) as [-> ->].
Qed.

Lemma quote_all_inj (texts1 texts2 : list string) :
  quote_all texts1 = quote_all texts2 → texts1 = texts2.
Proof.
  revert texts2. induction texts1 as [|t1 texts1 IH]; intros [|t2 texts2] H;
    cbn in H.
  - done.
  - by destruct t2.
  - by destruct t1.
  - destruct (quote_text_inj _ _ _ _ H) as [-> H']. by rewrite (IH _ H').
Qed.

(** Every context text influences the quoting synthesizer. *)
Lemma quoting_synthesizer_sensitive (mode message : string) :
  context_sensitive quoting_synthesizer mode message.
Proof. intros texts1 texts2. apply quote_all_inj. Qed.




(** The third of the retrieved texts reaches the answer: two collections
    that differ in the Document of rank 3 only are answered differently
    under the quoting synthesizer. *)
Example third_ranked_text_reaches_answer :
  let ask docs :=
    fst (chat "Which city?"
           {| self := demo_bot;
              world := with_synthesize quoting_synthesizer
                         (demo_world demo_env docs no_fault) |}) in
  ask (Document_new <$> ["Oslo"; "Paris is large"; "Rome is old"])
  ≠ ask (Document_new <$> ["Bern"; "Paris is large"; "Rome is old"])
  ∧ ask (Document_new <$> ["Oslo"; "Paris is large"; "Rome is old"])
    = Return ".P.a.r.i.s. .i.s. .l.a.r.g.e!.R.o.m.e. .i.s. .o.l.d!.O.s.l.o!".
Proof. split; [vm_compute; discriminate|vm_compute; reflexivity]. Qed.

(** ** [clear_knowledge_base] *)

(** One call of [clear_knowledge_base] that the vector database answers. *)
Lemma clear_run (c : WeaviateChatbot) (w : World) (cl : WeaviateClient)
    (vs : WeaviateVectorStore) :
  weaviate_client c = Some cl → vector_store c = Some vs →
  vs_index_name vs = index_name c →
  fault w (trace w) (CallDeleteClass (index_name c)) = None →
  index_calls_succeed w (index_name c) →
  ∃ w',
    clear_knowledge_base {| self := c; world := w |}
    = (Return tt, {| self := reindexed c vs; world := w' |})
    ∧ classes w' = delete (index_name c) (classes w)
    ∧ fault w' = fault w
    ∧ trace w'
      = trace w
        ++ [CallDeleteClass (index_name c); CallStorageContext (index_name c);
            CallFromVectorStore (index_name c)]
        ++ match fault w (trace w ++ [CallDeleteClass (index_name c);
                                      CallStorageContext (index_name c)])
                   (CallFromVectorStore (index_name c)) with
           | Some _ => [CallVectorStoreIndex (index_name c) []]
           | None => []
           end
        ++ [CallAsQueryEngine (index_name c) 3 "tree_summarize"].
Proof.
  intros Hcl Hvs Hname Hdel Hidx.
  destruct c; cbn in Hcl, Hvs, Hname, Hdel, Hidx; subst.
  destruct vs as [vcl vname]; cbn in *.
  unfold clear_knowledge_base, schema_delete_class. unfold_setup. cbn.
  rewrite Hdel. cbn. rewrite (proj1 (Hidx _)). cbn.
  rewrite <- !app_assoc. cbn.
  destruct (fault w _ (CallFromVectorStore vname)); cbn.
  - rewrite (proj1 (proj2 (Hidx _))). cbn. rewrite (proj2 (proj2 (Hidx _))). cbn.
    eexists. split; [reflexivity|]. cbn. rewrite <- !app_assoc. by repeat split.
  - rewrite (proj2 (proj2 (Hidx _))). cbn.
    eexists. split; [reflexivity|]. cbn. rewrite <- !app_assoc. by repeat split.
Qed.

(** One call of [clear_knowledge_base] whose deletion the vector database
    refuses. *)
Lemma clear_delete_failure_run (c : WeaviateChatbot) (w : World)
    (cl : WeaviateClient) (e : Exc) :
  weaviate_client c = Some cl →
  fault w (trace w) (CallDeleteClass (index_name c)) = Some e →
  ∃ w',
    clear_knowledge_base {| self := c; world := w |}
    = (Raise e, {| self := c; world := w' |})
    ∧ classes w' = classes w
    ∧ trace w' = trace w ++ [CallDeleteClass (index_name c)]
    ∧ log w' = log w ++ [(ERROR, "Failed to clear knowledge base: " +:+ str_exc e)]
    ∧ stdout w' = stdout w.
Proof.
  intros Hcl Hdel. destruct c; cbn in Hcl, Hdel; subst.
  unfold clear_knowledge_base, schema_delete_class. unfold_setup. cbn.
  rewrite Hdel. cbn.
  eexists. split; [reflexivity|]. by repeat split.
Qed.

Lemma collection_deleted (w : World) (name : string) :
  classes w !! name = None → collection w name = [].
Proof. intros H. unfold collection. by rewrite H. Qed.

Lemma collection_singleton (w : World) (name : string) (d : Document) :
  collection w name = [d] → classes w !! name = Some [d].
Proof. unfold collection. destruct (classes w !! name); simpl; by intros [= ->]. Qed.

(** C4 (amended). When the vector database accepts the deletion and the
    calls of [_setup_index], [clear_knowledge_base] deletes the class of
    the collection, so that no Document of it is left and a query retrieves
    nothing, leaves the other classes alone, and sets the index and the
    query engine up again.  It does not create the class again: the class
    is absent from the schema until the next insertion, which makes it
    anew with the inserted text as its only Document.  A second call right
    after the first asks for the deletion of the absent class: it returns,
    changing nothing, when the vector database accepts that, and logs and
    raises the exception of the vector database when it does not. *)
Theorem clear_knowledge_base_deletes_class (s : State) :
  constructed (self s) →
  fault (world s) (trace (world s)) (CallDeleteClass (index_name (self s))) = None →
  index_calls_succeed (world s) (index_name (self s)) →
  ∃ s1,
    clear_knowledge_base s = (Return tt, s1)
    ∧ classes (world s1) = delete (index_name (self s)) (classes (world s))
    ∧ classes (world s1) !! index_name (self s) = None
    ∧ collection (world s1) (index_name (self s)) = []
    ∧ (∀ qe message,
         query_engine (self s1) = Some qe → retrieved qe message (world s1) = [])
    ∧ constructed (self s1)
    ∧ index_name (self s1) = index_name (self s)
    ∧ (∃ l, trace (world s1)
            = trace (world s)
              ++ [CallDeleteClass (index_name (self s));
                  CallStorageContext (index_name (self s));
                  CallFromVectorStore (index_name (self s))]
              ++ l ++ [CallAsQueryEngine (index_name (self s)) 3 "tree_summarize"])
    ∧ (∀ t,
         fault (world s1) (trace (world s1))
           (CallInsert (index_name (self s)) (Document_new t)) = None →
         classes (world (snd (add_documents [t] None s1))) !! index_name (self s)
         = Some [Document_new t])
    ∧ match fault (world s1) (trace (world s1))
              (CallDeleteClass (index_name (self s))) with
      | None =>
          ∃ s2, clear_knowledge_base s1 = (Return tt, s2)
                ∧ classes (world s2) = classes (world s1)
      | Some e =>
          ∃ s2, clear_knowledge_base s1 = (Raise e, s2)
                ∧ self s2 = self s1
                ∧ classes (world s2) = classes (world s1)
                ∧ log (world s2)
                  = log (world s1)
                    ++ [(ERROR, "Failed to clear knowledge base: " +:+ str_exc e)]
      end.
Proof.
  intros Hc Hdel Hidx. destruct s as [c w]; cbn [self world] in *.
  destruct (constructed_vector_store c Hc) as (cl & vs & Hcl & Hvs & Hname).
  destruct (clear_run c w cl vs Hcl Hvs Hname Hdel Hidx)
    as (w1 & Hrun1 & Hcls1 & Hf1 & Htr1).
  assert (Hc1 : constructed (reindexed c vs)) by by eapply constructed_reindexed.
  assert (Habsent1 : classes w1 !! index_name c = None).
  { rewrite Hcls1. apply lookup_delete_eq. }
  assert (Hempty1 : collection w1 (index_name c) = []) by by apply collection_deleted.
  exists {| self := reindexed c vs; world := w1 |}. cbn [self world].
  split; [exact Hrun1|]. split; [exact Hcls1|]. split; [exact Habsent1|].
  split; [exact Hempty1|].
  split.
  { intros qe message Hqe. cbn in Hqe. injection Hqe as <-.
    unfold retrieved.
    change (index_name_of (qe_index (fresh_engine vs))) with (vs_index_name vs).
    rewrite Hname, Hempty1. apply retrieve_nil. }
  split; [exact Hc1|]. split; [reflexivity|].
  split; [eexists; exact Htr1|].
  split.
  { intros t Hf. apply collection_singleton.
    rewrite (add_documents_success {| self := reindexed c vs; world := w1 |}
               (fresh_index vs) [t] None eq_refl).
    - cbn [snd world]. rewrite collection_add_log.
      change (index_name_of (fresh_index vs)) with (vs_index_name vs).
      rewrite Hname, collection_insert_all, Hempty1. reflexivity.
    - intros j Hj. destruct j as [|j]; [|simpl in Hj; lia].
      cbn [self world]. change (Document_new <$> [t]) with [Document_new t].
      rewrite insert_fault_head.
      change (index_name_of (fresh_index vs)) with (vs_index_name vs).
      by rewrite Hname. }
  destruct (fault w1 (trace w1) (CallDeleteClass (index_name c))) as [e|] eqn:Hdel1.
  - destruct (clear_delete_failure_run (reindexed c vs) w1 cl e Hcl Hdel1)
      as (w2 & Hrun2 & Hcls2 & _ & Hlog2 & _).
    by exists {| self := reindexed c vs; world := w2 |}.
  - assert (Hidx1 : index_calls_succeed w1 (index_name (reindexed c vs))).
    { unfold index_calls_succeed. rewrite Hf1. exact Hidx. }
    destruct (clear_run (reindexed c vs) w1 cl vs Hcl Hvs Hname Hdel1 Hidx1)
      as (w2 & Hrun2 & Hcls2 & _ & _).
    exists {| self := reindexed (reindexed c vs) vs; world := w2 |}.
    split; [exact Hrun2|]. cbn [self world index_name reindexed] in *.
    rewrite Hcls2. by apply delete_id.
Qed.

(** The theorem above on a collection of two Documents. *)
Lemma clear_knowledge_base_deletes_class_witness :
  ∃ s1,
    clear_knowledge_base (demo_state demo_docs no_fault) = (Return tt, s1)
    ∧ classes (world s1)
      = delete "ChatbotKnowledge" (classes (world (demo_state demo_docs no_fault)))
    ∧ classes (world s1) !! "ChatbotKnowledge" = None
    ∧ collection (world s1) "ChatbotKnowledge" = []
    ∧ (∀ qe message,
         query_engine (self s1) = Some qe → retrieved qe message (world s1) = [])
    ∧ constructed (self s1)
    ∧ index_name (self s1) = "ChatbotKnowledge"
    ∧ (∃ l, trace (world s1)
            = [] ++ [CallDeleteClass "ChatbotKnowledge";
                     CallStorageContext "ChatbotKnowledge";
                     CallFromVectorStore "ChatbotKnowledge"]
              ++ l ++ [CallAsQueryEngine "ChatbotKnowledge" 3 "tree_summarize"])
    ∧ (∀ t,
         fault (world s1) (trace (world s1))
           (CallInsert "ChatbotKnowledge" (Document_new t)) = None →
         classes (world (snd (add_documents [t] None s1))) !! "ChatbotKnowledge"
         = Some [Document_new t])
    ∧ match fault (world s1) (trace (world s1))
              (CallDeleteClass "ChatbotKnowledge") with
      | None =>
          ∃ s2, clear_knowledge_base s1 = (Return tt, s2)
                ∧ classes (world s2) = classes (world s1)
      | Some e =>
          ∃ s2, clear_knowledge_base s1 = (Raise e, s2)
                ∧ self s2 = self s1
                ∧ classes (world s2) = classes (world s1)
                ∧ log (world s2)
                  = log (world s1)
                    ++ [(ERROR, "Failed to clear knowledge base: " +:+ str_exc e)]
      end.
Proof.
  apply (clear_knowledge_base_deletes_class (demo_state demo_docs no_fault)).
  - exists demo_client, demo_store. repeat split; reflexivity.
  - reflexivity.
  - intros h. repeat split; reflexivity.
Defined.

(** C4, as the specification words it, fails.  Every service answers and
    the collection holds two Documents: [clear_knowledge_base] returns and
    the class is absent, the schema listing no class at all, so the
    collection was not recreated.  And with a vector database that refuses
    to delete a class it does not hold, the second of two calls in a row
    raises. *)
Lemma clear_does_not_recreate_class :
  (∃ s1,
     clear_knowledge_base (demo_state demo_docs no_fault) = (Return tt, s1)
     ∧ classes (world s1) !! "ChatbotKnowledge" = None
     ∧ fst (get_schema_info s1) = Return (Some ∅))
  ∧ ¬ clear_recreates_empty (demo_state demo_docs no_fault)
  ∧ (∃ s1 e s2,
       clear_knowledge_base (demo_state demo_docs refuse_absent_delete) = (Return tt, s1)
       ∧ clear_knowledge_base s1 = (Raise e, s2)
       ∧ collection (world s2) "ChatbotKnowledge" = [])
  ∧ ¬ clear_twice_returns (demo_state demo_docs refuse_absent_delete)
  ∧ ¬ clear_promise (demo_state demo_docs no_fault).
Proof.
  assert (Hnot : ¬ clear_recreates_empty (demo_state demo_docs no_fault)).
  { intros (s1 & Hrun & Hcls).
    destruct (clear_knowledge_base (demo_state demo_docs no_fault)) as [o s1'] eqn:Hrun'.
    vm_compute in Hrun'. injection Hrun' as <- <-. injection Hrun as <-.
    vm_compute in Hcls. discriminate Hcls. }
  split.
  { eexists. split; [vm_compute; reflexivity|]. split; vm_compute; reflexivity. }
  split; [exact Hnot|]. split.
  { eexists _, _, _. split; [vm_compute; reflexivity|].
    split; vm_compute; reflexivity. }
  split; [|by intros [H _]].
  intros (s1 & s2 & Hrun1 & Hrun2).
  destruct (clear_knowledge_base (demo_state demo_docs refuse_absent_delete))
    as [o s1'] eqn:Hrun1'.
  vm_compute in Hrun1'. injection Hrun1' as <- <-. injection Hrun1 as <-.
  vm_compute in Hrun2. discriminate Hrun2.
Qed.

(** ** The instance invariant *)

Lemma for_each_insert_self (c : WeaviateChatbot) (docs : list Document) (w : World) :
  self (snd (for_each docs
               (fun doc => idx <- attr "index" index;; lift (index_insert idx doc))
               {| self := c; world := w |})) = c.
Proof.
  revert w. induction docs as [|d ds IH]; intros w; simpl; [done|].
  unfold bind at 1. unfold bind at 1, attr at 1, lift at 1. cbn [self world].
  destruct (index c) as [idx|] eqn:Hidx; cbn [self world]; [|done].
  destruct (index_insert idx d w) as [[[]|e] w1]; [apply IH|done].
Qed.

Lemma add_documents_self (documents : list string) (titles : option (list string))
    (s : State) :
  self (snd (add_documents documents titles s)) = self s.
Proof.
  destruct s as [c w]. unfold add_documents, try_except. rewrite build_docs; simpl.
  unfold bind at 1.
  assert (H := for_each_insert_self c (Document_new <$> documents) w).
  destruct (for_each _ _ _) as [[[]|e] s1]; simpl in *; done.
Qed.

Lemma add_text_file_self (file_path : string) (s : State) :
  self (snd (add_text_file file_path s)) = self s.
Proof.
  destruct s as [c w].
  unfold add_text_file, index_insert, open_read, logger_error, logger_info,
    try_except, bind, lift, attr, call, modify, ret, raise; cbn.
  destruct (files w !! file_path) as [[content| |msg]|]; cbn; try done.
  destruct (index c); cbn; [|done].
  by destruct (fault w (trace w) _).
Qed.

Lemma setup_index_constructed (c : WeaviateChatbot) (w : World) :
  constructed c → constructed (self (snd (_setup_index {| self := c; world := w |}))).
Proof.
  intros (cl & vs & Hcl & Hvs & Hname & Hidx & Hqe).
  destruct c; cbn in Hcl, Hvs, Hname, Hidx, Hqe; subst.
  unfold_setup. case_faults; cbn; exists cl, vs; repeat split; done.
Qed.

Lemma clear_knowledge_base_constructed (s : State) :
  constructed (self s) → constructed (self (snd (clear_knowledge_base s))).
Proof.
  intros Hc. destruct s as [c w]; cbn [self] in Hc.
  assert (Hsetup := fun w' => setup_index_constructed c w' Hc).
  destruct Hc as (cl & vs & Hcl & Hvs & Hname & Hidx & Hqe).
  unfold clear_knowledge_base, try_except.
  unfold bind at 1, attr at 1. cbn [self world]. rewrite Hcl.
  unfold bind at 1, self_index_name at 1.
  unfold bind at 1, lift at 1, schema_delete_class, bind at 1, call, modify.
  cbn [self world].
  destruct (fault w (trace w) _); cbn [self world].
  { unfold bind, lift, logger_error, modify, raise. cbn. exists cl, vs. done. }
  unfold bind at 1, lift at 1, logger_info, modify. cbn [self world].
  match goal with |- context [_setup_index ?s0] =>
    specialize (Hsetup (world s0)); cbn [world] in Hsetup;
    destruct (_setup_index s0) as [[[]|e] s1]
  end; cbn in *; done.
Qed.

Lemma chat_self (message : string) (s : State) :
  self (snd (chat message s)) = self s.
Proof.
  destruct (query_engine (self s)) as [qe|] eqn:Hqe.
  - rewrite (chat_run s qe message Hqe).
    by destruct (fault (world s) (trace (world s)) _).
  - destruct s as [c w]; simpl in Hqe.
    unfold chat, try_except, bind, attr; simpl. by rewrite Hqe.
Qed.

Lemma get_schema_info_self (s : State) :
  self (snd (get_schema_info s)) = self s.
Proof.
  destruct s as [c w].
  unfold get_schema_info, schema_get, logger_error, try_except, bind, attr, lift,
    call, get, ret, modify; simpl.
  destruct (weaviate_client c) as [cl|]; simpl; [|done].
  by destruct (fault w (trace w) CallSchemaGet).
Qed.

(** X11. Every method keeps a constructed instance constructed, whether it
    returns or raises. *)
Theorem constructed_invariant (s : State) :
  constructed (self s) →
  (∀ documents titles, constructed (self (snd (add_documents documents titles s))))
  ∧ (∀ file_path, constructed (self (snd (add_text_file file_path s))))
  ∧ (∀ message, constructed (self (snd (chat message s))))
  ∧ constructed (self (snd (clear_knowledge_base s)))
  ∧ constructed (self (snd (get_schema_info s))).
Proof.
  intros Hc. split; [|split; [|split; [|split]]].
  - intros. by rewrite add_documents_self.
  - intros. by rewrite add_text_file_self.
  - intros. by rewrite chat_self.
  - by apply clear_knowledge_base_constructed.
  - by rewrite get_schema_info_self.
Qed.

Lemma constructed_invariant_witness :
  (∀ documents titles,
     constructed (self (snd (add_documents documents titles
                               (demo_state demo_docs reject_empty_text)))))
  ∧ (∀ file_path,
       constructed (self (snd (add_text_file file_path
                                 (demo_state demo_docs reject_empty_text)))))
  ∧ (∀ message,
       constructed (self (snd (chat message (demo_state demo_docs reject_empty_text)))))
  ∧ constructed (self (snd (clear_knowledge_base
                              (demo_state demo_docs reject_empty_text))))
  ∧ constructed (self (snd (get_schema_info (demo_state demo_docs reject_empty_text)))).
Proof.
  apply (constructed_invariant (demo_state demo_docs reject_empty_text)).
  exists demo_client, demo_store. repeat split; reflexivity.
Defined.

Example constructor_builds_demo_bot :
  fst (WeaviateChatbot_default (demo_world demo_env [] no_fault)) = Return demo_bot.
Proof. vm_compute. reflexivity. Qed.

Example ranked_by_score :
  text <$> retrieve 2 (fun d => Z.of_nat (String.length (text d)))
             [Document_new "a"; Document_new "ccc"; Document_new "bb"; Document_new "dd"]
  = ["ccc"; "bb"].
Proof. reflexivity. Qed.

Lemma setup_weaviate_not_ready_run (c : WeaviateChatbot) (w : World) :
  fault w (trace w) (CallWeaviateClient (weaviate_url c)) = None →
  fault w (trace w ++ [CallWeaviateClient (weaviate_url c)])
    (CallIsReady (weaviate_url c)) = None →
  weaviate_ready w (weaviate_url c) = false →
  ∃ s',
    _setup_weaviate {| self := c; world := w |}
    = (Raise {| exc_class := ConnectionError;
                exc_msg := "Could not connect to Weaviate" |}, s')
    ∧ weaviate_client (self s') = Some {| client_url := weaviate_url c |}
    ∧ vector_store (self s') = vector_store c
    ∧ trace (world s')
      = trace w ++ [CallWeaviateClient (weaviate_url c); CallIsReady (weaviate_url c)]
    ∧ log (world s')
      = log w ++ [(ERROR, "Failed to setup Weaviate: Could not connect to Weaviate")]
    ∧ classes (world s') = classes w.
Proof.
  intros Hcl Hrd Hready. destruct c; cbn in Hcl, Hrd, Hready.
  unfold_setup. cbn. rewrite Hcl. cbn. rewrite Hrd. cbn. rewrite Hready. cbn.
  eexists. split; [reflexivity|]. cbn. rewrite <- app_assoc. by repeat split.
Qed.

(** X6. When loading the index from the vector store fails, [_setup_index]
    swallows that exception without logging it, builds an empty index
    over the same storage context instead, logs Created new index, and
    returns with the index and the query engine assigned.  The stored
    classes are untouched. *)
Theorem setup_index_falls_back (c : WeaviateChatbot) (w : World)
    (vs : WeaviateVectorStore) (e : Exc) :
  vector_store c = Some vs →
  fault w (trace w) (CallStorageContext (vs_index_name vs)) = None →
  fault w (trace w ++ [CallStorageContext (vs_index_name vs)])
    (CallFromVectorStore (vs_index_name vs)) = Some e →
  fault w (trace w ++ [CallStorageContext (vs_index_name vs);
                       CallFromVectorStore (vs_index_name vs)])
    (CallVectorStoreIndex (vs_index_name vs) []) = None →
  fault w (trace w ++ [CallStorageContext (vs_index_name vs);
                       CallFromVectorStore (vs_index_name vs);
                       CallVectorStoreIndex (vs_index_name vs) []])
    (CallAsQueryEngine (vs_index_name vs) 3 "tree_summarize") = None →
  ∃ w',
    _setup_index {| self := c; world := w |}
    = (Return tt, {| self := reindexed c vs; world := w' |})
    ∧ log w' = log w ++ [(INFO, "Created new index: " +:+ index_name c)]
    ∧ trace w'
      = trace w ++ [CallStorageContext (vs_index_name vs);
                    CallFromVectorStore (vs_index_name vs);
                    CallVectorStoreIndex (vs_index_name vs) [];
                    CallAsQueryEngine (vs_index_name vs) 3 "tree_summarize"]
    ∧ classes w' = classes w.
Proof.
  intros Hvs Hsc Hfvs Hvsi Hqe. destruct c; cbn in Hvs; subst.
  unfold_setup. unfold index_name_of. cbn. rewrite Hsc. cbn. rewrite Hfvs. cbn.
  rewrite <- !app_assoc. cbn. rewrite Hvsi. cbn.
  rewrite <- !app_assoc. cbn. rewrite Hqe. cbn.
  eexists. split; [reflexivity|]. cbn. rewrite <- !app_assoc. by repeat split.
Qed.

Lemma setup_index_falls_back_witness :
  ∃ w',
    _setup_index (demo_state demo_docs (fail_on is_from_vector_store demo_timeout))
    = (Return tt, {| self := reindexed demo_bot demo_store; world := w' |})
    ∧ log w' = [] ++ [(INFO, "Created new index: " +:+ "ChatbotKnowledge")]
    ∧ trace w'
      = [] ++ [CallStorageContext "ChatbotKnowledge";
               CallFromVectorStore "ChatbotKnowledge";
               CallVectorStoreIndex "ChatbotKnowledge" [];
               CallAsQueryEngine "ChatbotKnowledge" 3 "tree_summarize"]
    ∧ classes w' = {[ "ChatbotKnowledge" := demo_docs ]}.
Proof.
  apply (setup_index_falls_back demo_bot
           (demo_world demo_env demo_docs (fail_on is_from_vector_store demo_timeout))
           demo_store demo_timeout); reflexivity.
Defined.

(** X7. When the creation of the query engine fails, [_setup_index] raises
    with the index already replaced by the new one while the query engine
    attribute still holds the previous engine. *)
Theorem setup_index_stale_engine (c : WeaviateChatbot) (w : World)
    (vs : WeaviateVectorStore) (e : Exc) :
  vector_store c = Some vs →
  fault w (trace w) (CallStorageContext (vs_index_name vs)) = None →
  fault w (trace w ++ [CallStorageContext (vs_index_name vs)])
    (CallFromVectorStore (vs_index_name vs)) = None →
  fault w (trace w ++ [CallStorageContext (vs_index_name vs);
                       CallFromVectorStore (vs_index_name vs)])
    (CallAsQueryEngine (vs_index_name vs) 3 "tree_summarize") = Some e →
  ∃ s',
    _setup_index {| self := c; world := w |} = (Raise e, s')
    ∧ index (self s') = Some (fresh_index vs)
    ∧ query_engine (self s') = query_engine c
    ∧ log (world s')
      = log w ++ [(INFO, "Loaded existing index: " +:+ index_name c);
                  (ERROR, "Failed to setup index: " +:+ str_exc e)].
Proof.
  intros Hvs Hsc Hfvs Hqe. destruct c; cbn in Hvs; subst.
  unfold_setup. unfold index_name_of. cbn. rewrite Hsc. cbn. rewrite Hfvs. cbn.
  rewrite <- !app_assoc. cbn. rewrite Hqe. cbn.
  eexists. split; [reflexivity|]. cbn. rewrite <- !app_assoc. by repeat split.
Qed.

Lemma setup_index_stale_engine_witness :
  ∃ s',
    _setup_index (demo_state demo_docs (fail_on is_as_query_engine demo_timeout))
    = (Raise demo_timeout, s')
    ∧ index (self s') = Some (fresh_index demo_store)
    ∧ query_engine (self s') = query_engine demo_bot
    ∧ log (world s')
      = [] ++ [(INFO, "Loaded existing index: " +:+ "ChatbotKnowledge");
               (ERROR, "Failed to setup index: " +:+ str_exc demo_timeout)].
Proof.
  apply (setup_index_stale_engine demo_bot
           (demo_world demo_env demo_docs (fail_on is_as_query_engine demo_timeout))
           demo_store demo_timeout); reflexivity.
Defined.

(** X10. [clear_knowledge_base] is not atomic: when the class has been
    deleted and setting the index up again fails, the method raises with
    the class gone, the instance unchanged, and the failure logged twice
    (by [_setup_index] and by [clear_knowledge_base]) after the message
    that the knowledge base was cleared. *)
Theorem clear_failure_after_delete (c : WeaviateChatbot) (w : World)
    (cl : WeaviateClient) (vs : WeaviateVectorStore) (e : Exc) :
  weaviate_client c = Some cl → vector_store c = Some vs →
  fault w (trace w) (CallDeleteClass (index_name c)) = None →
  fault w (trace w ++ [CallDeleteClass (index_name c)])
    (CallStorageContext (vs_index_name vs)) = Some e →
  ∃ w',
    clear_knowledge_base {| self := c; world := w |}
    = (Raise e, {| self := c; world := w' |})
    ∧ classes w' = delete (index_name c) (classes w)
    ∧ log w'
      = log w ++ [(INFO, "Cleared knowledge base: " +:+ index_name c);
                  (ERROR, "Failed to setup index: " +:+ str_exc e);
                  (ERROR, "Failed to clear knowledge base: " +:+ str_exc e)].
Proof.
  intros Hcl Hvs Hdel Hsc. destruct c; cbn in Hcl, Hvs, Hdel, Hsc; subst.
  unfold clear_knowledge_base, schema_delete_class. unfold_setup. cbn.
  rewrite Hdel. cbn. rewrite Hsc. cbn.
  eexists. split; [reflexivity|]. cbn. rewrite <- !app_assoc. by repeat split.
Qed.

Lemma clear_failure_after_delete_witness :
  ∃ w',
    clear_knowledge_base (demo_state demo_docs (fail_on is_storage_context demo_timeout))
    = (Raise demo_timeout, {| self := demo_bot; world := w' |})
    ∧ classes w' = delete "ChatbotKnowledge" {[ "ChatbotKnowledge" := demo_docs ]}
    ∧ log w'
      = [] ++ [(INFO, "Cleared knowledge base: " +:+ "ChatbotKnowledge");
               (ERROR, "Failed to setup index: " +:+ str_exc demo_timeout);
               (ERROR, "Failed to clear knowledge base: " +:+ str_exc demo_timeout)].
Proof.
  apply (clear_failure_after_delete demo_bot
           (demo_world demo_env demo_docs (fail_on is_storage_context demo_timeout))
           demo_client demo_store demo_timeout); reflexivity.
Defined.

(** ** Relations every statement keeps *)

Section Keeps.
Context (R : World → World → Prop) `{!WorldRel R}.

Lemma keeps_ret {A} (a : A) : keeps R (ret a).
Proof. intros w. apply R_refl. Qed.

Lemma keeps_raise {A} (e : Exc) : keeps R (@raise World A e).
Proof. intros w. apply R_refl. Qed.

Lemma keeps_bind {A B} (m : M World A) (k : A → M World B) :
  keeps R m → (∀ a, keeps R (k a)) → keeps R (bind m k).
Proof.
  intros Hm Hk w. unfold bind. specialize (Hm w).
  destruct (m w) as [[a|e] w1]; simpl in *; [|done].
  eapply R_trans; [exact Hm|apply Hk].
Qed.

Lemma keeps_try {A} (body : M World A) (handler : Exc → M World A) :
  keeps R body → (∀ e, keeps R (handler e)) → keeps R (try_except body handler).
Proof.
  intros Hb Hh w. unfold try_except. specialize (Hb w).
  destruct (body w) as [[a|e] w1]; simpl in *; [done|].
  eapply R_trans; [exact Hb|apply Hh].
Qed.

Lemma keeps_if {A} (b : bool) (m1 m2 : M World A) :
  keeps R m1 → keeps R m2 → keeps R (if b then m1 else m2).
Proof. by destruct b. Qed.

Lemma keeps_call (c : Call) : keeps R (call c).
Proof. intros w. unfold call. destruct (fault w (trace w) c); apply R_call. Qed.

Lemma keeps_getenv (key : string) : keeps R (os_getenv key).
Proof. intros w. apply R_refl. Qed.

Lemma keeps_get : keeps R get.
Proof. intros w. apply R_refl. Qed.

Lemma keeps_logger_info (msg : string) : keeps R (logger_info msg).
Proof. intros w. apply R_log. Qed.

Lemma keeps_logger_error (msg : string) : keeps R (logger_error msg).
Proof. intros w. apply R_log. Qed.

Lemma keeps_set_llm v : keeps R (set_llm v).
Proof. intros w. apply R_settings. Qed.

Lemma keeps_set_embed_model v : keeps R (set_embed_model v).
Proof. intros w. apply R_settings. Qed.

Lemma keeps_set_tokenizer v : keeps R (set_tokenizer v).
Proof. intros w. apply R_settings. Qed.

Lemma keepsS_ret {A} (a : A) : keepsS R (ret a).
Proof. intros s. apply R_refl. Qed.

Lemma keepsS_raise {A} (e : Exc) : keepsS R (@raise State A e).
Proof. intros s. apply R_refl. Qed.

Lemma keepsS_bind {A B} (m : M State A) (k : A → M State B) :
  keepsS R m → (∀ a, keepsS R (k a)) → keepsS R (bind m k).
Proof.
  intros Hm Hk s. unfold bind. specialize (Hm s).
  destruct (m s) as [[a|e] s1]; simpl in *; [|done].
  eapply R_trans; [exact Hm|apply Hk].
Qed.

Lemma keepsS_if {A} (b : bool) (m1 m2 : M State A) :
  keepsS R m1 → keepsS R m2 → keepsS R (if b then m1 else m2).
Proof. by destruct b. Qed.

Lemma keepsS_try {A} (body : M State A) (handler : Exc → M State A) :
  keepsS R body → (∀ e, keepsS R (handler e)) → keepsS R (try_except body handler).
Proof.
  intros Hb Hh s. unfold try_except. specialize (Hb s).
  destruct (body s) as [[a|e] s1]; simpl in *; [done|].
  eapply R_trans; [exact Hb|apply Hh].
Qed.

Lemma keepsS_lift {A} (m : M World A) : keeps R m → keepsS R (lift m).
Proof.
  intros Hm s. unfold lift. specialize (Hm (world s)).
  by destruct (m (world s)) as [o w1].
Qed.

Lemma keepsS_attr {A} (name : string) (proj : WeaviateChatbot → option A) :
  keepsS R (attr name proj).
Proof. intros s. unfold attr. destruct (proj (self s)); apply R_refl. Qed.

Lemma keepsS_set_self (g : WeaviateChatbot → WeaviateChatbot) : keepsS R (set_self g).
Proof. intros s. apply R_refl. Qed.

Lemma keepsS_self_index_name : keepsS R self_index_name.
Proof. intros s. apply R_refl. Qed.

Lemma keepsS_self_weaviate_url : keepsS R self_weaviate_url.
Proof. intros s. apply R_refl. Qed.

(** The last step of the constructor: the methods run on the new instance. *)
Lemma keeps_on_new_instance {A} (m : M State A) (c : WeaviateChatbot) :
  keepsS R m →
  keeps R (fun w => match m {| self := c; world := w |} with
                    | (Return _, s) => (Return (self s), world s)
                    | (Raise e, s) => (Raise e, world s)
                    end).
Proof.
  intros Hm w. specialize (Hm {| self := c; world := w |}).
  by destruct (m _) as [[a|e] s1].
Qed.

Lemma keeps_with_self {A} (m : M State A) (c : WeaviateChatbot) :
  keepsS R m → keeps R (with_self c m).
Proof.
  intros Hm w. unfold with_self. specialize (Hm {| self := c; world := w |}).
  by destruct (m _) as [o s1].
Qed.

End Keeps.

Ltac keeps_step :=
  lazymatch goal with
  | |- keeps ?R (bind _ _) => apply (keeps_bind R)
  | |- keeps ?R (try_except _ _) => apply (keeps_try R)
  | |- keeps ?R (if _ then _ else _) => apply (keeps_if R)
  | |- keeps ?R (ret _) => apply (keeps_ret R)
  | |- keeps ?R (raise _) => apply (keeps_raise R)
  | |- keeps ?R (call _) => apply (keeps_call R)
  | |- keeps ?R (os_getenv _) => apply (keeps_getenv R)
  | |- keeps ?R get => apply (keeps_get R)
  | |- keeps ?R (logger_info _) => apply (keeps_logger_info R)
  | |- keeps ?R (logger_error _) => apply (keeps_logger_error R)
  | |- keeps ?R (set_llm _) => apply (keeps_set_llm R)
  | |- keeps ?R (set_embed_model _) => apply (keeps_set_embed_model R)
  | |- keeps ?R (set_tokenizer _) => apply (keeps_set_tokenizer R)
  | |- keeps ?R (with_self _ _) => apply (keeps_with_self R)
  | |- keeps ?R (fun _ => match _ with _ => _ end) => apply (keeps_on_new_instance R)
  | |- keepsS ?R (bind _ _) => apply (keepsS_bind R)
  | |- keepsS ?R (try_except _ _) => apply (keepsS_try R)
  | |- keepsS ?R (if _ then _ else _) => apply (keepsS_if R)
  | |- keepsS ?R (lift _) => apply (keepsS_lift R)
  | |- keepsS ?R (ret _) => apply (keepsS_ret R)
  | |- keepsS ?R (raise _) => apply (keepsS_raise R)
  | |- keepsS ?R (attr _ _) => apply (keepsS_attr R)
  | |- keepsS ?R (set_self _) => apply (keepsS_set_self R)
  | |- keepsS ?R self_index_name => apply (keepsS_self_index_name R)
  | |- keepsS ?R self_weaviate_url => apply (keepsS_self_weaviate_url R)
  | |- ∀ _, _ => intro
  end.

Section KeepsMethods.
Context (R : World → World → Prop) `{!WorldRel R}.

Lemma keepsS_setup_index : keepsS R _setup_index.
Proof.
  unfold _setup_index, StorageContext_from_defaults,
    VectorStoreIndex_from_vector_store, VectorStoreIndex_new, as_query_engine,
    set_index, set_query_engine.
  repeat keeps_step.
Qed.

End KeepsMethods.

Global Instance own_class_only_rel (name : string) : WorldRel (own_class_only name).
Proof.
  split; try (intros; split; [by left|done]).
  intros w1 w2 w3 (H1 & Hf1 & He1) (H2 & Hf2 & He2).
  split; [|split; congruence].
  destruct H1 as [H1|[Hn1 H1]], H2 as [H2|[Hn2 H2]].
  - left. congruence.
  - right. rewrite H1 in Hn2, H2. by split.
  - right. rewrite H2. by split.
  - rewrite H1, lookup_insert_eq in Hn2. discriminate Hn2.
Qed.

(** [_setup_weaviate] leaves the stored Documents alone: the vector store
    it attaches makes the class of the instance, empty, when it is absent. *)
Lemma setup_weaviate_own_class_only (c : WeaviateChatbot) (w : World) :
  own_class_only (index_name c) w
    (world (snd (_setup_weaviate {| self := c; world := w |}))).
Proof.
  destruct c as [u n m l e b cl vs i q]. unfold_setup.
  unfold own_class_only, ensure_class.
  case_faults; cbn; try (split; [by left|done]).
  destruct (classes w !! n) eqn:Hcls; (split; [|done]); [by left|by right].
Qed.

(** The last step of the constructor, on the new instance. *)
Lemma keeps_own_class_on_new_instance (c : WeaviateChatbot) :
  keeps (own_class_only (index_name c))
    (fun w => match (_setup_weaviate;; _setup_index) {| self := c; world := w |} with
              | (Return _, s) => (Return (self s), world s)
              | (Raise e, s) => (Raise e, world s)
              end).
Proof.
  intros w. unfold bind at 1.
  assert (H1 := setup_weaviate_own_class_only c w).
  destruct (_setup_weaviate _) as [[[]|e] s1]; cbn [snd] in *; [|exact H1].
  assert (H2 := keepsS_setup_index (own_class_only (index_name c)) s1).
  destruct (_setup_index s1) as [[[]|e] s2]; cbn [snd] in *;
    eapply (R_trans (R := own_class_only _)); eauto.
Qed.

Global Instance trace_grows_rel : WorldRel trace_grows.
Proof.
  split.
  - intros w. exists []. by rewrite app_nil_r.
  - intros w1 w2 w3 [l1 H1] [l2 H2]. exists (l1 ++ l2).
    by rewrite H2, H1, app_assoc.
  - intros c w. by exists [c].
  - intros lvl msg w. exists []. by rewrite app_nil_r.
  - intros g w. exists []. by rewrite app_nil_r.
Qed.

(** X4. The constructor never changes a stored Document, the file system or
    the environment, whether it returns or raises: the stored classes are
    as before, or the class of the index name, absent before, is there
    with no Document in it. *)
Theorem constructor_keeps_stored_data (url name model : string) (base : option string)
    (local : bool) (emb : string) (w : World) :
  (classes (snd (WeaviateChatbot_new url name model base local emb w)) = classes w
   ∨ (classes w !! name = None
      ∧ classes (snd (WeaviateChatbot_new url name model base local emb w))
        = <[name := []]> (classes w)))
  ∧ files (snd (WeaviateChatbot_new url name model base local emb w)) = files w
  ∧ environ (snd (WeaviateChatbot_new url name model base local emb w)) = environ w.
Proof.
  revert w. change (keeps (own_class_only name)
                      (WeaviateChatbot_new url name model base local emb)).
  unfold WeaviateChatbot_new, OpenAI_new, HuggingFaceEmbedding_new,
    AutoTokenizer_from_pretrained.
  repeat first
    [ apply (keeps_own_class_on_new_instance
               {| weaviate_url := url; index_name := name; model_name := model;
                  use_local_embeddings := local; embedding_model_name := emb;
                  openai_base_url := _;
                  weaviate_client := None; vector_store := None;
                  index := None; query_engine := None |})
    | keeps_step ].
Qed.

Lemma constructor_prefix (url name model : string) (base : option string)
    (local : bool) (emb : string) (w : World) :
  truthy (environ w !! "OPENAI_API_KEY") = true →
  providers_up w →
  ∃ kwargs w3,
    WeaviateChatbot_new url name model base local emb w
    = match (_setup_weaviate;; _setup_index)
              {| self := blank_bot url name model (effective_base_url base w) local emb;
                 world := w3 |} with
      | (Return _, s) => (Return (self s), world s)
      | (Raise e, s) => (Raise e, world s)
      end
    ∧ settings w3
      = {| llm := Some kwargs;
           embed_model := Some {| hf_model_name := emb; hf_trust_remote_code := false;
                                  hf_device := "cpu" |};
           tokenizer := Some emb |}
    ∧ kwargs !! "model" = Some (KwStr model)
    ∧ kwargs !! "temperature" = Some (KwFloat (1 # 10))
    ∧ kwargs !! "api_base"
      = (if truthy (effective_base_url base w)
         then KwStr <$> effective_base_url base w else None)
    ∧ trace w3
      = trace w ++ [CallOpenAI kwargs;
                    CallHuggingFaceEmbedding
                      {| hf_model_name := emb; hf_trust_remote_code := false;
                         hf_device := "cpu" |};
                    CallAutoTokenizer emb]
    ∧ classes w3 = classes w ∧ log w3 = log w ∧ fault w3 = fault w
    ∧ weaviate_ready w3 = weaviate_ready w.
Proof.
  intros Hkey Hup.
  unfold WeaviateChatbot_new, OpenAI_new, HuggingFaceEmbedding_new,
    AutoTokenizer_from_pretrained, set_llm, set_embed_model, set_tokenizer, os_getenv.
  set (base_url := effective_base_url base w).
  assert (Hb : (if truthy base then ret base else os_getenv "BASE_URL") w
               = (Return base_url, w)).
  { subst base_url. unfold effective_base_url, ret, os_getenv. by destruct (truthy base). }
  unfold os_getenv in Hb. unfold bind at 1. rewrite Hb.
  unfold bind at 1. rewrite Hkey. cbn [negb].
  set (kw0 := <["temperature":=KwFloat (1 # 10)]> {["model" := KwStr model]}).
  set (kw := match base_url with
             | Some u => if truthy base_url then <["api_base":=KwStr u]> kw0 else kw0
             | None => kw0
             end).
  exists kw. eexists.
  split.
  { unfold bind, call, modify, ret. cbn.
    rewrite (Hup _ (CallOpenAI kw) eq_refl). cbn.
    rewrite (Hup _ (CallHuggingFaceEmbedding _) eq_refl). cbn.
    rewrite (Hup _ (CallAutoTokenizer _) eq_refl). cbn. reflexivity. }
  cbn. rewrite <- !app_assoc. repeat split; try done.
  - subst kw kw0. destruct base_url as [u|]; [destruct (truthy (Some u))|];
      by simplify_map_eq.
  - subst kw kw0. destruct base_url as [u|]; [destruct (truthy (Some u))|];
      by simplify_map_eq.
  - subst kw kw0. destruct base_url as [u|]; [destruct (truthy (Some u)) eqn:Ht|];
      cbn; rewrite ?Ht; by simplify_map_eq.
Qed.

Section KeepsReaders.
Context (R : World → World → Prop) `{!WorldRel R}.

Lemma keeps_schema_get (c : WeaviateClient) : keeps R (schema_get c).
Proof. unfold schema_get. repeat keeps_step. Qed.

Lemma keeps_engine_query (qe : QueryEngine) (message : string) :
  keeps R (engine_query qe message).
Proof. unfold engine_query. repeat keeps_step. Qed.

Lemma keeps_open_read (path : string) : keeps R (open_read path).
Proof.
  intros w. unfold open_read.
  destruct (files w !! path) as [[?| |?]|]; apply R_refl.
Qed.

Lemma keepsS_chat (message : string) : keepsS R (chat message).
Proof. unfold chat. repeat first [ apply keeps_engine_query | keeps_step ]. Qed.

Lemma keepsS_get_schema_info : keepsS R get_schema_info.
Proof. unfold get_schema_info. repeat first [ apply keeps_schema_get | keeps_step ]. Qed.

End KeepsReaders.

Section KeepsAll.
Context (R : World → World → Prop) `{!WorldRelAll R}.

Lemma keeps_index_insert (idx : VectorStoreIndex) (doc : Document) :
  keeps R (index_insert idx doc).
Proof.
  unfold index_insert. apply (keeps_bind R); [apply (keeps_call R)|].
  intros _ w. apply R_classes.
Qed.

Lemma keeps_schema_delete_class (c : WeaviateClient) (name : string) :
  keeps R (schema_delete_class c name).
Proof.
  unfold schema_delete_class. apply (keeps_bind R); [apply (keeps_call R)|].
  intros _ w. apply R_classes.
Qed.

Lemma keepsS_setup_weaviate : keepsS R _setup_weaviate.
Proof.
  unfold _setup_weaviate, weaviate_Client, is_ready, WeaviateVectorStore_new,
    set_weaviate_client, set_vector_store.
  repeat first [ keeps_step | intros w; apply R_classes ].
Qed.

Lemma keeps_constructor (url name model : string) (base : option string)
    (local : bool) (emb : string) :
  keeps R (WeaviateChatbot_new url name model base local emb).
Proof.
  unfold WeaviateChatbot_new, OpenAI_new, HuggingFaceEmbedding_new,
    AutoTokenizer_from_pretrained.
  repeat first [ apply keepsS_setup_weaviate | apply (keepsS_setup_index R)
               | keeps_step ].
Qed.

Lemma keeps_print (x : string) : keeps R (print x).
Proof. intros w. apply R_stdout. Qed.

Lemma keepsS_for_each {A} (l : list A) (body : A → M State unit) :
  (∀ a, keepsS R (body a)) → keepsS R (for_each l body).
Proof.
  intros Hb. induction l as [|a l IH]; simpl.
  - apply (keepsS_ret R).
  - apply (keepsS_bind R); [apply Hb|]. intros _. apply IH.
Qed.

Lemma keepsS_add_documents (documents : list string) (titles : option (list string)) :
  keepsS R (add_documents documents titles).
Proof.
  unfold add_documents.
  apply (keepsS_try R); [|repeat keeps_step].
  apply (keepsS_bind R); [|repeat keeps_step].
  apply keepsS_for_each. intros doc.
  apply (keepsS_bind R); [apply (keepsS_attr R)|]. intros idx.
  apply (keepsS_lift R), keeps_index_insert.
Qed.

Lemma keepsS_add_text_file (file_path : string) : keepsS R (add_text_file file_path).
Proof.
  unfold add_text_file.
  repeat first [ apply (keeps_open_read R) | apply keeps_index_insert | keeps_step ].
Qed.

Lemma keepsS_clear_knowledge_base : keepsS R clear_knowledge_base.
Proof.
  unfold clear_knowledge_base.
  repeat first [ apply keeps_schema_delete_class | apply (keepsS_setup_index R)
               | keeps_step ].
Qed.

Lemma keepsS_main_loop (stdin : list string) : keepsS R (main_loop stdin).
Proof.
  induction stdin as [|line stdin IH]; cbn [main_loop].
  - apply (keepsS_bind R); [|intros _; apply (keepsS_raise R)].
    apply (keepsS_lift R). intros w. apply R_stdout.
  - apply (keepsS_bind R); [apply (keepsS_lift R); intros w; apply R_stdout|].
    intros _.
    repeat first
      [ apply IH | apply keepsS_clear_knowledge_base | apply keepsS_add_text_file
      | apply (keepsS_chat R) | apply keeps_print | keeps_step ].
Qed.

Lemma keeps_main (stdin : list string) : keeps R (main stdin).
Proof.
  unfold main.
  repeat first [ apply keeps_constructor | apply keepsS_main_loop
               | apply keeps_print | keeps_step ].
Qed.
End KeepsAll.

Global Instance trace_grows_all : WorldRelAll trace_grows.
Proof.
  split; [apply _| |]; intros; exists []; by rewrite app_nil_r.
Qed.

(** X3. When the model providers answer but the vector database reports that
    it is not ready, the constructor raises ConnectionError (Could not
    connect to Weaviate) after one client creation and one readiness
    probe, and logs the failure once.  The global Settings (completion
    model, embedding model, tokenizer) have been assigned by then and
    stay assigned: the failed construction is not undone. *)
Theorem constructor_not_ready_keeps_settings (url name model : string)
    (base : option string) (local : bool) (emb : string) (w : World) :
  truthy (environ w !! "OPENAI_API_KEY") = true →
  providers_up w →
  (∀ h, fault w h (CallWeaviateClient url) = None) →
  (∀ h, fault w h (CallIsReady url) = None) →
  weaviate_ready w url = false →
  ∃ kwargs w',
    WeaviateChatbot_new url name model base local emb w
    = (Raise {| exc_class := ConnectionError;
                exc_msg := "Could not connect to Weaviate" |}, w')
    ∧ settings w'
      = {| llm := Some kwargs;
           embed_model := Some {| hf_model_name := emb; hf_trust_remote_code := false;
                                  hf_device := "cpu" |};
           tokenizer := Some emb |}
    ∧ trace w'
      = trace w ++ [CallOpenAI kwargs;
                    CallHuggingFaceEmbedding
                      {| hf_model_name := emb; hf_trust_remote_code := false;
                         hf_device := "cpu" |};
                    CallAutoTokenizer emb;
                    CallWeaviateClient url; CallIsReady url]
    ∧ log w'
      = log w ++ [(ERROR, "Failed to setup Weaviate: Could not connect to Weaviate")].
Proof.
  intros Hkey Hup Hcl Hrd Hready.
  destruct (constructor_prefix url name model base local emb w Hkey Hup)
    as (kwargs & w3 & Hrun & Hset & _ & _ & _ & Htr & _ & Hlog & Hf & Hr).
  set (c0 := blank_bot url name model (effective_base_url base w) local emb) in *.
  destruct (setup_weaviate_not_ready_run c0 w3) as (s' & Hsw & _ & _ & Htr' & Hlog' & _).
  { rewrite Hf. apply Hcl. }
  { rewrite Hf. apply Hrd. }
  { by rewrite Hr. }
  exists kwargs, (world s'). split.
  { rewrite Hrun. unfold bind. by rewrite Hsw. }
  destruct (setup_weaviate_inv c0 w3) as (_ & Hset' & _).
  rewrite Hsw in Hset'. cbn in Hset'.
  split; [by rewrite Hset'|].
  split; [|by rewrite Hlog', Hlog].
  cbn in Htr'. rewrite Htr', Htr, <- app_assoc. reflexivity.
Qed.

Lemma constructor_not_ready_keeps_settings_witness :
  ∃ kwargs w',
    WeaviateChatbot_new "http://localhost:8080" "ChatbotKnowledge" "gpt-4o-mini" None
      true "BAAI/bge-small-en-v1.5" not_ready_world
    = (Raise {| exc_class := ConnectionError;
                exc_msg := "Could not connect to Weaviate" |}, w')
    ∧ settings w'
      = {| llm := Some kwargs;
           embed_model := Some {| hf_model_name := "BAAI/bge-small-en-v1.5";
                                  hf_trust_remote_code := false; hf_device := "cpu" |};
           tokenizer := Some "BAAI/bge-small-en-v1.5" |}
    ∧ trace w'
      = trace not_ready_world
        ++ [CallOpenAI kwargs;
            CallHuggingFaceEmbedding
              {| hf_model_name := "BAAI/bge-small-en-v1.5";
                 hf_trust_remote_code := false; hf_device := "cpu" |};
            CallAutoTokenizer "BAAI/bge-small-en-v1.5";
            CallWeaviateClient "http://localhost:8080";
            CallIsReady "http://localhost:8080"]
    ∧ log w'
      = log not_ready_world
        ++ [(ERROR, "Failed to setup Weaviate: Could not connect to Weaviate")].
Proof.
  apply (constructor_not_ready_keeps_settings "http://localhost:8080" "ChatbotKnowledge"
           "gpt-4o-mini" None true "BAAI/bge-small-en-v1.5" not_ready_world).
  - vm_compute. reflexivity.
  - intros h c _. reflexivity.
  - intros h. reflexivity.
  - intros h. reflexivity.
  - reflexivity.
Defined.

Lemma trace_after_call {A B} (c : Call) (x : A) (k : A → M World B) (w : World) :
  (∀ a, keeps trace_grows (k a)) →
  ∃ l, trace (snd (bind (bind (call c) (fun _ => ret x)) k w)) = trace w ++ c :: l.
Proof.
  intros Hk. unfold bind, call, ret.
  destruct (fault w (trace w) c); cbn.
  - by exists [].
  - destruct (Hk x (record_call c w)) as [l Hl]. exists l.
    rewrite Hl. cbn. by rewrite <- app_assoc.
Qed.

(** X2. With a non-empty OPENAI_API_KEY, the first call the constructor makes
    is the creation of the completion model, whatever happens afterwards.
    Its keyword arguments carry the model name and the temperature 0.1,
    and an [api_base] exactly when the base URL (the argument, or else
    the environment's BASE_URL) is non-empty. *)
Theorem constructor_first_call_is_openai (url name model : string)
    (base : option string) (local : bool) (emb : string) (w : World) :
  truthy (environ w !! "OPENAI_API_KEY") = true →
  ∃ kwargs l,
    trace (snd (WeaviateChatbot_new url name model base local emb w))
    = trace w ++ CallOpenAI kwargs :: l
    ∧ kwargs !! "model" = Some (KwStr model)
    ∧ kwargs !! "temperature" = Some (KwFloat (1 # 10))
    ∧ kwargs !! "api_base"
      = (if truthy (if truthy base then base else environ w !! "BASE_URL")
         then KwStr <$> (if truthy base then base else environ w !! "BASE_URL")
         else None).
Proof.
  intros Hkey.
  unfold WeaviateChatbot_new, OpenAI_new, os_getenv.
  set (base_url := if truthy base then base else environ w !! "BASE_URL").
  assert (Hb : (if truthy base then ret base
                else (fun w0 : World => (Return (environ w0 !! "BASE_URL"), w0))) w
               = (Return base_url, w)).
  { subst base_url. unfold ret. by destruct (truthy base). }
  unfold bind at 1. rewrite Hb.
  unfold bind at 1. rewrite Hkey. cbn [negb].
  set (kw0 := <["temperature":=KwFloat (1 # 10)]> {["model" := KwStr model]}).
  set (kw := match base_url with
             | Some u => if truthy base_url then <["api_base":=KwStr u]> kw0 else kw0
             | None => kw0
             end).
  exists kw.
  match goal with
  | |- context [bind (bind (call ?c) ?r) ?k w] =>
      destruct (trace_after_call c kw k w) as [l Hl]
  end.
  { intros a. unfold HuggingFaceEmbedding_new, AutoTokenizer_from_pretrained.
    repeat first [ apply (keepsS_setup_weaviate trace_grows)
                 | apply (keepsS_setup_index trace_grows) | keeps_step ]. }
  exists l. split; [exact Hl|].
  subst kw kw0. destruct base_url as [u|]; [destruct (truthy (Some u)) eqn:Ht|];
    cbn; rewrite ?Ht; repeat split; by simplify_map_eq.
Qed.

Lemma constructor_first_call_is_openai_witness :
  ∃ kwargs l,
    trace (snd (WeaviateChatbot_new "http://localhost:8080" "ChatbotKnowledge"
                  "gpt-4o-mini" (Some "http://localhost:8000/v1") true
                  "BAAI/bge-small-en-v1.5" (demo_world demo_env [] no_fault)))
    = trace (demo_world demo_env [] no_fault) ++ CallOpenAI kwargs :: l
    ∧ kwargs !! "model" = Some (KwStr "gpt-4o-mini")
    ∧ kwargs !! "temperature" = Some (KwFloat (1 # 10))
    ∧ kwargs !! "api_base"
      = (if truthy (if truthy (Some "http://localhost:8000/v1")
                    then Some "http://localhost:8000/v1"
                    else environ (demo_world demo_env [] no_fault) !! "BASE_URL")
         then KwStr <$> (if truthy (Some "http://localhost:8000/v1")
                         then Some "http://localhost:8000/v1"
                         else environ (demo_world demo_env [] no_fault) !! "BASE_URL")
         else None).
Proof.
  apply (constructor_first_call_is_openai "http://localhost:8080" "ChatbotKnowledge"
           "gpt-4o-mini" (Some "http://localhost:8000/v1") true
           "BAAI/bge-small-en-v1.5" (demo_world demo_env [] no_fault)).
  vm_compute. reflexivity.
Defined.

Lemma setup_weaviate_ok_run (c : WeaviateChatbot) (w : World) :
  (∀ h, fault w h (CallWeaviateClient (weaviate_url c)) = None) →
  (∀ h, fault w h (CallIsReady (weaviate_url c)) = None) →
  (∀ h, fault w h (CallWeaviateVectorStore (index_name c)) = None) →
  weaviate_ready w (weaviate_url c) = true →
  ∃ w',
    _setup_weaviate {| self := c; world := w |}
    = (Return tt, {| self := connected c; world := w' |})
    ∧ fault w' = fault w
    ∧ classes w' = ensure_class (index_name c) (classes w)
    ∧ settings w' = settings w
    ∧ log w'
      = log w ++ [(INFO, "Successfully connected to Weaviate at " +:+ weaviate_url c)]
    ∧ trace w'
      = trace w ++ [CallWeaviateClient (weaviate_url c); CallIsReady (weaviate_url c);
                    CallWeaviateVectorStore (index_name c)].
Proof.
  intros Hcl Hrd Hvs Hready. destruct c; cbn in Hcl, Hrd, Hvs, Hready.
  unfold_setup. cbn. rewrite Hcl. cbn. rewrite Hrd. cbn. rewrite Hready. cbn.
  rewrite Hvs. cbn.
  eexists. split; [reflexivity|]. cbn. rewrite <- !app_assoc. by repeat split.
Qed.

Lemma setup_index_returns (c : WeaviateChatbot) (w : World) (vs : WeaviateVectorStore) :
  vector_store c = Some vs →
  index_calls_succeed w (vs_index_name vs) →
  ∃ w',
    _setup_index {| self := c; world := w |}
    = (Return tt, {| self := reindexed c vs; world := w' |})
    ∧ fault w' = fault w ∧ classes w' = classes w ∧ settings w' = settings w.
Proof.
  intros Hvs Hok. destruct c; cbn in Hvs; subst. unfold_setup. unfold index_name_of. cbn.
  rewrite (proj1 (Hok _)). cbn.
  destruct (fault w _ (CallFromVectorStore _)); cbn.
  - rewrite (proj1 (proj2 (Hok _))). cbn. rewrite (proj2 (proj2 (Hok _))). cbn.
    eexists. split; [reflexivity|]. by repeat split.
  - rewrite (proj2 (proj2 (Hok _))). cbn.
    eexists. split; [reflexivity|]. by repeat split.
Qed.

(** X1. With a non-empty OPENAI_API_KEY, model providers that answer, and a
    vector database that is ready and does not fail the calls made to it,
    the constructor returns an instance that is fully set up (client,
    vector store on the given index name, index and query engine).  Its
    attributes are the arguments, with [openai_base_url] falling back on
    the environment's BASE_URL when the argument is missing or empty;
    Settings hold the HuggingFace embedding model on the cpu and the
    tokenizer of the same name.  The stored classes are as before, with
    the class of the index name made, holding no Document, when it was
    absent. *)
Theorem constructor_succeeds (url name model : string) (base : option string)
    (local : bool) (emb : string) (w : World) :
  truthy (environ w !! "OPENAI_API_KEY") = true →
  services_up w url name →
  ∃ c w',
    WeaviateChatbot_new url name model base local emb w = (Return c, w')
    ∧ constructed c
    ∧ weaviate_url c = url ∧ index_name c = name ∧ model_name c = model
    ∧ use_local_embeddings c = local ∧ embedding_model_name c = emb
    ∧ openai_base_url c = (if truthy base then base else environ w !! "BASE_URL")
    ∧ embed_model (settings w')
      = Some {| hf_model_name := emb; hf_trust_remote_code := false;
                hf_device := "cpu" |}
    ∧ tokenizer (settings w') = Some emb
    ∧ classes w' = ensure_class name (classes w).
Proof.
  intros Hkey (Hup & Hcl & Hrd & Hvs & Hready & Hidx).
  destruct (constructor_prefix url name model base local emb w Hkey Hup)
    as (kwargs & w3 & Hrun & Hset & _ & _ & _ & _ & Hcls & _ & Hf & Hr).
  set (c0 := blank_bot url name model (effective_base_url base w) local emb) in *.
  destruct (setup_weaviate_ok_run c0 w3) as (w4 & Hsw & Hf4 & Hcls4 & Hset4 & _);
    try (rewrite Hf; done); [by rewrite Hr|].
  destruct (setup_index_returns (connected c0) w4 _ eq_refl)
    as (w5 & Hsi & _ & Hcls5 & Hset5).
  { unfold index_calls_succeed. rewrite Hf4, Hf. exact Hidx. }
  eexists _, w5. split.
  { rewrite Hrun. unfold bind. rewrite Hsw, Hsi. reflexivity. }
  split; [by eapply constructed_reindexed|].
  repeat (split; [reflexivity|]).
  rewrite Hset5, Hset4, Hset, Hcls5, Hcls4, Hcls. by repeat split.
Qed.

Lemma constructor_succeeds_witness :
  ∃ c w',
    WeaviateChatbot_new "http://localhost:8080" "ChatbotKnowledge" "gpt-4o-mini" None
      true "BAAI/bge-small-en-v1.5" (demo_world demo_env demo_docs no_fault)
    = (Return c, w')
    ∧ constructed c
    ∧ weaviate_url c = "http://localhost:8080" ∧ index_name c = "ChatbotKnowledge"
    ∧ model_name c = "gpt-4o-mini"
    ∧ use_local_embeddings c = true
    ∧ embedding_model_name c = "BAAI/bge-small-en-v1.5"
    ∧ openai_base_url c
      = (if truthy None then None
         else environ (demo_world demo_env demo_docs no_fault) !! "BASE_URL")
    ∧ embed_model (settings w')
      = Some {| hf_model_name := "BAAI/bge-small-en-v1.5";
                hf_trust_remote_code := false; hf_device := "cpu" |}
    ∧ tokenizer (settings w') = Some "BAAI/bge-small-en-v1.5"
    ∧ classes w'
      = ensure_class "ChatbotKnowledge"
          (classes (demo_world demo_env demo_docs no_fault)).
Proof.
  apply (constructor_succeeds "http://localhost:8080" "ChatbotKnowledge" "gpt-4o-mini"
           None true "BAAI/bge-small-en-v1.5" (demo_world demo_env demo_docs no_fault)).
  - vm_compute. reflexivity.
  - repeat split; reflexivity.
Defined.

Lemma setup_weaviate_flag (b : bool) (c : WeaviateChatbot) (w : World) :
  _setup_weaviate {| self := with_use_local b c; world := w |}
  = (fst (_setup_weaviate {| self := c; world := w |}),
     {| self := with_use_local b (self (snd (_setup_weaviate {| self := c; world := w |})));
        world := world (snd (_setup_weaviate {| self := c; world := w |})) |}).
Proof. destruct c. unfold_setup. case_faults; reflexivity. Qed.

Lemma setup_index_flag (b : bool) (c : WeaviateChatbot) (w : World) :
  _setup_index {| self := with_use_local b c; world := w |}
  = (fst (_setup_index {| self := c; world := w |}),
     {| self := with_use_local b (self (snd (_setup_index {| self := c; world := w |})));
        world := world (snd (_setup_index {| self := c; world := w |})) |}).
Proof.
  destruct c as [? ? ? ? ? ? ? [vs|] ? ?]; unfold_setup; case_faults; reflexivity.
Qed.

Lemma bind_map_outcome {A B C} (f : B → C) (m : M World A)
    (k1 : A → M World B) (k2 : A → M World C) (w : World) :
  (∀ a w1, k2 a w1 = (map_outcome f (fst (k1 a w1)), snd (k1 a w1))) →
  bind m k2 w = (map_outcome f (fst (bind m k1 w)), snd (bind m k1 w)).
Proof.
  intros Hk. unfold bind. destruct (m w) as [[a|e] w1]; [apply Hk|reflexivity].
Qed.

(** X5. The parameter [use_local_embeddings] only ends up in the attribute of
    the same name: for both of its values the constructor makes the same
    calls, leaves the same world, raises the same exception or returns
    the same instance up to that attribute.  The local HuggingFace
    embedding model is used in either case. *)
Theorem use_local_embeddings_is_ignored (url name model : string)
    (base : option string) (b1 b2 : bool) (emb : string) (w : World) :
  WeaviateChatbot_new url name model base b2 emb w
  = (map_outcome (with_use_local b2)
       (fst (WeaviateChatbot_new url name model base b1 emb w)),
     snd (WeaviateChatbot_new url name model base b1 emb w)).
Proof.
  unfold WeaviateChatbot_new.
  apply bind_map_outcome. intros base_url w1.
  apply bind_map_outcome. intros key w2.
  destruct (negb (truthy key)); [reflexivity|].
  apply bind_map_outcome. intros v1 w3.
  apply bind_map_outcome. intros [] w4.
  apply bind_map_outcome. intros v2 w5.
  apply bind_map_outcome. intros [] w6.
  apply bind_map_outcome. intros v3 w7.
  apply bind_map_outcome. intros [] w8.
  match goal with
  | |- context [(_ ;; _) {| self := ?c; world := _ |}] =>
      change c with (with_use_local b2
        {| weaviate_url := url; index_name := name; model_name := model;
           use_local_embeddings := b1; embedding_model_name := emb;
           openai_base_url := base_url; weaviate_client := None;
           vector_store := None; index := None; query_engine := None |})
  end.
  unfold bind. rewrite setup_weaviate_flag.
  destruct (_setup_weaviate _) as [[[]|e] s1]; cbn [fst snd self world]; [|reflexivity].
  destruct s1 as [c1 w9]. cbn [self world]. rewrite setup_index_flag.
  by destruct (_setup_index _) as [[[]|e] s2].
Qed.

Global Instance others_kept_rel (name : string) : WorldRel (others_kept name).
Proof.
  split; try by intros.
  intros w1 w2 w3 H1 H2 other Hne. by rewrite H2, H1.
Qed.

Lemma others_kept_index_insert (idx : VectorStoreIndex) (d : Document) (w : World) :
  others_kept (index_name_of idx) w (snd (index_insert idx d w)).
Proof.
  unfold index_insert, bind, call, modify.
  destruct (fault w (trace w) _); intros other Hne; cbn; [done|].
  by rewrite lookup_insert_ne.
Qed.

Lemma for_each_insert_others (c : WeaviateChatbot) (idx : VectorStoreIndex)
    (docs : list Document) (w : World) :
  index c = Some idx →
  others_kept (index_name_of idx) w
    (world (snd (for_each docs
                   (fun doc => idx <- attr "index" index;; lift (index_insert idx doc))
                   {| self := c; world := w |}))).
Proof.
  intros Hidx. revert w. induction docs as [|d ds IH]; intros w; simpl; [by intros|].
  unfold bind at 1. unfold bind at 1, attr at 1, lift at 1. cbn [self world].
  rewrite Hidx. cbn [self world].
  assert (H := others_kept_index_insert idx d w).
  destruct (index_insert idx d w) as [[[]|e] w1]; cbn [snd] in H; cbn [self world snd];
    [|exact H].
  eapply (R_trans (R := others_kept _)); [exact H|apply IH].
Qed.

(** X12. On a constructed instance no method changes a class other than the
    instance's own collection, whether it returns or raises. *)
Theorem methods_touch_own_collection_only (s : State) (other : string) :
  constructed (self s) →
  other ≠ index_name (self s) →
  (∀ documents titles,
     classes (world (snd (add_documents documents titles s))) !! other
     = classes (world s) !! other)
  ∧ (∀ file_path,
       classes (world (snd (add_text_file file_path s))) !! other
       = classes (world s) !! other)
  ∧ (∀ message,
       classes (world (snd (chat message s))) !! other = classes (world s) !! other)
  ∧ classes (world (snd (clear_knowledge_base s))) !! other = classes (world s) !! other
  ∧ classes (world (snd (get_schema_info s))) !! other = classes (world s) !! other.
Proof.
  intros (cl & vs & Hcl & Hvs & Hname & Hidx & Hqe) Hne.
  destruct s as [c w]; cbn [self world] in *.
  assert (Hiname : index_name_of (fresh_index vs) = index_name c) by done.
  split; [|split; [|split; [|split]]].
  - intros documents titles.
    unfold add_documents, try_except. rewrite build_docs; simpl.
    unfold bind at 1.
    assert (H := for_each_insert_others c _ (Document_new <$> documents) w Hidx).
    rewrite Hiname in H.
    destruct (for_each _ _ _) as [[[]|e] s1]; cbn in *; by apply H.
  - intros file_path.
    unfold add_text_file, open_read, logger_error, logger_info, try_except.
    unfold bind at 1, lift at 1. cbn [self world].
    destruct (files w !! file_path) as [[content| |msg]|]; try done.
    unfold bind at 1, attr at 1. cbn [self world]. rewrite Hidx.
    unfold bind at 1, lift at 1. cbn [self world].
    assert (H := others_kept_index_insert (fresh_index vs) (Document_new content) w).
    rewrite Hiname in H.
    destruct (index_insert _ _ w) as [[[]|e] w1]; cbn in *; by apply H.
  - intros message. by apply (keepsS_chat (others_kept (index_name c))).
  - unfold clear_knowledge_base, try_except.
    unfold bind at 1, attr at 1. cbn [self world]. rewrite Hcl.
    unfold bind at 1, self_index_name at 1.
    unfold bind at 1, lift at 1, schema_delete_class, bind at 1, call, modify.
    cbn [self world].
    destruct (fault w (trace w) _); cbn [self world]; [done|].
    unfold bind at 1, lift at 1, logger_info, modify. cbn [self world].
    match goal with |- context [_setup_index ?s0] =>
      assert (H := keepsS_setup_index (others_kept (index_name c)) s0);
      destruct (_setup_index s0) as [[[]|e] s1]
    end; cbn in H |- *; rewrite (H other Hne); cbn; by rewrite lookup_delete_ne.
  - by apply (keepsS_get_schema_info (others_kept (index_name c))).
Qed.

Lemma methods_touch_own_collection_only_witness :
  (∀ documents titles,
     classes (world (snd (add_documents documents titles
                            (demo_state demo_docs no_fault)))) !! "Archive"
     = classes (world (demo_state demo_docs no_fault)) !! "Archive")
  ∧ (∀ file_path,
       classes (world (snd (add_text_file file_path
                              (demo_state demo_docs no_fault)))) !! "Archive"
       = classes (world (demo_state demo_docs no_fault)) !! "Archive")
  ∧ (∀ message,
       classes (world (snd (chat message (demo_state demo_docs no_fault)))) !! "Archive"
       = classes (world (demo_state demo_docs no_fault)) !! "Archive")
  ∧ classes (world (snd (clear_knowledge_base (demo_state demo_docs no_fault))))
      !! "Archive"
    = classes (world (demo_state demo_docs no_fault)) !! "Archive"
  ∧ classes (world (snd (get_schema_info (demo_state demo_docs no_fault)))) !! "Archive"
    = classes (world (demo_state demo_docs no_fault)) !! "Archive".
Proof.
  apply (methods_touch_own_collection_only (demo_state demo_docs no_fault) "Archive").
  - exists demo_client, demo_store. repeat split; reflexivity.
  - simpl. discriminate.
Defined.

(** X8. When no insertion fails, [add_documents] returns None, appends the
    Documents of the batch to the collection in the order of the texts
    (after what the collection held), makes one insert call per text in
    that order and no other call, and logs the number of texts once. *)
Theorem add_documents_stores_batch (s : State) (idx : VectorStoreIndex)
    (documents : list string) (titles : option (list string)) :
  index (self s) = Some idx →
  (∀ j, j < length documents →
        insert_fault (world s) (index_name_of idx) (Document_new <$> documents) j = None) →
  ∃ w',
    add_documents documents titles s = (Return tt, {| self := self s; world := w' |})
    ∧ collection w' (index_name_of idx)
      = collection (world s) (index_name_of idx) ++ (Document_new <$> documents)
    ∧ trace w'
      = trace (world s) ++ (CallInsert (index_name_of idx) <$> (Document_new <$> documents))
    ∧ log w'
      = log (world s)
        ++ [(INFO, "Added " +:+ pretty (length documents)
                   +:+ " documents to the knowledge base")].
Proof.
  intros Hidx Hok. rewrite (add_documents_success s idx documents titles Hidx Hok).
  eexists. split; [reflexivity|].
  rewrite collection_add_log, collection_insert_all, trace_add_log, trace_insert_all,
    log_add_log, log_insert_all.
  by repeat split.
Qed.

Lemma add_documents_stores_batch_witness :
  ∃ w',
    add_documents demo_batch None (demo_state demo_docs no_fault)
    = (Return tt, {| self := demo_bot; world := w' |})
    ∧ collection w' "ChatbotKnowledge"
      = collection (demo_world demo_env demo_docs no_fault) "ChatbotKnowledge"
        ++ (Document_new <$> demo_batch)
    ∧ trace w'
      = [] ++ (CallInsert "ChatbotKnowledge" <$> (Document_new <$> demo_batch))
    ∧ log w'
      = [] ++ [(INFO, "Added " +:+ pretty (length demo_batch)
                      +:+ " documents to the knowledge base")].
Proof.
  apply (add_documents_stores_batch (demo_state demo_docs no_fault) demo_index
           demo_batch None).
  - reflexivity.
  - intros j _. unfold insert_fault. simpl. by destruct (_ !! j).
Defined.

(** ** The console loop *)

Lemma bind_ext {S A B} (m : M S A) (k1 k2 : A → M S B) (s : S) :
  (∀ a s', k1 a s' = k2 a s') → bind m k1 s = bind m k2 s.
Proof. intros H. unfold bind. destruct (m s) as [[a|e] s1]; [apply H|done]. Qed.

(** A line that is neither [quit] nor [clear] never ends the loop: whatever
    it is (a file to add, a message, a blank line) and whatever fails, the
    loop goes on to the lines that follow. *)
Lemma main_loop_step (line : string) (s : State) :
  is_quit_line line = false → is_clear_line line = false →
  ∃ s', ∀ stdin, main_loop (line :: stdin) s = main_loop stdin s'.
Proof.
  unfold is_clear_line, is_quit_line. intros Hq Hc. rewrite Hq in Hc. cbn in Hc.
  set (s0 := {| self := self s;
                world := write_stdout (newline +:+ "You: ") (world s) |}).
  destruct (String.prefix "add_file " (lower (strip line))) eqn:Hadd.
  - destruct (try_except
                (add_text_file (strip (slice_from 9 (strip line)));;
                 lift (print ("Added file: " +:+ strip (slice_from 9 (strip line)))))
                (fun e => lift (print ("Error adding file: " +:+ str_exc e))) s0)
      as [[[]|e] s1] eqn:Htry.
    + exists s1. intros stdin. cbn [main_loop].
      unfold bind at 1, lift at 1, modify at 1. fold s0.
      rewrite Hq, Hc, Hadd. unfold bind at 1. by rewrite Htry.
    + exfalso. unfold try_except in Htry.
      destruct ((_ ;; _) s0) as [[[]|e'] s2]; [discriminate|].
      unfold lift, print, modify in Htry. discriminate.
  - destruct (String.eqb (strip line) "") eqn:Hblank.
    + exists s0. intros stdin. cbn [main_loop].
      unfold bind at 1, lift at 1, modify at 1. fold s0.
      by rewrite Hq, Hc, Hadd, Hblank.
    + destruct (chat_total (strip line) s0) as (answer & s1 & Hchat).
      exists {| self := self s1;
                world := write_stdout ((newline +:+ " Bot: " +:+ answer) +:+ newline)
                           (world s1) |}.
      intros stdin. cbn [main_loop].
      unfold bind at 1, lift at 1, modify at 1. fold s0.
      rewrite Hq, Hc, Hadd, Hblank. cbn [negb].
      unfold bind at 1. rewrite Hchat. unfold bind at 1, lift, print, modify.
      reflexivity.
Qed.

Lemma main_loop_eof (stdin : list string) (s : State) :
  Forall (fun line => is_quit_line line = false ∧ is_clear_line line = false) stdin →
  ∃ s', main_loop stdin s = (Raise eof_error, s').
Proof.
  intros H. revert s. induction H as [|line stdin [Hq Hc] _ IH]; intros s.
  - eexists. reflexivity.
  - destruct (main_loop_step line s Hq Hc) as [s' Hstep]. rewrite Hstep. apply IH.
Qed.

Lemma main_loop_cons_ext (line : string) (l1 l2 : list string) (s : State) :
  (∀ s', main_loop l1 s' = main_loop l2 s') →
  main_loop (line :: l1) s = main_loop (line :: l2) s.
Proof.
  intros H. cbn [main_loop]. apply bind_ext. intros _ s1.
  destruct (String.eqb (lower (strip line)) "quit"); [done|].
  destruct (String.eqb (lower (strip line)) "clear").
  { apply bind_ext. intros _ s2. apply bind_ext. intros _ s3. apply H. }
  destruct (String.prefix "add_file " (lower (strip line))).
  { apply bind_ext. intros _ s2. apply H. }
  destruct (negb (String.eqb (strip line) "")); [|apply H].
  apply bind_ext. intros r s2. apply bind_ext. intros _ s3. apply H.
Qed.

Lemma main_loop_quit (line : string) (stdin : list string) (s : State) :
  is_quit_line line = true →
  main_loop (line :: stdin) s
  = (Return tt, {| self := self s;
                   world := write_stdout (newline +:+ "You: ") (world s) |}).
Proof.
  unfold is_quit_line. intros Hq. cbn [main_loop].
  unfold bind at 1, lift at 1, modify at 1. by rewrite Hq.
Qed.

(** What [main] does once the constructor has returned or raised. *)
Lemma main_run (stdin : list string) (w : World) :
  main stdin w
  = match WeaviateChatbot_new "http://localhost:8080" "ChatbotKnowledge" "gpt-4o-mini"
            (environ w !! "BASE_URL") true "BAAI/bge-small-en-v1.5" w with
    | (Return c, w1) =>
        match main_loop stdin
                {| self := c;
                   world := write_stdout (String.concat "" (replicate 50 "-") +:+ newline)
                              w1 |} with
        | (Return _, s) =>
            (Return tt, write_stdout ((newline +:+ "Goodbye!") +:+ newline) (world s))
        | (Raise e, s) =>
            (Return tt,
             write_stdout (("Error initializing chatbot: " +:+ str_exc e) +:+ newline)
               (world s))
        end
    | (Raise e, w1) =>
        (Return tt,
         write_stdout (("Error initializing chatbot: " +:+ str_exc e) +:+ newline) w1)
    end.
Proof.
  unfold main, try_except. unfold bind at 1, os_getenv at 1. unfold bind at 1.
  destruct (WeaviateChatbot_new _ _ _ _ _ _ w) as [[c|e] w1]; [|reflexivity].
  unfold bind at 1, print at 1, modify at 1.
  unfold bind at 1, with_self.
  by destruct (main_loop stdin _) as [[[]|e] s1].
Qed.

(** X13. [main] never raises (an Exception): for every input and every world
    it returns, and the last line it printed is either Goodbye! or
    Error initializing chatbot: followed by the text of an exception. *)
Theorem main_never_raises (stdin : list string) (w : World) :
  ∃ w' out last,
    main stdin w = (Return tt, w')
    ∧ stdout w' = out ++ [last +:+ newline]
    ∧ (last = newline +:+ "Goodbye!"
       ∨ ∃ e, last = "Error initializing chatbot: " +:+ str_exc e).
Proof.
  rewrite main_run.
  destruct (WeaviateChatbot_new _ _ _ _ _ _ w) as [[c|e] w1].
  - destruct (main_loop stdin _) as [[[]|e] s1]; eexists _, _, _;
      (split; [reflexivity|]); (split; [reflexivity|]); eauto.
  - eexists _, _, _. split; [reflexivity|]. split; [reflexivity|]. eauto.
Qed.

(** X14. When the chatbot was constructed and standard input ends without a
    quit line (and no clear line), [main] ends by printing Error
    initializing chatbot: EOF when reading a line: the handler around the
    whole function reports the end of input as an initialization error. *)
Theorem main_reports_end_of_input_as_init_error (stdin : list string) (w w1 : World)
    (c : WeaviateChatbot) :
  WeaviateChatbot_new "http://localhost:8080" "ChatbotKnowledge" "gpt-4o-mini"
    (environ w !! "BASE_URL") true "BAAI/bge-small-en-v1.5" w = (Return c, w1) →
  Forall (fun line => is_quit_line line = false ∧ is_clear_line line = false) stdin →
  ∃ w' out,
    main stdin w = (Return tt, w')
    ∧ stdout w'
      = out ++ [("Error initializing chatbot: " +:+ "EOF when reading a line")
                +:+ newline].
Proof.
  intros Hnew Hlines. rewrite main_run, Hnew.
  destruct (main_loop_eof stdin
              {| self := c;
                 world := write_stdout (String.concat "" (replicate 50 "-") +:+ newline)
                            w1 |} Hlines) as [s' ->].
  eexists _, _. split; reflexivity.
Qed.

Lemma main_reports_end_of_input_as_init_error_witness :
  ∃ w' out,
    main ["What is the capital of France?"] (demo_world demo_env demo_docs no_fault)
    = (Return tt, w')
    ∧ stdout w'
      = out ++ [("Error initializing chatbot: " +:+ "EOF when reading a line")
                +:+ newline].
Proof.
  apply (main_reports_end_of_input_as_init_error ["What is the capital of France?"]
           (demo_world demo_env demo_docs no_fault)
           (snd (demo_new (demo_world demo_env demo_docs no_fault))) demo_bot).
  - vm_compute. reflexivity.
  - repeat constructor.
Defined.

(** X15. The console loop stops at the first quit line (in any letter case,
    surrounded by any white space): the lines after it are never read. *)
Theorem main_loop_ignores_input_after_quit (pre rest : list string) (line : string)
    (s : State) :
  is_quit_line line = true →
  main_loop (pre ++ line :: rest) s = main_loop (pre ++ [line]) s.
Proof.
  intros Hq. revert s. induction pre as [|l pre IH]; intros s.
  - cbn [app]. by rewrite !main_loop_quit.
  - cbn [app]. apply main_loop_cons_ext. apply IH.
Qed.

Lemma main_loop_ignores_input_after_quit_witness :
  main_loop (["hello"] ++ " Quit " :: ["clear"; "add_file notes.txt"])
    (demo_state demo_docs no_fault)
  = main_loop (["hello"] ++ [" Quit "]) (demo_state demo_docs no_fault).
Proof.
  apply (main_loop_ignores_input_after_quit ["hello"] ["clear"; "add_file notes.txt"]
           " Quit " (demo_state demo_docs no_fault)).
  reflexivity.
Defined.

(** X16. A failure of the clear command ends the session: when the deletion
    of the class fails, [main] prints neither Knowledge base cleared! nor
    Goodbye!, reads no further line, and reports the exception as Error
    initializing chatbot; the stored classes are as the constructor left
    them. *)
Theorem main_clear_failure_ends_session (line : string) (stdin : list string)
    (w w1 : World) (c : WeaviateChatbot) (e : Exc) :
  WeaviateChatbot_new "http://localhost:8080" "ChatbotKnowledge" "gpt-4o-mini"
    (environ w !! "BASE_URL") true "BAAI/bge-small-en-v1.5" w = (Return c, w1) →
  is_clear_line line = true →
  fault w1 (trace w1) (CallDeleteClass "ChatbotKnowledge") = Some e →
  ∃ w',
    main (line :: stdin) w = (Return tt, w')
    ∧ stdout w'
      = stdout w1
        ++ [String.concat "" (replicate 50 "-") +:+ newline;
            newline +:+ "You: ";
            ("Error initializing chatbot: " +:+ str_exc e) +:+ newline]
    ∧ classes w' = classes w1.
Proof.
  intros Hnew Hclear Hf. rewrite main_run, Hnew.
  destruct (constructor_establishes _ _ _ _ _ _ _ _ _ Hnew) as (Hc & Hname & _).
  destruct (constructed_vector_store c Hc) as (cl & vs & Hcl & _).
  unfold is_clear_line in Hclear. apply andb_true_iff in Hclear as [Hq Hcl'].
  apply negb_true_iff in Hq. unfold is_quit_line in Hq.
  set (w2 := write_stdout (String.concat "" (replicate 50 "-") +:+ newline) w1).
  set (w3 := write_stdout (newline +:+ "You: ") w2).
  destruct (clear_delete_failure_run c w3 cl e Hcl) as (w4 & Hrun & Hcls & _ & _ & Hout).
  { rewrite Hname. exact Hf. }
  cbn [main_loop]. unfold bind at 1, lift at 1, modify at 1. cbn [self world].
  fold w3. rewrite Hq, Hcl'. unfold bind at 1. rewrite Hrun.
  eexists. split; [reflexivity|]. split.
  - cbn. rewrite Hout. subst w3 w2. cbn. by rewrite <- !app_assoc.
  - cbn. by rewrite Hcls.
Qed.

Lemma main_clear_failure_ends_session_witness :
  ∃ w',
    main ["clear"; "What is the capital of France?"]
      (demo_world demo_env demo_docs (fail_on is_delete_class demo_timeout))
    = (Return tt, w')
    ∧ stdout w'
      = stdout (snd (demo_new (demo_world demo_env demo_docs
                                 (fail_on is_delete_class demo_timeout))))
        ++ [String.concat "" (replicate 50 "-") +:+ newline;
            newline +:+ "You: ";
            ("Error initializing chatbot: " +:+ str_exc demo_timeout) +:+ newline]
    ∧ classes w'
      = classes (snd (demo_new (demo_world demo_env demo_docs
                                  (fail_on is_delete_class demo_timeout)))).
Proof.
  apply (main_clear_failure_ends_session "clear" ["What is the capital of France?"]
           (demo_world demo_env demo_docs (fail_on is_delete_class demo_timeout))
           (snd (demo_new (demo_world demo_env demo_docs
                             (fail_on is_delete_class demo_timeout))))
           demo_bot demo_timeout).
  - vm_compute. reflexivity.
  - reflexivity.
  - reflexivity.
Defined.

Lemma add_text_file_missing_run (c : WeaviateChatbot) (w : World) (path : string) :
  files w !! path = None →
  add_text_file path {| self := c; world := w |}
  = (Raise {| exc_class := FileNotFoundError;
              exc_msg := "[Errno 2] No such file or directory: '" +:+ path +:+ "'" |},
     {| self := c;
        world := add_log ERROR
                   ("Failed to add file " +:+ path +:+ ": "
                    +:+ "[Errno 2] No such file or directory: '" +:+ path +:+ "'") w |}).
Proof.
  intros Hf. unfold add_text_file, try_except.
  unfold bind at 1, lift at 1, open_read. cbn [self world]. by rewrite Hf.
Qed.

(** X17. The command add_file with a path that does not exist prints Error
    adding file: with the text of the FileNotFoundError, makes no call,
    changes neither the instance nor the stored classes, and the loop
    goes on with the next line. *)
Theorem main_loop_add_file_missing (line : string) (stdin : list string) (s : State) :
  is_quit_line line = false → is_clear_line line = false →
  String.prefix "add_file " (lower (strip line)) = true →
  files (world s) !! strip (slice_from 9 (strip line)) = None →
  ∃ s',
    main_loop (line :: stdin) s = main_loop stdin s'
    ∧ self s' = self s
    ∧ classes (world s') = classes (world s)
    ∧ trace (world s') = trace (world s)
    ∧ stdout (world s')
      = stdout (world s)
        ++ [newline +:+ "You: ";
            ("Error adding file: " +:+ "[Errno 2] No such file or directory: '"
             +:+ strip (slice_from 9 (strip line)) +:+ "'") +:+ newline].
Proof.
  unfold is_clear_line, is_quit_line. intros Hq Hc Hadd Hfile.
  rewrite Hq in Hc. cbn in Hc. destruct s as [c w]; cbn [self world] in *.
  eexists. split.
  - cbn [main_loop]. unfold bind at 1, lift at 1, modify at 1. cbn [self world].
    rewrite Hq, Hc, Hadd. unfold bind at 1, try_except, bind at 1.
    rewrite add_text_file_missing_run by exact Hfile.
    unfold lift, print, modify. cbn [self world]. reflexivity.
  - cbn. rewrite <- app_assoc. by repeat split.
Qed.

Lemma main_loop_add_file_missing_witness :
  ∃ s',
    main_loop ("add_file missing.txt" :: ["quit"]) (demo_state demo_docs no_fault)
    = main_loop ["quit"] s'
    ∧ self s' = self (demo_state demo_docs no_fault)
    ∧ classes (world s') = classes (world (demo_state demo_docs no_fault))
    ∧ trace (world s') = trace (world (demo_state demo_docs no_fault))
    ∧ stdout (world s')
      = stdout (world (demo_state demo_docs no_fault))
        ++ [newline +:+ "You: ";
            ("Error adding file: " +:+ "[Errno 2] No such file or directory: '"
             +:+ strip (slice_from 9 (strip "add_file missing.txt")) +:+ "'")
            +:+ newline].
Proof.
  apply (main_loop_add_file_missing "add_file missing.txt" ["quit"]
           (demo_state demo_docs no_fault)); reflexivity.
Defined.

(** X9. When deleting the class fails, [clear_knowledge_base] logs the
    failure once and raises the same exception; the stored Documents, the
    instance and standard output are unchanged, and the index is not set
    up again (the deletion is the only call made). *)
Theorem clear_delete_failure_keeps_documents (c : WeaviateChatbot) (w : World)
    (cl : WeaviateClient) (e : Exc) :
  weaviate_client c = Some cl →
  fault w (trace w) (CallDeleteClass (index_name c)) = Some e →
  ∃ w',
    clear_knowledge_base {| self := c; world := w |}
    = (Raise e, {| self := c; world := w' |})
    ∧ classes w' = classes w
    ∧ trace w' = trace w ++ [CallDeleteClass (index_name c)]
    ∧ log w' = log w ++ [(ERROR, "Failed to clear knowledge base: " +:+ str_exc e)]
    ∧ stdout w' = stdout w.
Proof. apply clear_delete_failure_run. Qed.

Lemma clear_delete_failure_keeps_documents_witness :
  ∃ w',
    clear_knowledge_base (demo_state demo_docs (fail_on is_delete_class demo_timeout))
    = (Raise demo_timeout, {| self := demo_bot; world := w' |})
    ∧ classes w' = {[ "ChatbotKnowledge" := demo_docs ]}
    ∧ trace w' = [] ++ [CallDeleteClass "ChatbotKnowledge"]
    ∧ log w' = [] ++ [(ERROR, "Failed to clear knowledge base: " +:+ str_exc demo_timeout)]
    ∧ stdout w' = [].
Proof.
  apply (clear_delete_failure_keeps_documents demo_bot
           (demo_world demo_env demo_docs (fail_on is_delete_class demo_timeout))
           demo_client demo_timeout); reflexivity.
Defined.

Lemma only_appends_refl (w : World) : only_appends w w.
Proof. repeat split; exists []; by rewrite app_nil_r. Qed.

Global Instance only_appends_rel : WorldRelAll only_appends.
Proof.
  split; [split|..].
  - apply only_appends_refl.
  - intros w1 w2 w3 (Hf1 & He1 & [t1 Ht1] & [l1 Hl1] & [o1 Ho1])
      (Hf2 & He2 & [t2 Ht2] & [l2 Hl2] & [o2 Ho2]).
    split; [congruence|]. split; [congruence|].
    split; [exists (t1 ++ t2); by rewrite Ht2, Ht1, app_assoc|].
    split; [exists (l1 ++ l2); by rewrite Hl2, Hl1, app_assoc|].
    exists (o1 ++ o2). by rewrite Ho2, Ho1, app_assoc.
  - intros c w. repeat split; [by exists [c]|exists []; by rewrite app_nil_r..].
  - intros lvl msg w. repeat split;
      [exists []; by rewrite app_nil_r|by exists [(lvl, msg)]|exists []; by rewrite app_nil_r].
  - intros g w. repeat split; exists []; by rewrite app_nil_r.
  - intros g w. repeat split; exists []; by rewrite app_nil_r.
  - intros out w. repeat split;
      [exists []; by rewrite app_nil_r..|by exists [out]].
Qed.

(** X18. The whole console program only reads the file system and the
    environment: for every input, [main] leaves both as they were, and
    the call trace, the log and standard output are extended, never
    rewritten. *)
Theorem main_only_appends (stdin : list string) (w : World) :
  files (snd (main stdin w)) = files w
  ∧ environ (snd (main stdin w)) = environ w
  ∧ (∃ l, trace (snd (main stdin w)) = trace w ++ l)
  ∧ (∃ l, log (snd (main stdin w)) = log w ++ l)
  ∧ (∃ l, stdout (snd (main stdin w)) = stdout w ++ l).
Proof. apply (keeps_main only_appends). Qed.

(** ** The Streamlit page *)

Lemma returns_ret {A} (a : A) : always_returns (ret a).
Proof. intros p. by eexists _, _. Qed.

Lemma returns_bind {A B} (m : M Page A) (k : A → M Page B) :
  always_returns m → (∀ a, always_returns (k a)) → always_returns (bind m k).
Proof.
  intros Hm Hk p. destruct (Hm p) as (a & p1 & H1). unfold bind. rewrite H1. apply Hk.
Qed.

Lemma returns_try {A} (body : M Page A) (handler : Exc → M Page A) :
  (∀ e, always_returns (handler e)) → always_returns (try_except body handler).
Proof.
  intros Hh p. unfold try_except. destruct (body p) as [[a|e] p1]; [by eexists _, _|].
  apply Hh.
Qed.

Lemma returns_if {A} (b : bool) (m1 m2 : M Page A) :
  always_returns m1 → always_returns m2 → always_returns (if b then m1 else m2).
Proof. by destruct b. Qed.

Lemma returns_st (c : StCall) : always_returns (st c).
Proof. intros p. by eexists _, _. Qed.

Lemma returns_session_state : always_returns session_state.
Proof. intros p. by eexists _, _. Qed.

Lemma returns_set_session (f : SessionState → SessionState) :
  always_returns (set_session f).
Proof. intros p. by eexists _, _. Qed.

Lemma returns_st_button (label : string) (disabled clicked : bool) :
  always_returns (st_button label disabled clicked).
Proof. intros p. by eexists _, _. Qed.

Lemma returns_for_each {A} (l : list A) (body : A → M Page unit) :
  (∀ a, always_returns (body a)) → always_returns (for_each l body).
Proof.
  intros Hb. induction l as [|a l IH]; simpl; [apply returns_ret|].
  apply returns_bind; [apply Hb|]. intros _. apply IH.
Qed.

Ltac returns_step :=
  lazymatch goal with
  | |- always_returns (bind _ _) => apply returns_bind
  | |- always_returns (try_except _ _) => apply returns_try
  | |- always_returns (ret _) => apply returns_ret
  | |- always_returns (st _) => apply returns_st
  | |- always_returns session_state => apply returns_session_state
  | |- always_returns (set_session _) => apply returns_set_session
  | |- always_returns (st_button _ _ _) => apply returns_st_button
  | |- always_returns (for_each _ _) => apply returns_for_each
  | |- always_returns (match ?x with _ => _ end) => destruct x
  | |- ∀ _, _ => intro
  end.

Lemma returns_initialize_chatbot : always_returns initialize_chatbot.
Proof. unfold initialize_chatbot. repeat returns_step. Qed.

Lemma returns_sidebar_head (inp : Widgets) : always_returns (sidebar_head inp).
Proof.
  unfold sidebar_head. repeat first [apply returns_initialize_chatbot | returns_step].
Qed.

Lemma returns_upload_section (inp : Widgets) : always_returns (upload_section inp).
Proof. unfold upload_section. repeat returns_step. Qed.

Lemma returns_text_section (inp : Widgets) : always_returns (text_section inp).
Proof. unfold text_section. repeat returns_step. Qed.

Lemma returns_clear_kb_section (inp : Widgets) : always_returns (clear_kb_section inp).
Proof. unfold clear_kb_section. repeat returns_step. Qed.

Lemma returns_chat_turn (prompt : string) : always_returns (chat_turn prompt).
Proof. unfold chat_turn, messages_append. repeat returns_step. Qed.

Lemma returns_chat_interface (inp : Widgets) : always_returns (chat_interface inp).
Proof.
  unfold chat_interface. repeat first [apply returns_chat_turn | returns_step].
Qed.

Lemma returns_footer : always_returns footer.
Proof. unfold footer. repeat returns_step. Qed.

Section Preserves.
Context (I : SessionState → Prop).

Lemma preserves_ret {A} (a : A) : preserves I (ret a).
Proof. by intros p. Qed.

Lemma preserves_raise {A} (e : Exc) : preserves I (@raise Page A e).
Proof. by intros p. Qed.

Lemma preserves_bind {A B} (m : M Page A) (k : A → M Page B) :
  preserves I m → (∀ a, preserves I (k a)) → preserves I (bind m k).
Proof.
  intros Hm Hk p Hp. unfold bind. specialize (Hm p Hp).
  destruct (m p) as [[a|e] p1]; simpl in *; [by apply Hk|done].
Qed.

Lemma preserves_try {A} (body : M Page A) (handler : Exc → M Page A) :
  preserves I body → (∀ e, preserves I (handler e)) →
  preserves I (try_except body handler).
Proof.
  intros Hb Hh p Hp. unfold try_except. specialize (Hb p Hp).
  destruct (body p) as [[a|e] p1]; simpl in *; [done|by apply Hh].
Qed.

Lemma preserves_if {A} (b : bool) (m1 m2 : M Page A) :
  preserves I m1 → preserves I m2 → preserves I (if b then m1 else m2).
Proof. by destruct b. Qed.

Lemma preserves_st (c : StCall) : preserves I (st c).
Proof. by intros p. Qed.

Lemma preserves_session_state : preserves I session_state.
Proof. by intros p. Qed.

Lemma preserves_st_button (label : string) (disabled clicked : bool) :
  preserves I (st_button label disabled clicked).
Proof. by intros p. Qed.

Lemma preserves_liftW {A} (m : M World A) : preserves I (liftW m).
Proof. intros p Hp. unfold liftW. by destruct (m (pworld p)). Qed.

Lemma preserves_for_each {A} (l : list A) (body : A → M Page unit) :
  (∀ a, preserves I (body a)) → preserves I (for_each l body).
Proof.
  intros Hb. induction l as [|a l IH]; simpl; [apply preserves_ret|].
  apply preserves_bind; [apply Hb|]. intros _. apply IH.
Qed.

End Preserves.

Lemma session_ok_messages (ss : SessionState) (l : list Message) :
  session_ok ss →
  session_ok {| ss_chatbot := ss_chatbot ss; ss_messages := l;
                ss_initialized := ss_initialized ss |}.
Proof. by intros []. Qed.

Lemma preserves_set_ss_messages (l : list Message) :
  preserves session_ok (set_ss_messages l).
Proof. intros p Hp. by apply session_ok_messages. Qed.

Lemma preserves_messages_append (m : Message) :
  preserves session_ok (messages_append m).
Proof. intros p Hp. by apply session_ok_messages. Qed.

(** A method that keeps a constructed instance constructed keeps the
    session well formed. *)
Lemma preserves_on_chatbot {A} (method : string) (m : M State A) :
  (∀ s, constructed (self s) → constructed (self (snd (m s)))) →
  preserves session_ok (on_chatbot method m).
Proof.
  intros Hm p [Hiff Hc]. unfold on_chatbot.
  destruct (ss_chatbot (session p)) as [c|] eqn:Hbot;
    [|cbn; split; by rewrite Hbot].
  specialize (Hm {| self := c; world := pworld p |} (Hc c eq_refl)).
  destruct (m _) as [o s]. cbn in *. split; cbn.
  - rewrite Hiff. split; intros _; by eexists.
  - intros c' [= <-]. exact Hm.
Qed.

(** What [initialize_chatbot] does, by the outcome of the constructor. *)
Lemma initialize_chatbot_run (p : Page) :
  initialize_chatbot p
  = match WeaviateChatbot_default (pworld p) with
    | (Return c, w') =>
        (Return true,
         {| session := {| ss_chatbot := Some c; ss_messages := ss_messages (session p);
                          ss_initialized := true |};
            drawn := drawn p ++ [StSuccess "✅ Chatbot initialized successfully!"];
            pworld := w' |})
    | (Raise e, w') =>
        (Return false,
         {| session := session p;
            drawn := drawn p
                     ++ [StError ("❌ Failed to initialize chatbot: " +:+ str_exc e);
                         StError "Make sure:";
                         StError "1. Weaviate is running (docker-compose up)";
                         StError "2. OPENAI_API_KEY is set in .env file"];
            pworld := w' |})
    end.
Proof.
  unfold initialize_chatbot, try_except. unfold bind at 1, liftW at 1.
  destruct (WeaviateChatbot_default (pworld p)) as [[c|e] w']; cbn.
  - reflexivity.
  - by rewrite <- !app_assoc.
Qed.

Lemma preserves_initialize_chatbot : preserves session_ok initialize_chatbot.
Proof.
  intros p Hp. rewrite initialize_chatbot_run.
  destruct (WeaviateChatbot_default (pworld p)) as [[c|e] w'] eqn:Hnew; cbn; [|done].
  split; cbn.
  - split; intros _; by eexists.
  - intros c' [= <-]. unfold WeaviateChatbot_default in Hnew.
    by apply (constructor_establishes _ _ _ _ _ _ _ _ _ Hnew).
Qed.

Lemma add_text_file_constructed (file_path : string) (s : State) :
  constructed (self s) → constructed (self (snd (add_text_file file_path s))).
Proof. by rewrite add_text_file_self. Qed.

Lemma add_documents_constructed (documents : list string) (titles : option (list string))
    (s : State) :
  constructed (self s) → constructed (self (snd (add_documents documents titles s))).
Proof. by rewrite add_documents_self. Qed.

Lemma chat_constructed (message : string) (s : State) :
  constructed (self s) → constructed (self (snd (chat message s))).
Proof. by rewrite chat_self. Qed.

Ltac preserves_step :=
  lazymatch goal with
  | |- preserves ?I (bind _ _) => apply (preserves_bind I)
  | |- preserves ?I (try_except _ _) => apply (preserves_try I)
  | |- preserves ?I (ret _) => apply (preserves_ret I)
  | |- preserves ?I (st _) => apply (preserves_st I)
  | |- preserves ?I session_state => apply (preserves_session_state I)
  | |- preserves ?I (st_button _ _ _) => apply (preserves_st_button I)
  | |- preserves ?I (liftW _) => apply (preserves_liftW I)
  | |- preserves ?I (for_each _ _) => apply (preserves_for_each I)
  | |- preserves _ (set_ss_messages _) => apply preserves_set_ss_messages
  | |- preserves _ (messages_append _) => apply preserves_messages_append
  | |- preserves _ initialize_chatbot => apply preserves_initialize_chatbot
  | |- preserves _ (on_chatbot _ (add_text_file _)) =>
      apply preserves_on_chatbot, add_text_file_constructed
  | |- preserves _ (on_chatbot _ (add_documents _ _)) =>
      apply preserves_on_chatbot, add_documents_constructed
  | |- preserves _ (on_chatbot _ (chat _)) =>
      apply preserves_on_chatbot, chat_constructed
  | |- preserves _ (on_chatbot _ clear_knowledge_base) =>
      apply preserves_on_chatbot, clear_knowledge_base_constructed
  | |- preserves _ (match ?x with _ => _ end) => destruct x
  | |- ∀ _, _ => intro
  end.

Lemma preserves_page_script (inp : Widgets) : preserves session_ok (page_script inp).
Proof.
  unfold page_script, sidebar_head, upload_section, text_section, clear_kb_section,
    chat_interface, chat_turn, footer.
  repeat preserves_step.
Qed.

Lemma returns_page_script (inp : Widgets) : always_returns (page_script inp).
Proof.
  unfold page_script, set_ss_messages.
  repeat first
    [ apply returns_sidebar_head | apply returns_upload_section
    | apply returns_text_section | apply returns_clear_kb_section
    | apply returns_chat_interface | apply returns_footer | returns_step ].
Qed.

Lemma session_ok_no_keys : session_ok (init_session_state no_keys).
Proof.
  split; cbn; [|done]. split; [done|]. by intros [c Hc].
Qed.

Lemma init_session_keys (ss : SessionState) :
  init_session_state (session_keys ss) = ss.
Proof. by destruct ss. Qed.

(** X19. [initialize_chatbot] never raises, and returns True exactly when the
    constructor returned.  On success the session holds the new instance
    (a constructed one) and the initialized flag, and one success message
    is shown.  On failure the session state is unchanged and four error
    messages are shown, the first quoting the exception.  The chat
    history is untouched in both cases, and the world is as the
    constructor left it (the assigned Settings included). *)
Theorem initialize_chatbot_never_raises (p : Page) :
  ∃ b p',
    initialize_chatbot p = (Return b, p')
    ∧ pworld p' = snd (WeaviateChatbot_default (pworld p))
    ∧ ss_messages (session p') = ss_messages (session p)
    ∧ if b
      then ∃ c,
             fst (WeaviateChatbot_default (pworld p)) = Return c
             ∧ ss_chatbot (session p') = Some c
             ∧ ss_initialized (session p') = true
             ∧ constructed c
             ∧ drawn p' = drawn p ++ [StSuccess "✅ Chatbot initialized successfully!"]
      else ∃ e,
             fst (WeaviateChatbot_default (pworld p)) = Raise e
             ∧ session p' = session p
             ∧ drawn p'
               = drawn p
                 ++ [StError ("❌ Failed to initialize chatbot: " +:+ str_exc e);
                     StError "Make sure:";
                     StError "1. Weaviate is running (docker-compose up)";
                     StError "2. OPENAI_API_KEY is set in .env file"].
Proof.
  rewrite initialize_chatbot_run.
  destruct (WeaviateChatbot_default (pworld p)) as [[c|e] w'] eqn:Hnew.
  - eexists true, _. split; [reflexivity|]. split; [reflexivity|]. split; [reflexivity|].
    exists c. repeat split; try reflexivity.
    unfold WeaviateChatbot_default in Hnew.
    by apply (constructor_establishes _ _ _ _ _ _ _ _ _ Hnew).
  - eexists false, _. split; [reflexivity|]. split; [reflexivity|]. split; [reflexivity|].
    by exists e.
Qed.

(** X20. A run of the page script never raises, whatever the session state,
    the widgets and the services are: every call into the chatbot is
    inside a handler that reports the exception on the page.  The run
    ends at [st.rerun()] exactly when Clear Chat History was clicked. *)
Theorem page_script_never_raises (inp : Widgets) (p : Page) :
  ∃ r p',
    page_script inp p = (Return r, p')
    ∧ (r = Rerun ↔ w_clear_history inp = true).
Proof.
  destruct (returns_page_script inp p) as (r & p' & Hrun).
  exists r, p'. split; [exact Hrun|].
  unfold page_script in Hrun.
  destruct (returns_sidebar_head inp p) as ([] & p1 & H1).
  unfold bind at 1 in Hrun. rewrite H1 in Hrun.
  destruct (returns_upload_section inp p1) as ([] & p2 & H2).
  unfold bind at 1 in Hrun. rewrite H2 in Hrun.
  destruct (returns_text_section inp p2) as ([] & p3 & H3).
  unfold bind at 1 in Hrun. rewrite H3 in Hrun.
  unfold bind at 1, st at 1, modify at 1 in Hrun.
  unfold bind at 1, st_button at 1, bind at 1, st at 1, modify at 1, ret at 1 in Hrun.
  rewrite andb_true_r in Hrun.
  destruct (w_clear_history inp).
  - cbn in Hrun. injection Hrun as <- _. done.
  - match type of Hrun with
    | (clear_kb_section inp;; ?k) ?q = _ =>
        destruct (returns_clear_kb_section inp q) as ([] & p4 & H4);
        unfold bind at 1 in Hrun; rewrite H4 in Hrun
    end.
    destruct (returns_chat_interface inp p4) as ([] & p5 & H5).
    unfold bind at 1 in Hrun. rewrite H5 in Hrun.
    destruct (returns_footer p5) as ([] & p6 & H6).
    unfold bind at 1 in Hrun. rewrite H6 in Hrun.
    injection Hrun as <- _. done.
Qed.

Lemma runs_ok (inps : list Widgets) (keys : SessionKeys) (w : World) :
  session_ok (init_session_state keys) →
  ∃ keys' w',
    runs inps keys w = (Return tt, (keys', w'))
    ∧ session_ok (init_session_state keys').
Proof.
  revert keys w. induction inps as [|inp inps IH]; intros keys w Hok; simpl.
  - by eexists _, _.
  - unfold run.
    set (p := {| session := init_session_state keys; drawn := []; pworld := w |}).
    destruct (returns_page_script inp p) as (r & p' & Hrun).
    assert (Hok' := preserves_page_script inp p Hok).
    rewrite Hrun in Hok' |- *. cbn in Hok'.
    apply IH. by rewrite init_session_keys.
Qed.

(** X21. In a browser session that starts without session keys, after any
    sequence of runs the initialized flag is set exactly when the session
    holds a chatbot, and that chatbot is a constructed instance: the chat
    interface never calls a method on None. *)
Theorem browser_session_invariant (inps : list Widgets) (w : World) :
  ∃ keys w',
    runs inps no_keys w = (Return tt, (keys, w'))
    ∧ (ss_initialized (init_session_state keys) = true
       ↔ is_Some (ss_chatbot (init_session_state keys)))
    ∧ ∀ c, ss_chatbot (init_session_state keys) = Some c → constructed c.
Proof. apply runs_ok, session_ok_no_keys. Qed.

Lemma on_chatbot_run {A} (method : string) (m : M State A) (p : Page)
    (c : WeaviateChatbot) :
  ss_chatbot (session p) = Some c →
  on_chatbot method m p
  = (fst (m {| self := c; world := pworld p |}),
     {| session := {| ss_chatbot := Some (self (snd (m {| self := c; world := pworld p |})));
                      ss_messages := ss_messages (session p);
                      ss_initialized := ss_initialized (session p) |};
        drawn := drawn p;
        pworld := world (snd (m {| self := c; world := pworld p |})) |}).
Proof. intros Hc. unfold on_chatbot. rewrite Hc. by destruct (m _). Qed.

(** X22. With a chatbot in the session, a submitted prompt appends exactly two
    messages to the history, the prompt as user and the value [chat]
    returns as assistant, and shows that value with [st.markdown].  The
    handler of the page around [chat] is never entered: a failed query
    arrives as the apology [chat] returns, shown and stored like any
    answer. *)
Theorem chat_turn_records_answer (prompt : string) (p : Page) (c : WeaviateChatbot) :
  ss_chatbot (session p) = Some c →
  ∃ answer s',
    chat prompt {| self := c; world := pworld p |} = (Return answer, s')
    ∧ chat_turn prompt p
      = (Return tt,
         {| session :=
              {| ss_chatbot := Some c;
                 ss_messages :=
                   ss_messages (session p)
                   ++ [{| msg_role := "user"; msg_content := prompt |};
                       {| msg_role := "assistant"; msg_content := answer |}];
                 ss_initialized := ss_initialized (session p) |};
            drawn := drawn p ++ [StChatMessage "user"; StMarkdown prompt;
                                 StChatMessage "assistant"; StSpinner "Thinking...";
                                 StMarkdown answer];
            pworld := world s' |}).
Proof.
  intros Hc.
  destruct (chat_total prompt {| self := c; world := pworld p |}) as (answer & s' & Hchat).
  exists answer, s'. split; [exact Hchat|].
  assert (Hself := chat_self prompt {| self := c; world := pworld p |}).
  rewrite Hchat in Hself. cbn in Hself.
  unfold chat_turn, try_except, messages_append, set_session, st, modify, bind.
  cbn. rewrite (on_chatbot_run "chat" (chat prompt) _ c) by (cbn; exact Hc).
  cbn. rewrite Hchat. cbn. rewrite Hself, <- !app_assoc. reflexivity.
Qed.

Lemma chat_turn_records_answer_witness :
  ∃ answer s',
    chat "Where is Paris?" {| self := demo_bot; world := pworld (demo_page query_down) |}
    = (Return answer, s')
    ∧ chat_turn "Where is Paris?" (demo_page query_down)
      = (Return tt,
         {| session :=
              {| ss_chatbot := Some demo_bot;
                 ss_messages :=
                   ss_messages (session (demo_page query_down))
                   ++ [{| msg_role := "user"; msg_content := "Where is Paris?" |};
                       {| msg_role := "assistant"; msg_content := answer |}];
                 ss_initialized := ss_initialized (session (demo_page query_down)) |};
            drawn := drawn (demo_page query_down)
                     ++ [StChatMessage "user"; StMarkdown "Where is Paris?";
                         StChatMessage "assistant"; StSpinner "Thinking...";
                         StMarkdown answer];
            pworld := world s' |}).
Proof.
  apply (chat_turn_records_answer "Where is Paris?" (demo_page query_down) demo_bot).
  reflexivity.
Defined.

Lemma open_write_run (path : string) (buffer : Buffer) (w : World) :
  files w !! path ≠ Some DeniedFile →
  open_write path buffer w
  = (Return tt, set_files (fun m => <[path := stored buffer]> m) w).
Proof. intros H. unfold open_write. by destruct (files w !! path) as [[]|]. Qed.

Lemma add_text_file_ok_run (c : WeaviateChatbot) (w : World) (path content : string)
    (idx : VectorStoreIndex) :
  files w !! path = Some (TextFile content) →
  index c = Some idx →
  fault w (trace w) (CallInsert (index_name_of idx) (Document_new content)) = None →
  add_text_file path {| self := c; world := w |}
  = (Return tt,
     {| self := c;
        world := add_log INFO ("Added file " +:+ path +:+ " to knowledge base")
                   (inserted (index_name_of idx) (Document_new content) w) |}).
Proof.
  intros Hfile Hidx Hf.
  unfold add_text_file, logger_error, logger_info, try_except.
  unfold bind at 1, lift at 1, open_read. cbn [self world]. rewrite Hfile.
  unfold bind at 1, attr at 1. cbn [self world]. rewrite Hidx.
  unfold bind at 1, lift at 1. cbn [self world].
  by rewrite (index_insert_ok _ _ _ Hf).
Qed.

Lemma files_add_text_file (path : string) (s : State) :
  files (world (snd (add_text_file path s))) = files (world s).
Proof. apply (keepsS_add_text_file only_appends). Qed.

(** X23. Adding an uploaded text file whose insertion succeeds stores its whole
    content as one Document and leaves no file at the temporary path: a
    file that was there before under the upload's name is overwritten and
    then removed. *)
Theorem upload_removes_temp_file (inp : Widgets) (p : Page) (up : UploadedFile)
    (c : WeaviateChatbot) (idx : VectorStoreIndex) (content : string) :
  w_uploaded_file inp = Some up → w_add_file inp = true →
  up_buffer up = Utf8Text content →
  ss_chatbot (session p) = Some c → index c = Some idx →
  files (pworld p) !! ("/tmp/" +:+ up_name up) ≠ Some DeniedFile →
  fault (pworld p) (trace (pworld p))
    (CallInsert (index_name_of idx) (Document_new content)) = None →
  ∃ p',
    upload_section inp p = (Return tt, p')
    ∧ session p' = session p
    ∧ files (pworld p') = delete ("/tmp/" +:+ up_name up) (files (pworld p))
    ∧ collection (pworld p') (index_name_of idx)
      = collection (pworld p) (index_name_of idx) ++ [Document_new content]
    ∧ drawn p'
      = drawn p
        ++ [StSubheader "📄 Add Knowledge";
            StFileUploader "Upload a text file" ["txt"; "md"; "py"; "js"; "html"; "css"];
            StButton "Add File to Knowledge Base" false;
            StSuccess ("✅ Added " +:+ up_name up +:+ " to knowledge base!")].
Proof.
  intros Hup Hclick Hbuf Hc Hidx Hfile Hf.
  destruct p as [[bot msgs ini] dr w]. cbn in Hc, Hfile, Hf. subst bot.
  unfold upload_section, st_button, try_except, st, session_state, modify, bind, ret.
  cbn -[on_chatbot add_text_file open_write os_remove].
  rewrite Hup, Hclick. cbn -[on_chatbot add_text_file open_write os_remove].
  unfold liftW at 1. cbn -[on_chatbot add_text_file open_write os_remove].
  rewrite (open_write_run _ _ _ Hfile). cbn -[on_chatbot add_text_file os_remove].
  rewrite (on_chatbot_run "add_text_file" _ _ c) by reflexivity.
  cbn -[add_text_file os_remove].
  rewrite (add_text_file_ok_run c _ _ content idx); [|cbn; by rewrite lookup_insert_eq, Hbuf|exact Hidx|exact Hf].
  cbn. unfold liftW, os_remove. cbn. rewrite lookup_insert_eq. cbn.
  eexists. split; [reflexivity|]. cbn.
  split; [reflexivity|]. split; [by rewrite delete_insert_eq|].
  split; [|by rewrite <- !app_assoc].
  unfold collection. cbn. by rewrite lookup_insert_eq.
Qed.

Lemma upload_removes_temp_file_witness :
  ∃ p',
    upload_section (click_add_file demo_upload) (demo_page no_fault) = (Return tt, p')
    ∧ session p' = session (demo_page no_fault)
    ∧ files (pworld p')
      = delete ("/tmp/" +:+ up_name demo_upload) (files (pworld (demo_page no_fault)))
    ∧ collection (pworld p') (index_name_of demo_index)
      = collection (pworld (demo_page no_fault)) (index_name_of demo_index)
        ++ [Document_new "Paris is on the Seine."]
    ∧ drawn p'
      = drawn (demo_page no_fault)
        ++ [StSubheader "📄 Add Knowledge";
            StFileUploader "Upload a text file" ["txt"; "md"; "py"; "js"; "html"; "css"];
            StButton "Add File to Knowledge Base" false;
            StSuccess ("✅ Added " +:+ up_name demo_upload +:+ " to knowledge base!")].
Proof.
  apply (upload_removes_temp_file (click_add_file demo_upload) (demo_page no_fault)
           demo_upload demo_bot demo_index "Paris is on the Seine.");
    try reflexivity.
  vm_compute. discriminate.
Defined.

(** X24. When [add_text_file] raises on the temporary copy of an upload (the
    content is not UTF-8, or the insertion fails), the page shows Error
    adding file: with the text of the exception and the clean-up is
    skipped: the temporary file stays in [/tmp], holding the upload. *)
Theorem upload_failure_leaves_temp_file (inp : Widgets) (p : Page) (up : UploadedFile)
    (c : WeaviateChatbot) (e : Exc) :
  w_uploaded_file inp = Some up → w_add_file inp = true →
  ss_chatbot (session p) = Some c →
  files (pworld p) !! ("/tmp/" +:+ up_name up) ≠ Some DeniedFile →
  fst (add_text_file ("/tmp/" +:+ up_name up)
         {| self := c;
            world := set_files (fun m => <["/tmp/" +:+ up_name up := stored (up_buffer up)]> m)
                       (pworld p) |})
  = Raise e →
  ∃ p',
    upload_section inp p = (Return tt, p')
    ∧ session p' = session p
    ∧ files (pworld p')
      = <["/tmp/" +:+ up_name up := stored (up_buffer up)]> (files (pworld p))
    ∧ drawn p'
      = drawn p
        ++ [StSubheader "📄 Add Knowledge";
            StFileUploader "Upload a text file" ["txt"; "md"; "py"; "js"; "html"; "css"];
            StButton "Add File to Knowledge Base" false;
            StError ("❌ Error adding file: " +:+ str_exc e)].
Proof.
  intros Hup Hclick Hc Hfile Hfail.
  destruct p as [[bot msgs ini] dr w]. cbn in Hc, Hfile, Hfail. subst bot.
  unfold upload_section, st_button, try_except, st, session_state, modify, bind, ret.
  cbn -[on_chatbot add_text_file open_write os_remove].
  rewrite Hup, Hclick. cbn -[on_chatbot add_text_file open_write os_remove].
  unfold liftW at 1. cbn -[on_chatbot add_text_file open_write os_remove].
  rewrite (open_write_run _ _ _ Hfile). cbn -[on_chatbot add_text_file os_remove].
  rewrite (on_chatbot_run "add_text_file" _ _ c) by reflexivity.
  cbn -[add_text_file os_remove].
  assert (Hfiles := files_add_text_file ("/tmp/" +:+ up_name up)
            {| self := c;
               world := set_files
                          (fun m => <["/tmp/" +:+ up_name up := stored (up_buffer up)]> m) w |}).
  assert (Hself := add_text_file_self ("/tmp/" +:+ up_name up)
            {| self := c;
               world := set_files
                          (fun m => <["/tmp/" +:+ up_name up := stored (up_buffer up)]> m) w |}).
  destruct (add_text_file _ _) as [o s1]. cbn in Hfail, Hfiles, Hself. subst o.
  cbn. eexists. split; [reflexivity|]. cbn. rewrite Hself, Hfiles.
  split; [reflexivity|]. split; [reflexivity|]. by rewrite <- !app_assoc.
Qed.

Lemma upload_failure_leaves_temp_file_witness :
  ∃ p',
    upload_section (click_add_file demo_binary_upload) (demo_page no_fault)
    = (Return tt, p')
    ∧ session p' = session (demo_page no_fault)
    ∧ files (pworld p')
      = <["/tmp/" +:+ up_name demo_binary_upload := stored (up_buffer demo_binary_upload)]>
          (files (pworld (demo_page no_fault)))
    ∧ drawn p'
      = drawn (demo_page no_fault)
        ++ [StSubheader "📄 Add Knowledge";
            StFileUploader "Upload a text file" ["txt"; "md"; "py"; "js"; "html"; "css"];
            StButton "Add File to Knowledge Base" false;
            StError ("❌ Error adding file: "
                     +:+ str_exc {| exc_class := UnicodeDecodeError;
                                    exc_msg := "'utf-8' codec can't decode byte 0xff in position 0: invalid start byte" |})].
Proof.
  apply (upload_failure_leaves_temp_file (click_add_file demo_binary_upload)
           (demo_page no_fault) demo_binary_upload demo_bot); try reflexivity.
  vm_compute. discriminate.
Defined.

(** X25. The button Add Text with a non-empty text, a chatbot in the session
    and an insertion that succeeds stores exactly one Document holding
    the text, through one insert call, and shows one success message. *)
Theorem add_text_stores_one_document (inp : Widgets) (p : Page) (c : WeaviateChatbot)
    (idx : VectorStoreIndex) :
  w_add_text inp = true → w_manual_text inp ≠ "" →
  ss_chatbot (session p) = Some c → index c = Some idx →
  fault (pworld p) (trace (pworld p))
    (CallInsert (index_name_of idx) (Document_new (w_manual_text inp))) = None →
  ∃ p',
    text_section inp p = (Return tt, p')
    ∧ session p' = session p
    ∧ collection (pworld p') (index_name_of idx)
      = collection (pworld p) (index_name_of idx) ++ [Document_new (w_manual_text inp)]
    ∧ trace (pworld p')
      = trace (pworld p)
        ++ [CallInsert (index_name_of idx) (Document_new (w_manual_text inp))]
    ∧ drawn p'
      = drawn p
        ++ [StSubheader "📝 Add Text";
            StTextArea "Enter text to add to knowledge base:";
            StButton "Add Text" false;
            StSuccess "✅ Text added to knowledge base!"].
Proof.
  intros Hclick Htext Hc Hidx Hf.
  destruct p as [[bot msgs ini] dr w]. cbn in Hc, Hf. subst bot.
  apply String.eqb_neq in Htext.
  unfold text_section, st_button, try_except, st, session_state, modify, bind, ret.
  cbn -[on_chatbot add_documents]. rewrite Hclick, Htext. cbn -[on_chatbot add_documents].
  rewrite ?bool_decide_eq_true_2 by by eexists. cbn -[on_chatbot add_documents].
  rewrite (on_chatbot_run "add_documents" _ _ c) by reflexivity.
  cbn -[add_documents].
  rewrite (add_documents_success {| self := c; world := w |} idx [w_manual_text inp] None Hidx).
  2:{ intros [|j] Hj; [|cbn in Hj; lia].
      unfold insert_fault. cbn. by rewrite app_nil_r. }
  cbn. eexists. split; [reflexivity|]. cbn.
  split; [reflexivity|].
  rewrite collection_add_log. unfold insert_all. cbn [foldl fmap list_fmap].
  rewrite collection_inserted. cbn. by rewrite <- !app_assoc.
Qed.

Lemma add_text_stores_one_document_witness :
  ∃ p',
    text_section (click_add_text "Paris is on the Seine.") (demo_page no_fault)
    = (Return tt, p')
    ∧ session p' = session (demo_page no_fault)
    ∧ collection (pworld p') (index_name_of demo_index)
      = collection (pworld (demo_page no_fault)) (index_name_of demo_index)
        ++ [Document_new (w_manual_text (click_add_text "Paris is on the Seine."))]
    ∧ trace (pworld p')
      = trace (pworld (demo_page no_fault))
        ++ [CallInsert (index_name_of demo_index)
              (Document_new (w_manual_text (click_add_text "Paris is on the Seine.")))]
    ∧ drawn p'
      = drawn (demo_page no_fault)
        ++ [StSubheader "📝 Add Text";
            StTextArea "Enter text to add to knowledge base:";
            StButton "Add Text" false;
            StSuccess "✅ Text added to knowledge base!"].
Proof.
  apply (add_text_stores_one_document (click_add_text "Paris is on the Seine.")
           (demo_page no_fault) demo_bot demo_index); try reflexivity.
  simpl. discriminate.
Defined.

(** X26. A run in which Clear Chat History was clicked (and no button above
    it) empties the chat history and ends at [st.rerun()]: the chatbot,
    the initialized flag and the world (the knowledge base included) are
    untouched, and neither the Clear Knowledge Base button nor a prompt
    is looked at in that run. *)
Theorem clear_history_only_clears_history (inp : Widgets) (p : Page) :
  w_clear_history inp = true →
  w_initialize inp = false → w_add_file inp = false → w_add_text inp = false →
  ∃ p',
    page_script inp p = (Return Rerun, p')
    ∧ ss_messages (session p') = []
    ∧ ss_chatbot (session p') = ss_chatbot (session p)
    ∧ ss_initialized (session p') = ss_initialized (session p)
    ∧ pworld p' = pworld p.
Proof.
  intros Hclear Hinit Hfile Htext.
  destruct p as [[bot msgs ini] dr w].
  unfold page_script, sidebar_head, upload_section, text_section, st_button,
    set_ss_messages, set_session, st, session_state, modify, bind, ret.
  cbn. rewrite Hclear, Hinit, Hfile, Htext. cbn.
  destruct ini, (w_uploaded_file inp) as [up|], bot as [c|]; cbn;
    eexists; (split; [reflexivity|]); by repeat split.
Qed.

Lemma clear_history_only_clears_history_witness :
  ∃ p',
    page_script click_clear_history (demo_page no_fault) = (Return Rerun, p')
    ∧ ss_messages (session p') = []
    ∧ ss_chatbot (session p') = ss_chatbot (session (demo_page no_fault))
    ∧ ss_initialized (session p') = ss_initialized (session (demo_page no_fault))
    ∧ pworld p' = pworld (demo_page no_fault).
Proof.
  apply (clear_history_only_clears_history click_clear_history (demo_page no_fault));
    reflexivity.
Defined.

(** X27. On the page a failing Clear Knowledge Base is reported and the run
    goes on (unlike the console, where it ends the session): when the
    deletion of the class fails the page shows Error clearing knowledge
    base: with the text of the exception, and the stored classes and the
    session state are unchanged. *)
Theorem clear_kb_failure_is_reported (inp : Widgets) (p : Page) (c : WeaviateChatbot)
    (cl : WeaviateClient) (e : Exc) :
  w_clear_kb inp = true →
  ss_chatbot (session p) = Some c → weaviate_client c = Some cl →
  fault (pworld p) (trace (pworld p)) (CallDeleteClass (index_name c)) = Some e →
  ∃ p',
    clear_kb_section inp p = (Return tt, p')
    ∧ session p' = session p
    ∧ classes (pworld p') = classes (pworld p)
    ∧ drawn p'
      = drawn p
        ++ [StButton "🗑️ Clear Knowledge Base" false;
            StError ("❌ Error clearing knowledge base: " +:+ str_exc e)].
Proof.
  intros Hclick Hc Hcl Hf.
  destruct p as [[bot msgs ini] dr w]. cbn in Hc, Hf. subst bot.
  destruct (clear_delete_failure_run c w cl e Hcl Hf) as (w' & Hrun & Hcls & _).
  unfold clear_kb_section, st_button, try_except, st, session_state, modify, bind, ret.
  cbn -[on_chatbot clear_knowledge_base]. rewrite Hclick. cbn -[on_chatbot clear_knowledge_base].
  rewrite ?bool_decide_eq_true_2 by by eexists. cbn -[on_chatbot clear_knowledge_base].
  rewrite (on_chatbot_run "clear_knowledge_base" _ _ c) by reflexivity.
  cbn -[clear_knowledge_base].
  rewrite Hrun. cbn.
  eexists. split; [reflexivity|]. cbn.
  split; [reflexivity|]. split; [exact Hcls|]. by rewrite <- !app_assoc.
Qed.

Lemma clear_kb_failure_is_reported_witness :
  ∃ p',
    clear_kb_section click_clear_kb (demo_page (fail_on is_delete_class demo_timeout))
    = (Return tt, p')
    ∧ session p' = session (demo_page (fail_on is_delete_class demo_timeout))
    ∧ classes (pworld p')
      = classes (pworld (demo_page (fail_on is_delete_class demo_timeout)))
    ∧ drawn p'
      = drawn (demo_page (fail_on is_delete_class demo_timeout))
        ++ [StButton "🗑️ Clear Knowledge Base" false;
            StError ("❌ Error clearing knowledge base: " +:+ str_exc demo_timeout)].
Proof.
  apply (clear_kb_failure_is_reported click_clear_kb
           (demo_page (fail_on is_delete_class demo_timeout)) demo_bot demo_client
           demo_timeout); reflexivity.
Defined.

(** A session on the sample world: the chatbot is initialized, then a
    question is asked. *)
Example browser_session_demo :
  ∃ c w',
    runs [click_initialize; submit_prompt "Where is Paris?"] no_keys
      (demo_world demo_env demo_docs no_fault)
    = (Return tt,
       ({| key_chatbot := Some (Some c);
           key_messages :=
             Some [{| msg_role := "user"; msg_content := "Where is Paris?" |};
                   {| msg_role := "assistant";
                      msg_content := "The capital of France is Paris. / The Eiffel Tower is in Paris." |}];
           key_initialized := Some true |}, w')).
Proof. eexists _, _. vm_compute. reflexivity. Qed.

(** ** The service probes *)

Lemma raise_for_status_run (r : HttpResponse) (w : World) :
  raise_for_status r w
  = if status_ok r then (Return tt, w)
    else (Raise (HTTPError
                   (pretty (status_code r)
                    +:+ (if (status_code r <? 500)%Z then " Client Error: "
                         else " Server Error: ")
                    +:+ reason r +:+ " for url: " +:+ response_url r)), w).
Proof.
  unfold raise_for_status, status_ok.
  destruct (400 <=? status_code r)%Z eqn:H4, (status_code r <? 500)%Z eqn:H5,
    (500 <=? status_code r)%Z eqn:H6, (status_code r <? 600)%Z eqn:H7;
    try reflexivity; lia.
Qed.

Lemma HTTPError_is_RequestException (msg : string) :
  is_RequestException (HTTPError msg) = true.
Proof. reflexivity. Qed.

(** What [test_weaviate] does, by the reply to its request. *)
Lemma test_weaviate_run (rt : Runtime) (w : World) :
  test_weaviate rt w
  = match http_get rt "http://localhost:8080/v1/.well-known/ready" with
    | Responded r =>
        if status_ok r
        then (Return true, write_stdout ("✅ Weaviate is ready!" +:+ newline) w)
        else (Return false,
              write_stdout
                (("❌ Failed to connect to Weaviate: "
                  +:+ pretty (status_code r)
                  +:+ (if (status_code r <? 500)%Z then " Client Error: "
                       else " Server Error: ")
                  +:+ reason r +:+ " for url: " +:+ response_url r) +:+ newline) w)
    | Failed e =>
        if is_RequestException e
        then (Return false,
              write_stdout (("❌ Failed to connect to Weaviate: " +:+ str_exc e)
                            +:+ newline) w)
        else (Raise e, w)
    end.
Proof.
  unfold test_weaviate, try_except, requests_get.
  destruct (http_get rt _) as [r|e].
  - unfold bind at 1, ret at 1. unfold bind at 1. rewrite raise_for_status_run.
    by destruct (status_ok r).
  - unfold bind at 1, raise at 1. by destruct (is_RequestException e).
Qed.

(** The handlers of [test_vllm_embeddings] catch every exception. *)
Lemma vllm_handler_returns (e : Exc) (w : World) :
  ∃ w',
    (if is_RequestException e
     then print ("❌ Failed to connect to vLLM server: " +:+ str_exc e);; ret false
     else print ("❌ Error: " +:+ str_exc e);; ret false) w
    = (Return false, w').
Proof. destruct (is_RequestException e); by eexists. Qed.

Lemma bind_print {A} (x : string) (k : unit → M World A) (w : World) :
  bind (print x) k w = k tt (write_stdout (x +:+ newline) w).
Proof. reflexivity. Qed.

Ltac run_probe := repeat (progress (rewrite ?bind_print; cbn -[print])).

Lemma test_vllm_embeddings_total (rt : Runtime) (w : World) :
  ∃ b w', test_vllm_embeddings rt w = (Return b, w').
Proof.
  unfold test_vllm_embeddings, try_except.
  match goal with |- context [let (o, s') := ?body w in _] => destruct (body w) as [[b|e] w1] end.
  - by eexists _, _.
  - destruct (vllm_handler_returns e w1) as [w' H]. by eexists _, _.
Qed.

(** X28. [test_vllm_embeddings] never raises, and returns True exactly when the
    POST is answered with a status outside 400 to 599 whose body parses
    to a dict whose data is a list starting with a dict that holds an
    embedding (a list or a str) and an object.  Every other reply,
    exception or shape of the body gives False. *)
Theorem test_vllm_embeddings_verdict (rt : Runtime) (w : World) :
  ∃ w',
    test_vllm_embeddings rt w
    = (Return
         match http_post rt "http://localhost:8000/v1/embeddings"
                 {[ "Content-Type" := "application/json";
                    "Authorization" := "Bearer dummy-key" ]}
                 (JObject {[ "model" := JString "bge-small-en-v1.5";
                             "input" := JString "Hello, this is a test sentence for embeddings." ]}) with
         | Responded r =>
             status_ok r
             && match json_body r with
                | inl v => embedding_response v
                | inr _ => false
                end
         | Failed _ => false
         end, w').
Proof.
  unfold test_vllm_embeddings, try_except, requests_post.
  destruct (http_post rt _ _ _) as [r|e]; cycle 1.
  { unfold bind at 1, raise at 1. apply vllm_handler_returns. }
  unfold bind at 1, ret at 1. unfold bind at 1. rewrite raise_for_status_run.
  destruct (status_ok r); cycle 1.
  { apply vllm_handler_returns. }
  unfold response_json. destruct (json_body r) as [v|e]; cycle 1.
  { unfold bind at 1, raise at 1. apply vllm_handler_returns. }
  unfold bind at 1, ret at 1. cbn [andb].
  destruct v as [|b|n|s|items|members]; cbn -[print];
    try apply vllm_handler_returns.
  - destruct (bool_decide _); cbn -[print];
      [apply vllm_handler_returns|by eexists].
  - destruct (existsb _ _); cbn -[print];
      [apply vllm_handler_returns|by eexists].
  - destruct (members !! "data") as [d|] eqn:Hd; cycle 1.
    { rewrite bool_decide_eq_false_2 by by intros [? ?]. cbn -[print]. by eexists. }
    rewrite bool_decide_eq_true_2 by by eexists. cbn -[print].
    destruct d as [|b|n|s|items|m2]; cbn -[print]; try apply vllm_handler_returns.
    + destruct (code_points s); cbn -[print]; [by eexists|].
      destruct s; cbn -[print]; apply vllm_handler_returns.
    + destruct items as [|x rest]; cbn -[print]; [by eexists|].
      destruct x as [|b|n|s|items|first]; cbn -[print];
        try apply vllm_handler_returns.
      destruct (first !! "embedding") as [emb|] eqn:Hemb; cbn -[print];
        [|apply vllm_handler_returns].
      run_probe.
      destruct (first !! "object") as [obj|] eqn:Hobj; run_probe;
        [|destruct emb; apply vllm_handler_returns].
      destruct emb; run_probe; try apply vllm_handler_returns; by eexists.
    + destruct (size m2); cbn -[print]; [by eexists|apply vllm_handler_returns].
Qed.

(** X29. When the first item of the data holds an embedding but no object,
    [test_vllm_embeddings] prints that the server is working, then the
    error of the missing key, and returns False: the success line is
    printed before the response has been read completely. *)
Theorem test_vllm_embeddings_success_then_error (rt : Runtime) (w : World)
    (r : HttpResponse) (members first : gmap string Json) (rest : list Json)
    (embedding : Json) :
  http_post rt "http://localhost:8000/v1/embeddings"
    {[ "Content-Type" := "application/json"; "Authorization" := "Bearer dummy-key" ]}
    (JObject {[ "model" := JString "bge-small-en-v1.5";
                "input" := JString "Hello, this is a test sentence for embeddings." ]})
  = Responded r →
  status_ok r = true →
  json_body r = inl (JObject members) →
  members !! "data" = Some (JArray (JObject first :: rest)) →
  first !! "embedding" = Some embedding →
  first !! "object" = None →
  is_RequestException (py_error rt (OpGetItem "object") (JObject first)) = false →
  test_vllm_embeddings rt w
  = (Return false,
     write_stdout
       (("❌ Error: " +:+ str_exc (py_error rt (OpGetItem "object") (JObject first)))
        +:+ newline)
       (write_stdout ("✅ vLLM embedding server is working!" +:+ newline) w)).
Proof.
  intros Hpost Hstatus Hjson Hdata Hemb Hobj Hexc.
  unfold test_vllm_embeddings, try_except, requests_post. rewrite Hpost.
  unfold bind at 1, ret at 1. unfold bind at 1. rewrite raise_for_status_run, Hstatus.
  unfold response_json. rewrite Hjson. unfold bind at 1, ret at 1.
  cbn -[print]. rewrite bool_decide_eq_true_2 by by eexists.
  cbn -[print]. rewrite Hdata. cbn -[print]. rewrite Hemb. run_probe.
  rewrite Hobj. run_probe. rewrite Hexc. reflexivity.
Qed.

Lemma test_vllm_embeddings_success_then_error_witness :
  test_vllm_embeddings
    (demo_runtime demo_connection_refused (demo_ok demo_embedding_no_object))
    (demo_world demo_env [] no_fault)
  = (Return false,
     write_stdout
       (("❌ Error: "
         +:+ str_exc (py_error
                        (demo_runtime demo_connection_refused
                           (demo_ok demo_embedding_no_object))
                        (OpGetItem "object")
                        (JObject {[ "embedding" := JArray [JNumber "0.1"; JNumber "-0.2"] ]})))
        +:+ newline)
       (write_stdout ("✅ vLLM embedding server is working!" +:+ newline)
          (demo_world demo_env [] no_fault))).
Proof.
  apply (test_vllm_embeddings_success_then_error
           (demo_runtime demo_connection_refused (demo_ok demo_embedding_no_object))
           (demo_world demo_env [] no_fault)
           {| status_code := 200; reason := "OK";
              response_url := "http://localhost:8000/v1/embeddings";
              json_body := inl demo_embedding_no_object |}
           {[ "data" :=
                JArray [JObject {[ "embedding" := JArray [JNumber "0.1"; JNumber "-0.2"] ]}] ]}
           {[ "embedding" := JArray [JNumber "0.1"; JNumber "-0.2"] ]}
           [] (JArray [JNumber "0.1"; JNumber "-0.2"]));
    vm_compute; reflexivity.
Defined.

(** X30. The script probes Weaviate first.  When that request raises an
    exception that is not a RequestException, [test_weaviate] lets it
    through and the script ends with it, before the embedding server is
    probed.  Otherwise the embedding probe is run whatever the first
    probe returned, it returns, and the script prints the verdict that
    all services work exactly when both probes returned True. *)
Theorem test_services_main_verdict (rt : Runtime) (w : World) :
  match test_weaviate rt
          (write_stdout (String.concat "" (replicate 40 "-") +:+ newline)
             (write_stdout ("Testing services..." +:+ newline) w)) with
  | (Raise e, w1) =>
      test_services_main rt w = (Raise e, w1)
      ∧ http_get rt "http://localhost:8080/v1/.well-known/ready" = Failed e
      ∧ is_RequestException e = false
  | (Return weaviate_ok, w1) =>
      ∃ vllm_ok w2,
        test_vllm_embeddings rt w1 = (Return vllm_ok, w2)
        ∧ test_services_main rt w
          = (Return tt,
             if weaviate_ok && vllm_ok
             then write_stdout
                    ("You can now use the chatbot with vLLM embeddings." +:+ newline)
                    (write_stdout ("🎉 All services are working correctly!" +:+ newline)
                       (write_stdout (String.concat "" (replicate 40 "-") +:+ newline)
                          w2))
             else write_stdout
                    ("Run: docker-compose logs to see detailed logs." +:+ newline)
                    (write_stdout
                       ("⚠️  Some services are not working. Please check the logs."
                        +:+ newline)
                       (write_stdout (String.concat "" (replicate 40 "-") +:+ newline)
                          w2)))
  end.
Proof.
  set (w0 := write_stdout _ (write_stdout _ w)).
  assert (Hmain : test_services_main rt w
                  = (weaviate_ok <- test_weaviate rt;;
                     vllm_ok <- test_vllm_embeddings rt;;
                     print (String.concat "" (replicate 40 "-"));;
                     if weaviate_ok && vllm_ok
                     then print "🎉 All services are working correctly!";;
                          print "You can now use the chatbot with vLLM embeddings."
                     else print "⚠️  Some services are not working. Please check the logs.";;
                          print "Run: docker-compose logs to see detailed logs.") w0)
    by reflexivity.
  assert (Hw := test_weaviate_run rt w0).
  destruct (test_weaviate rt w0) as [[weaviate_ok|e] w1] eqn:Htw.
  - destruct (test_vllm_embeddings_total rt w1) as (vllm_ok & w2 & Hv).
    exists vllm_ok, w2. split; [exact Hv|].
    rewrite Hmain. unfold bind at 1. rewrite Htw.
    unfold bind at 1. rewrite Hv. rewrite bind_print.
    by destruct (weaviate_ok && vllm_ok).
  - split; [rewrite Hmain; unfold bind at 1; by rewrite Htw|].
    destruct (http_get rt _) as [r|e']; [by destruct (status_ok r)|].
    destruct (is_RequestException e') eqn:He; [discriminate|].
    by injection Hw as -> _.
Qed.

(** The probes on sample replies: Weaviate refuses the connection and the
    embedding server answers. *)
Example test_services_demo :
  stdout (snd (test_services_main
                 (demo_runtime demo_connection_refused (demo_ok demo_embedding))
                 (demo_world demo_env [] no_fault)))
  = (fun line => line +:+ newline)
    <$> ["Testing services...";
         "----------------------------------------";
         "❌ Failed to connect to Weaviate: Connection refused";
         "✅ vLLM embedding server is working!";
         "   Model: embedding";
         "   Embedding dimension: 2";
         "   First 5 values: [...]";
         "----------------------------------------";
         "⚠️  Some services are not working. Please check the logs.";
         "Run: docker-compose logs to see detailed logs."].
Proof. vm_compute. reflexivity. Qed.
